(** * Thermos checkpoint dispatcher (twitter/thermos/base/ckpt.py)

    A shallow embedding of [TaskCkptDispatcher]: the thrift structures it
    manipulates, the in-place mutation of the [TaskRunnerState] it is handed,
    the exceptions it raises and the handler callbacks it fires, followed by
    the properties of the checkpoint state machine.

    Conventions of the embedding.
    - A thrift field is [option]: [None] is Python's [None].
    - Python mutates the objects it is handed and may raise afterwards.  A
      computation is therefore a function from the store to the store
      reached together with either the exception raised or the value
      returned: what was mutated before a [raise] stays mutated.
    - A registered callback is identified by a number; calling it appends to
      the list of calls.  Log lines are kept in a list of their own.
    - The code is Python 2: [None] orders below every integer. *)

From Stdlib Require Import ZArith Bool List Lia.
From stdpp Require Import base option list gmap strings.

Import ListNotations.
Local Open Scope Z_scope.

(** ** Thrift enumerations *)

Module ProcessRunState.
(** The seven run states named by [register_state_handler].  Every value
    of this type is one of them, so the final [else] of
    [update_task_state] ("Unknown run_state") has no counterpart here. *)
Inductive t := WAITING | FORKED | RUNNING | FINISHED | KILLED | FAILED | LOST.

#[global] Instance run_state_eq_dec : EqDecision t.
Proof. solve_decision. Defined.

Definition to_nat (s : t) : nat :=
  match s with
  | WAITING => 0 | FORKED => 1 | RUNNING => 2 | FINISHED => 3
  | KILLED => 4 | FAILED => 5 | LOST => 6
  end%nat.

Definition of_nat (n : nat) : option t :=
  match n with
  | 0 => Some WAITING | 1 => Some FORKED | 2 => Some RUNNING
  | 3 => Some FINISHED | 4 => Some KILLED | 5 => Some FAILED
  | 6 => Some LOST | _ => None
  end%nat.

#[global] Instance countable : Countable t :=
  inj_countable to_nat of_nat
    (fun s =>
       match s return of_nat (to_nat s) = Some s with
       | WAITING | FORKED | RUNNING | FINISHED | KILLED | FAILED | LOST =>
           eq_refl
       end).
End ProcessRunState.

Module TaskState.
(** Modelled from the spec: the [TaskState] / [TaskRunState] enumerations
    of [gen.twitter.thermos.ttypes], which the source imports and which
    are not part of it.  The spec names the outcomes ACTIVE, SUCCESS and
    FAILED; the dispatcher only ever names [ACTIVE] and compares the
    others for equality. *)
Inductive t := ACTIVE | SUCCESS | FAILED.

#[global] Instance task_state_eq_dec : EqDecision t.
Proof. solve_decision. Defined.
End TaskState.

(** ** Thrift structures *)

(** The names under which [check_nonempty_fields] and [copy_fields] reach
    into [process_state.__dict__]. *)
Inductive Field :=
| F_seq | F_run_state | F_process
| F_fork_time | F_runner_pid
| F_start_time | F_pid
| F_stop_time | F_return_code.

#[global] Instance Field_eq_dec : EqDecision Field.
Proof. solve_decision. Defined.

Module ProcessState.
(** Time stamps, pids and return codes are only ever copied, never
    computed with; they are integers here. *)
Record t := mk {
  seq : option Z;
  process : option string;
  run_state : option ProcessRunState.t;
  fork_time : option Z;
  runner_pid : option Z;
  start_time : option Z;
  pid : option Z;
  stop_time : option Z;
  return_code : option Z
}.

#[global] Instance process_state_eq_dec : EqDecision t.
Proof. solve_decision. Defined.

(** [ProcessState(seq = .., process = .., run_state = ..)] *)
Definition make (seq : option Z) (process : option string)
    (run_state : option ProcessRunState.t) : t :=
  mk seq process run_state None None None None None None.

(** [process_state.__dict__[field] is None] *)
Definition is_none (f : Field) (ps : t) : bool :=
  match f with
  | F_seq => bool_decide (seq ps = None)
  | F_run_state => bool_decide (run_state ps = None)
  | F_process => bool_decide (process ps = None)
  | F_fork_time => bool_decide (fork_time ps = None)
  | F_runner_pid => bool_decide (runner_pid ps = None)
  | F_start_time => bool_decide (start_time ps = None)
  | F_pid => bool_decide (pid ps = None)
  | F_stop_time => bool_decide (stop_time ps = None)
  | F_return_code => bool_decide (return_code ps = None)
  end.

(** [dst.__dict__[field] = copy.deepcopy(src.__dict__[field])]; the fields
    are values, so the deep copy is the value itself. *)
Definition copy_field (f : Field) (src dst : t) : t :=
  match f with
  | F_seq =>
      mk (seq src) (process dst) (run_state dst) (fork_time dst)
         (runner_pid dst) (start_time dst) (pid dst) (stop_time dst)
         (return_code dst)
  | F_run_state =>
      mk (seq dst) (process dst) (run_state src) (fork_time dst)
         (runner_pid dst) (start_time dst) (pid dst) (stop_time dst)
         (return_code dst)
  | F_process =>
      mk (seq dst) (process src) (run_state dst) (fork_time dst)
         (runner_pid dst) (start_time dst) (pid dst) (stop_time dst)
         (return_code dst)
  | F_fork_time =>
      mk (seq dst) (process dst) (run_state dst) (fork_time src)
         (runner_pid dst) (start_time dst) (pid dst) (stop_time dst)
         (return_code dst)
  | F_runner_pid =>
      mk (seq dst) (process dst) (run_state dst) (fork_time dst)
         (runner_pid src) (start_time dst) (pid dst) (stop_time dst)
         (return_code dst)
  | F_start_time =>
      mk (seq dst) (process dst) (run_state dst) (fork_time dst)
         (runner_pid dst) (start_time src) (pid dst) (stop_time dst)
         (return_code dst)
  | F_pid =>
      mk (seq dst) (process dst) (run_state dst) (fork_time dst)
         (runner_pid dst) (start_time dst) (pid src) (stop_time dst)
         (return_code dst)
  | F_stop_time =>
      mk (seq dst) (process dst) (run_state dst) (fork_time dst)
         (runner_pid dst) (start_time dst) (pid dst) (stop_time src)
         (return_code dst)
  | F_return_code =>
      mk (seq dst) (process dst) (run_state dst) (fork_time dst)
         (runner_pid dst) (start_time dst) (pid dst) (stop_time dst)
         (return_code src)
  end.

Definition set_seq (v : option Z) (ps : t) : t :=
  mk v (process ps) (run_state ps) (fork_time ps) (runner_pid ps)
     (start_time ps) (pid ps) (stop_time ps) (return_code ps).

Definition set_run_state (v : option ProcessRunState.t) (ps : t) : t :=
  mk (seq ps) (process ps) v (fork_time ps) (runner_pid ps)
     (start_time ps) (pid ps) (stop_time ps) (return_code ps).
End ProcessState.

Module ProcessHistory.
Record t := mk {
  process : option string;
  runs : list ProcessState.t;
  state : option TaskState.t
}.

Definition set_runs (rs : list ProcessState.t) (h : t) : t :=
  mk (process h) rs (state h).

Definition set_state (s : option TaskState.t) (h : t) : t :=
  mk (process h) (runs h) s.
End ProcessHistory.

(** Modelled from the spec: the [RunnerHeader] structure of
    [gen.twitter.thermos.ttypes].  The dispatcher stores it and never looks
    inside; it stands here for the header value as a whole. *)
Definition RunnerHeader := string.

Module AllocatedPort.
Record t := mk { port : Z; port_name : string }.
End AllocatedPort.

Module TaskStateUpdate.
(** The state is an optional thrift field like any other.  The dispatcher
    looks its name up in [TaskState._VALUES_TO_NAMES] for a log message,
    which fails with [KeyError] when the field is unset. *)
Record t := mk { state : option TaskState.t }.
End TaskStateUpdate.

Module HistoryStateUpdate.
(** As for [TaskStateUpdate], with [TaskRunState._VALUES_TO_NAMES]. *)
Record t := mk { process : option string; state : option TaskState.t }.
End HistoryStateUpdate.

Module TaskRunnerCkpt.
(** One optional member per kind of record, as thrift generates it; the
    dispatcher looks at them in this order. *)
Record t := mk {
  runner_header : option RunnerHeader;
  allocated_port : option AllocatedPort.t;
  state_update : option TaskStateUpdate.t;
  history_state_update : option HistoryStateUpdate.t;
  process_state : option ProcessState.t
}.
End TaskRunnerCkpt.

Module TaskRunnerState.
Record t := mk {
  header : option RunnerHeader;
  ports : option (gmap string Z);
  processes : gmap (option string) ProcessHistory.t;
  state : option TaskState.t
}.

Definition set_header (v : option RunnerHeader) (s : t) : t :=
  mk v (ports s) (processes s) (state s).

Definition set_ports (v : option (gmap string Z)) (s : t) : t :=
  mk (header s) v (processes s) (state s).

Definition set_processes (v : gmap (option string) ProcessHistory.t)
    (s : t) : t :=
  mk (header s) (ports s) v (state s).

Definition set_state (v : option TaskState.t) (s : t) : t :=
  mk (header s) (ports s) (processes s) v.
End TaskRunnerState.

(** ** Exceptions, callbacks and log lines *)

(** What the message of an [ErrorRecoveringState] is about. *)
Inductive Reason :=
| FieldShouldBeEmpty (f : Field)
| MissingField (f : Field)
| RebindHeader
| PortConflict (port_name : string)
| TwoTerminalStates (process : option string).

(** The three classes derived from [TaskCkptDispatcher.Error], and the
    built-in exceptions the dispatcher can run into. *)
Inductive Exn :=
| ErrorRecoveringState (why : Reason)
| InvalidStateTransition
| InvalidSequenceNumber
| KeyError
| IndexError
| TypeError.

(** [isinstance(e, TaskCkptDispatcher.Error)] *)
Definition is_dispatcher_error (e : Exn) : bool :=
  match e with
  | ErrorRecoveringState _ | InvalidStateTransition | InvalidSequenceNumber =>
      true
  | KeyError | IndexError | TypeError => false
  end.

Definition Handler := nat.

Inductive Call :=
| StateCall (h : Handler) (process_update : ProcessState.t)
| PortCall (h : Handler) (name : string) (port : Z).

Inductive LogLine :=
| ErrNoncontiguous (process_state process_state_update : ProcessState.t)
| ErrEmptyCkpt
| DbgInitHeader (h : RunnerHeader)
| DbgAssignPort (port_name : string) (port : Z)
| DbgFlipTask (old : option TaskState.t) (new : TaskState.t)
| DbgFlipHistory (process : option string) (old : option TaskState.t)
    (new : TaskState.t)
| DbgNeverEncountered (process : option string)
| DbgTerminalToNonterminal (process : option string)
| DbgRunningStateMachine (process : option string) (seq : option Z).

(** ** Computations over a mutable object *)

Record Env (S : Type) := mkEnv {
  obj : S;
  calls : list Call;
  logs : list LogLine
}.
Arguments mkEnv {S} _ _ _.
Arguments obj {S} _.
Arguments calls {S} _.
Arguments logs {S} _.

Definition M (S A : Type) : Type := Env S -> Env S * (Exn + A).

Definition ret {S A} (a : A) : M S A := fun w => (w, inr a).

Definition bind {S A B} (m : M S A) (k : A -> M S B) : M S B :=
  fun w =>
    match m w with
    | (w', inr a) => k a w'
    | (w', inl e) => (w', inl e)
    end.

Definition raise {S A} (e : Exn) : M S A := fun w => (w, inl e).

Definition get {S} : M S S := fun w => (w, inr (obj w)).

Definition modify {S} (f : S -> S) : M S unit :=
  fun w => (mkEnv (f (obj w)) (calls w) (logs w), inr tt).

Definition call {S} (c : Call) : M S unit :=
  fun w => (mkEnv (obj w) (calls w ++ [c]) (logs w), inr tt).

Definition log {S} (l : LogLine) : M S unit :=
  fun w => (mkEnv (obj w) (calls w) (logs w ++ [l]), inr tt).

Notation "x <- m ;; k" := (bind m (fun x => k))
  (at level 100, m at next level, right associativity).
Notation "m ;; k" := (bind m (fun _ => k))
  (at level 100, right associativity).

(** [for x in xs: body(x)] *)
Fixpoint for_each {S X A} (xs : list X) (body : X -> M S A) : M S unit :=
  match xs with
  | [] => ret tt
  | x :: xs' => body x ;; for_each xs' body
  end.

(** ** Python 2 comparisons with [None] *)

(** [a > b] for an optional integer [a] and an integer [b]. *)
Definition py_gt (a : option Z) (b : Z) : bool :=
  match a with
  | Some x => x >? b
  | None => false
  end.

(** [a < b] for two optional integers: [None] is below every integer. *)
Definition py_lt (a b : option Z) : bool :=
  match a, b with
  | Some x, Some y => x <? y
  | None, Some _ => true
  | _, None => false
  end.

(** [a <= b] for an integer [a] and an optional integer [b]. *)
Definition py_le (a : Z) (b : option Z) : bool :=
  match b with
  | Some y => a <=? y
  | None => false
  end.

(** ** The dispatcher object *)

Record Dispatcher := mkDispatcher {
  _state_handlers : gmap (option ProcessRunState.t) (list Handler);
  _universal_handlers : list Handler;
  _port_handlers : list Handler
}.

(** [TaskCkptDispatcher()] *)
Definition __init__ : Dispatcher := mkDispatcher ∅ [] [].

Definition register_state_handler (run_state : option ProcessRunState.t)
    (function : Handler) (self : Dispatcher) : Dispatcher :=
  let handlers :=
    match _state_handlers self !! run_state with
    | None => <[run_state := []]> (_state_handlers self)
    | Some _ => _state_handlers self
    end in
  mkDispatcher
    (<[run_state := default [] (handlers !! run_state) ++ [function]]> handlers)
    (_universal_handlers self) (_port_handlers self).

Definition register_port_handler (function : Handler) (self : Dispatcher)
    : Dispatcher :=
  mkDispatcher (_state_handlers self) (_universal_handlers self)
    (_port_handlers self ++ [function]).

Definition register_universal_handler (function : Handler)
    (self : Dispatcher) : Dispatcher :=
  mkDispatcher (_state_handlers self) (_universal_handlers self ++ [function])
    (_port_handlers self).

Definition _run_state_dispatch {S} (self : Dispatcher)
    (state : option ProcessRunState.t) (process_update : ProcessState.t)
    : M S unit :=
  for_each (_universal_handlers self)
    (fun handler => call (StateCall handler process_update)) ;;
  for_each (default [] (_state_handlers self !! state))
    (fun handler => call (StateCall handler process_update)).

Definition _run_port_dispatch {S} (self : Dispatcher) (name : string)
    (port : Z) : M S unit :=
  for_each (_port_handlers self)
    (fun handler => call (PortCall handler name port)).

(** ** Field checks and copies *)

Fixpoint check_empty_fields {S} (process_state : ProcessState.t)
    (fields : list Field) : M S unit :=
  match fields with
  | [] => ret tt
  | field :: fields' =>
      if negb (ProcessState.is_none field process_state)
      then raise (ErrorRecoveringState (FieldShouldBeEmpty field))
      else check_empty_fields process_state fields'
  end.

Fixpoint check_nonempty_fields {S} (process_state : ProcessState.t)
    (fields : list Field) : M S unit :=
  match fields with
  | [] => ret tt
  | field :: fields' =>
      if ProcessState.is_none field process_state
      then raise (ErrorRecoveringState (MissingField field))
      else check_nonempty_fields process_state fields'
  end.

(** The object written to is the one the computation runs over: the
    [process_state] argument of the source. *)
Definition check_and_copy_fields (process_state_update : ProcessState.t)
    (fields : list Field) : M ProcessState.t unit :=
  process_state <- get ;;
  check_empty_fields process_state fields ;;
  check_nonempty_fields process_state_update fields ;;
  for_each fields
    (fun field => modify (ProcessState.copy_field field process_state_update)).

Definition copy_fields (process_state_update : ProcessState.t)
    (fields : list Field) : M ProcessState.t unit :=
  check_nonempty_fields process_state_update fields ;;
  for_each fields
    (fun field => modify (ProcessState.copy_field field process_state_update)).

Definition is_terminal (process_state_update : ProcessState.t) : bool :=
  let TERMINAL_STATES :=
    [ProcessRunState.FINISHED; ProcessRunState.FAILED;
     ProcessRunState.KILLED; ProcessRunState.LOST] in
  match ProcessState.run_state process_state_update with
  | Some s => bool_decide (s ∈ TERMINAL_STATES)
  | None => false
  end.

(** ** The process state machine *)

(** Lines 141 to 208 of [update_task_state]: what follows the sequence
    number checks. *)
Definition run_transition (self : Dispatcher)
    (process_state_update : ProcessState.t) : M ProcessState.t bool :=
  match ProcessState.run_state process_state_update with
  | Some update_run_state =>
      process_state <- get ;;
      if bool_decide
           (ProcessState.run_state process_state = Some update_run_state)
      then raise InvalidStateTransition
      else ret tt
  | None => ret tt
  end ;;
  match ProcessState.run_state process_state_update with
  | Some ProcessRunState.WAITING =>
      (* [CREATION] => WAITING *)
      let required_fields := [F_seq; F_run_state; F_process] in
      copy_fields process_state_update required_fields
  | Some ProcessRunState.FORKED =>
      (* WAITING => FORKED *)
      process_state <- get ;;
      if bool_decide (ProcessState.run_state process_state
                      ≠ Some ProcessRunState.WAITING)
      then raise InvalidStateTransition
      else
        let required_fields :=
          [F_seq; F_run_state; F_fork_time; F_runner_pid] in
        copy_fields process_state_update required_fields
  | Some ProcessRunState.RUNNING =>
      (* FORKED => RUNNING *)
      process_state <- get ;;
      if bool_decide (ProcessState.run_state process_state
                      ≠ Some ProcessRunState.FORKED)
      then raise InvalidStateTransition
      else
        let required_fields := [F_seq; F_run_state; F_start_time; F_pid] in
        copy_fields process_state_update required_fields
  | Some ProcessRunState.FINISHED =>
      (* RUNNING => FINISHED *)
      process_state <- get ;;
      if bool_decide (ProcessState.run_state process_state
                      ≠ Some ProcessRunState.RUNNING)
      then raise InvalidStateTransition
      else
        let required_fields :=
          [F_seq; F_run_state; F_stop_time; F_return_code] in
        copy_fields process_state_update required_fields
  | Some ProcessRunState.FAILED =>
      (* RUNNING => FAILED *)
      process_state <- get ;;
      if bool_decide (ProcessState.run_state process_state
                      ≠ Some ProcessRunState.RUNNING)
      then raise InvalidStateTransition
      else
        let required_fields :=
          [F_seq; F_run_state; F_stop_time; F_return_code] in
        copy_fields process_state_update required_fields
  | Some ProcessRunState.KILLED =>
      (* {FORKED, RUNNING} => KILLED *)
      process_state <- get ;;
      if negb (bool_decide (ProcessState.run_state process_state
                 ∈ [Some ProcessRunState.FORKED; Some ProcessRunState.RUNNING]))
      then raise InvalidStateTransition
      else
        let required_fields := [F_seq; F_run_state; F_stop_time] in
        copy_fields process_state_update required_fields
  | Some ProcessRunState.LOST =>
      (* {FORKED, RUNNING} => LOST *)
      process_state <- get ;;
      if negb (bool_decide (ProcessState.run_state process_state
                 ∈ [Some ProcessRunState.FORKED; Some ProcessRunState.RUNNING]))
      then raise InvalidStateTransition
      else
        let required_fields := [F_seq; F_run_state] in
        copy_fields process_state_update required_fields
  | None => ret tt
  end ;;
  (* dispatch state change to consumer *)
  _run_state_dispatch self (ProcessState.run_state process_state_update)
    process_state_update ;;
  ret true.

(** [update_task_state(self, process_state, process_state_update, recovery)];
    [process_state] is the object the computation runs over. *)
Definition update_task_state (self : Dispatcher)
    (process_state_update : ProcessState.t) (recovery : bool)
    : M ProcessState.t bool :=
  match ProcessState.seq process_state_update with
  | None => raise InvalidSequenceNumber
  | Some update_seq =>
      process_state <- get ;;
      if py_gt (ProcessState.seq process_state) 0
         && py_le update_seq (ProcessState.seq process_state)
      then
        (* in recovery mode out of order updates are expected *)
        if recovery then ret false else raise InvalidSequenceNumber
      else
        (if py_gt (ProcessState.seq process_state) 0
            && negb (bool_decide
                 (Some update_seq
                  = (fun s => s + 1) <$> ProcessState.seq process_state))
         then log (ErrNoncontiguous process_state process_state_update)
         else ret tt) ;;
        run_transition self process_state_update
  end.

(** ** The checkpoint dispatcher *)

(** [process_history.runs[-1]] is an object shared with the task state:
    what a computation does to it is done to the last run of
    [state.processes[process]].  The dispatcher only comes here after it
    has found or made that run, so the two failing branches are never
    taken. *)
Definition on_tail_run {A} (process : option string)
    (m : M ProcessState.t A) : M TaskRunnerState.t A :=
  fun w =>
    match TaskRunnerState.processes (obj w) !! process with
    | None => (w, inl KeyError)
    | Some process_history =>
        let runs := ProcessHistory.runs process_history in
        match last runs with
        | None => (w, inl IndexError)
        | Some process_state =>
            let '(w', r) := m (mkEnv process_state (calls w) (logs w)) in
            (mkEnv
               (TaskRunnerState.set_processes
                  (<[process :=
                       ProcessHistory.set_runs
                         (<[Nat.pred (length runs) := obj w']> runs)
                         process_history]>
                     (TaskRunnerState.processes (obj w)))
                  (obj w))
               (calls w') (logs w'),
             r)
        end
    end.

(** The local function of [update_runner_state].  It appends to the runs of
    the history it is given; the caller decides where that history lives. *)
Definition transition_to_waiting (process : option string)
    (process_history : ProcessHistory.t) (seq : option Z)
    : ProcessHistory.t * ProcessState.t * ProcessState.t :=
  let process_state := ProcessState.make seq process None in
  let process_update :=
    ProcessState.set_run_state (Some ProcessRunState.WAITING) process_state in
  (ProcessHistory.set_runs
     (ProcessHistory.runs process_history ++ [process_state]) process_history,
   process_state, process_update).

Definition set_history (process : option string) (h : ProcessHistory.t)
    (state : TaskRunnerState.t) : TaskRunnerState.t :=
  TaskRunnerState.set_processes
    (<[process := h]> (TaskRunnerState.processes state)) state.

(** case 5 of [update_runner_state] *)
Definition update_process_state (self : Dispatcher)
    (process_update : ProcessState.t) (recovery : bool)
    : M TaskRunnerState.t bool :=
  let process := ProcessState.process process_update in
  state <- get ;;
  match TaskRunnerState.processes state !! process with
  | None =>
      (* never seen this process before *)
      log (DbgNeverEncountered process) ;;
      let process_history :=
        ProcessHistory.mk process [] (Some TaskState.ACTIVE) in
      let '(process_history, process_state, process_update) :=
        transition_to_waiting process process_history (Some 0) in
      modify (set_history process process_history) ;;
      log (DbgRunningStateMachine (ProcessState.process process_update)
             (ProcessState.seq process_update)) ;;
      on_tail_run process (update_task_state self process_update recovery)
  | Some process_history =>
      match last (ProcessHistory.runs process_history) with
      | None => raise IndexError
      | Some process_state =>
          if is_terminal process_state then
            if is_terminal process_update then
              raise (ErrorRecoveringState (TwoTerminalStates process))
            else
              log (DbgTerminalToNonterminal process) ;;
              let '(process_history, process_state, process_update) :=
                transition_to_waiting process process_history
                  (ProcessState.seq process_state) in
              (* the append is to the history held by the state *)
              modify (set_history process process_history) ;;
              match ProcessState.seq process_update with
              | None => raise TypeError
              | Some s =>
                  let process_update :=
                    ProcessState.set_seq (Some (s + 1)) process_update in
                  log (DbgRunningStateMachine
                         (ProcessState.process process_update)
                         (ProcessState.seq process_update)) ;;
                  on_tail_run process
                    (update_task_state self process_update recovery)
              end
          else
            log (DbgRunningStateMachine (ProcessState.process process_update)
                   (ProcessState.seq process_update)) ;;
            on_tail_run process
              (update_task_state self process_update recovery)
      end
  end.

Definition update_runner_state (self : Dispatcher)
    (runner_ckpt : TaskRunnerCkpt.t) (recovery : bool)
    : M TaskRunnerState.t bool :=
  match TaskRunnerCkpt.runner_header runner_ckpt with
  | Some runner_header =>
      (* case 1: runner_header *)
      state <- get ;;
      match TaskRunnerState.header state with
      | Some _ => raise (ErrorRecoveringState RebindHeader)
      | None =>
          log (DbgInitHeader runner_header) ;;
          modify (TaskRunnerState.set_header (Some runner_header)) ;;
          ret true
      end
  | None =>
  match TaskRunnerCkpt.allocated_port runner_ckpt with
  | Some allocated_port =>
      (* case 2: allocated_port *)
      let port := AllocatedPort.port allocated_port in
      let port_name := AllocatedPort.port_name allocated_port in
      state <- get ;;
      match TaskRunnerState.ports state with
      | None => modify (TaskRunnerState.set_ports (Some ∅))
      | Some _ => ret tt
      end ;;
      state <- get ;;
      match TaskRunnerState.ports state with
      | None => raise TypeError
      | Some ports =>
          match ports !! port_name with
          | Some bound =>
              if bool_decide (port ≠ bound)
              then raise (ErrorRecoveringState (PortConflict port_name))
              else ret false
          | None =>
              log (DbgAssignPort port_name port) ;;
              modify (TaskRunnerState.set_ports
                        (Some (<[port_name := port]> ports))) ;;
              _run_port_dispatch self port_name port ;;
              ret true
          end
      end
  | None =>
  match TaskRunnerCkpt.state_update runner_ckpt with
  | Some state_update =>
      (* case 3: state_update *)
      state <- get ;;
      if bool_decide (TaskRunnerState.state state
                      ≠ TaskStateUpdate.state state_update)
      then
        let old_state := TaskRunnerState.state state in
        modify (TaskRunnerState.set_state
                  (TaskStateUpdate.state state_update)) ;;
        (* the message looks the new state up in
           [TaskState._VALUES_TO_NAMES] *)
        match TaskStateUpdate.state state_update with
        | None => raise KeyError
        | Some new_state =>
            log (DbgFlipTask old_state new_state) ;;
            ret true
        end
      else ret false
  | None =>
  match TaskRunnerCkpt.history_state_update runner_ckpt with
  | Some history_state_update =>
      (* case 4: history_state_update *)
      let process_name := HistoryStateUpdate.process history_state_update in
      let state_change := HistoryStateUpdate.state history_state_update in
      state <- get ;;
      match TaskRunnerState.processes state !! process_name with
      | None => raise KeyError
      | Some process_history =>
          if bool_decide (ProcessHistory.state process_history
                          ≠ state_change)
          then
            let old_state := ProcessHistory.state process_history in
            modify (set_history process_name
                      (ProcessHistory.set_state state_change
                         process_history)) ;;
            (* the message looks the new state up in
               [TaskRunState._VALUES_TO_NAMES] *)
            match state_change with
            | None => raise KeyError
            | Some new_state =>
                log (DbgFlipHistory process_name old_state new_state) ;;
                ret true
            end
          else ret false
      end
  | None =>
  (* case 5: process_state *)
  match TaskRunnerCkpt.process_state runner_ckpt with
  | None => log ErrEmptyCkpt ;; ret false
  | Some process_update => update_process_state self process_update recovery
  end end end end end.

Definition would_update (self : Dispatcher) (runner_ckpt : TaskRunnerCkpt.t)
    : M TaskRunnerState.t bool :=
  match TaskRunnerCkpt.process_state runner_ckpt with
  | None => ret false
  | Some process_update =>
      let process := ProcessState.process process_update in
      state <- get ;;
      match TaskRunnerState.processes state !! process with
      | None => ret true (* never seen before *)
      | Some task_process =>
          match last (ProcessHistory.runs task_process) with
          | None => raise IndexError
          | Some task_state =>
              ret (py_lt (ProcessState.seq task_state)
                     (ProcessState.seq process_update))
          end
      end
  end.

(** ** Replaying a checkpoint file *)

(** What a call of [from_file] comes to: a [return], or an exception that
    its [except TaskCkptDispatcher.Error] does not catch. *)
Inductive Outcome :=
| Returned (state : option TaskRunnerState.t)
| Propagated (e : Exn).

(** [update_runner_state(self, state, runner_ckpt, recovery = False)] *)
Definition default_recovery : bool := false.

(** [TaskRunnerState(processes = {})] *)
Definition fresh_state : TaskRunnerState.t :=
  TaskRunnerState.mk None None ∅ None.

(** [from_file]; the argument is the sequence of records that
    [ThriftRecordReader] yields for the file. *)
Definition from_file (rr : list TaskRunnerCkpt.t) : Outcome :=
  let state := fresh_state in
  let builder := __init__ in
  match
    for_each rr
      (fun process_update =>
         update_runner_state builder process_update default_recovery)
      (mkEnv state [] [])
  with
  | (w, inr _) => Returned (Some (obj w))
  | (_, inl e) => if is_dispatcher_error e then Returned None else Propagated e
  end.

(** ** The state machine in closed form *)

(** The guard each branch of [update_task_state] puts on the current run
    state, after the test that the update changes it. *)
Definition source_guard (current : option ProcessRunState.t)
    (update : ProcessRunState.t) : bool :=
  match update with
  | ProcessRunState.WAITING => true
  | ProcessRunState.FORKED =>
      bool_decide (current = Some ProcessRunState.WAITING)
  | ProcessRunState.RUNNING =>
      bool_decide (current = Some ProcessRunState.FORKED)
  | ProcessRunState.FINISHED | ProcessRunState.FAILED =>
      bool_decide (current = Some ProcessRunState.RUNNING)
  | ProcessRunState.KILLED | ProcessRunState.LOST =>
      bool_decide
        (current ∈ [Some ProcessRunState.FORKED; Some ProcessRunState.RUNNING])
  end.

(** The [required_fields] of each branch. *)
Definition required_fields (update : ProcessRunState.t) : list Field :=
  match update with
  | ProcessRunState.WAITING => [F_seq; F_run_state; F_process]
  | ProcessRunState.FORKED => [F_seq; F_run_state; F_fork_time; F_runner_pid]
  | ProcessRunState.RUNNING => [F_seq; F_run_state; F_start_time; F_pid]
  | ProcessRunState.FINISHED | ProcessRunState.FAILED =>
      [F_seq; F_run_state; F_stop_time; F_return_code]
  | ProcessRunState.KILLED => [F_seq; F_run_state; F_stop_time]
  | ProcessRunState.LOST => [F_seq; F_run_state]
  end.

(** The first of [fields] that is [None] on [ps], if any. *)
Definition first_missing (ps : ProcessState.t) (fields : list Field)
    : option Field :=
  List.find (fun f => ProcessState.is_none f ps) fields.

(** The first of [fields] that is set on [ps], if any. *)
Definition first_present (ps : ProcessState.t) (fields : list Field)
    : option Field :=
  List.find (fun f => negb (ProcessState.is_none f ps)) fields.

Definition copy_all (src : ProcessState.t) (fields : list Field)
    (dst : ProcessState.t) : ProcessState.t :=
  fold_left (fun acc f => ProcessState.copy_field f src acc) fields dst.

(** The calls [_run_state_dispatch] makes, in order. *)
Definition state_calls (self : Dispatcher) (state : option ProcessRunState.t)
    (process_update : ProcessState.t) : list Call :=
  map (fun h => StateCall h process_update)
    (_universal_handlers self ++ default [] (_state_handlers self !! state)).

Definition port_calls (self : Dispatcher) (name : string) (port : Z)
    : list Call :=
  map (fun h => PortCall h name port) (_port_handlers self).

(** The transition graph of the spec: absent to WAITING, WAITING to FORKED,
    FORKED to RUNNING, RUNNING to FINISHED or FAILED, and FORKED or RUNNING
    to KILLED or LOST. *)
Definition spec_legal_edge (current : option ProcessRunState.t)
    (update : ProcessRunState.t) : bool :=
  match current, update with
  | None, ProcessRunState.WAITING
  | Some ProcessRunState.WAITING, ProcessRunState.FORKED
  | Some ProcessRunState.FORKED, ProcessRunState.RUNNING
  | Some ProcessRunState.RUNNING, ProcessRunState.FINISHED
  | Some ProcessRunState.RUNNING, ProcessRunState.FAILED
  | Some ProcessRunState.FORKED, ProcessRunState.KILLED
  | Some ProcessRunState.RUNNING, ProcessRunState.KILLED
  | Some ProcessRunState.FORKED, ProcessRunState.LOST
  | Some ProcessRunState.RUNNING, ProcessRunState.LOST => true
  | _, _ => false
  end.

(** The environment [run_transition] starts from: the non-contiguous
    sequence number warning has been logged, if it applies. *)
Definition warned (u : ProcessState.t) (update_seq : Z)
    (w : Env ProcessState.t) : Env ProcessState.t :=
  if py_gt (ProcessState.seq (obj w)) 0
     && negb (bool_decide
          (Some update_seq = (fun s => s + 1) <$> ProcessState.seq (obj w)))
  then mkEnv (obj w) (calls w) (logs w ++ [ErrNoncontiguous (obj w) u])
  else w.

(** The test of lines 123 and 124: the current sequence number is above
    zero and the update does not exceed it. *)
Definition stale (update_seq : Z) (current : ProcessState.t) : bool :=
  py_gt (ProcessState.seq current) 0
  && py_le update_seq (ProcessState.seq current).

(** ** Reachable task states *)

(** The states a caller gets by creating a state as [from_file] does and
    applying checkpoints to it, each application returning normally. *)
Inductive reachable : TaskRunnerState.t -> Prop :=
| reachable_fresh : reachable fresh_state
| reachable_apply self runner_ckpt recovery w w' applied :
    reachable (obj w) ->
    update_runner_state self runner_ckpt recovery w = (w', inr applied) ->
    reachable (obj w').

(** Every history is filed under a process name, has a run, and all its
    runs carry a sequence number. *)
Definition wf_history (process : option string) (h : ProcessHistory.t)
    : Prop :=
  is_Some process
  /\ ProcessHistory.runs h <> []
  /\ Forall (fun r => is_Some (ProcessState.seq r)) (ProcessHistory.runs h).

Definition wf_state (state : TaskRunnerState.t) : Prop :=
  map_Forall wf_history (TaskRunnerState.processes state).

(** ** The replay of the spec *)

(** The replay as the spec words it, with the recovery flag it passes made
    a parameter: a fold of [apply] over the records from an empty state,
    where a dispatcher error ends it with no state. *)
Definition spec_replay_step (recovery : bool)
    (acc : Env TaskRunnerState.t * (Exn + bool))
    (record : TaskRunnerCkpt.t) : Env TaskRunnerState.t * (Exn + bool) :=
  match acc with
  | (w, inr _) => update_runner_state __init__ record recovery w
  | (w, inl e) => (w, inl e)
  end.

Definition spec_replay (recovery : bool) (records : list TaskRunnerCkpt.t)
    : Outcome :=
  match
    fold_left (spec_replay_step recovery) records
      (mkEnv fresh_state [] [], inr true)
  with
  | (w, inr _) => Returned (Some (obj w))
  | (_, inl e) => if is_dispatcher_error e then Returned None else Propagated e
  end.

(** ** Sample records *)

(** A checkpoint with only its [process_state] member set. *)
Definition process_ckpt (process_update : ProcessState.t) : TaskRunnerCkpt.t :=
  TaskRunnerCkpt.mk None None None None (Some process_update).

Definition port_ckpt (name : string) (port : Z) : TaskRunnerCkpt.t :=
  TaskRunnerCkpt.mk None (Some (AllocatedPort.mk port name)) None None None.

Definition history_ckpt (process : option string) (state : TaskState.t)
    : TaskRunnerCkpt.t :=
  TaskRunnerCkpt.mk None None None
    (Some (HistoryStateUpdate.mk process (Some state))) None.

Definition waiting_p (seq : Z) : ProcessState.t :=
  ProcessState.make (Some seq) (Some "p"%string)
    (Some ProcessRunState.WAITING).

Definition forked_p (seq : Z) : ProcessState.t :=
  ProcessState.mk (Some seq) (Some "p"%string) (Some ProcessRunState.FORKED)
    (Some 10) (Some 123) None None None None.

Definition lost_p (seq : Z) : ProcessState.t :=
  ProcessState.make (Some seq) (Some "p"%string) (Some ProcessRunState.LOST).

Definition fresh_env : Env TaskRunnerState.t := mkEnv fresh_state [] [].

(** The task state after the first record of process "p". *)
Definition waiting_env : Env TaskRunnerState.t :=
  mkEnv
    (set_history (Some "p"%string)
       (ProcessHistory.mk (Some "p"%string) [waiting_p 0]
          (Some TaskState.ACTIVE))
       fresh_state) [] [].

(** The records of a run of "p" that is forked and then lost, and the task
    state they lead to. *)
Definition lost_records : list TaskRunnerCkpt.t :=
  [process_ckpt (waiting_p 0); process_ckpt (forked_p 1);
   process_ckpt (lost_p 2)].

Definition lost_run : ProcessState.t :=
  ProcessState.mk (Some 2) (Some "p"%string) (Some ProcessRunState.LOST)
    (Some 10) (Some 123) None None None None.

Definition lost_env : Env TaskRunnerState.t :=
  (for_each lost_records (fun r => update_runner_state __init__ r false)
     fresh_env).1.

(** A log in which the FORKED record of "p" comes twice. *)
Definition duplicate_records : list TaskRunnerCkpt.t :=
  [process_ckpt (waiting_p 0); process_ckpt (forked_p 1);
   process_ckpt (forked_p 1)].

(** ** Relations between states, used to state what a call keeps *)

(** [h'] continues [h]: it belongs to the same process, the runs of [h]
    but the last are its first runs, unchanged, and it has at least as
    many runs. *)
Definition history_extends (h h' : ProcessHistory.t) : Prop :=
  ProcessHistory.process h' = ProcessHistory.process h
  /\ removelast (ProcessHistory.runs h) `prefix_of` ProcessHistory.runs h'
  /\ (length (ProcessHistory.runs h) <= length (ProcessHistory.runs h'))%nat.

(** Every history of [state] is continued in [state']. *)
Definition continues (state state' : TaskRunnerState.t) : Prop :=
  forall k h,
    TaskRunnerState.processes state !! k = Some h ->
    exists h',
      TaskRunnerState.processes state' !! k = Some h'
      /\ history_extends h h'.

(** The two records hold the same value under the name [f]. *)
Definition same_field (f : Field) (a b : ProcessState.t) : Prop :=
  match f with
  | F_seq => ProcessState.seq a = ProcessState.seq b
  | F_run_state => ProcessState.run_state a = ProcessState.run_state b
  | F_process => ProcessState.process a = ProcessState.process b
  | F_fork_time => ProcessState.fork_time a = ProcessState.fork_time b
  | F_runner_pid => ProcessState.runner_pid a = ProcessState.runner_pid b
  | F_start_time => ProcessState.start_time a = ProcessState.start_time b
  | F_pid => ProcessState.pid a = ProcessState.pid b
  | F_stop_time => ProcessState.stop_time a = ProcessState.stop_time b
  | F_return_code => ProcessState.return_code a = ProcessState.return_code b
  end.

(** The record with only the member [update_runner_state] acts on: the
    first that is set, in the order header, port, task state, history
    state, process state. *)
Definition first_variant (c : TaskRunnerCkpt.t) : TaskRunnerCkpt.t :=
  match TaskRunnerCkpt.runner_header c with
  | Some hd => TaskRunnerCkpt.mk (Some hd) None None None None
  | None =>
  match TaskRunnerCkpt.allocated_port c with
  | Some ap => TaskRunnerCkpt.mk None (Some ap) None None None
  | None =>
  match TaskRunnerCkpt.state_update c with
  | Some su => TaskRunnerCkpt.mk None None (Some su) None None
  | None =>
  match TaskRunnerCkpt.history_state_update c with
  | Some hu => TaskRunnerCkpt.mk None None None (Some hu) None
  | None =>
      TaskRunnerCkpt.mk None None None None (TaskRunnerCkpt.process_state c)
  end end end end.

(** A state with a header and a port, and two records that clash with
    them. *)
Definition bound_env : Env TaskRunnerState.t :=
  mkEnv (TaskRunnerState.mk (Some "task"%string)
           (Some {["http"%string := 8080]}) ∅ None) [] [].

Definition clashing_records : list TaskRunnerCkpt.t :=
  [port_ckpt "http" 9090;
   TaskRunnerCkpt.mk (Some "other"%string) None None None None].

(** Two records that start and fork a second run of "p". *)
Definition restart_records : list TaskRunnerCkpt.t :=
  [process_ckpt (forked_p 9); process_ckpt (forked_p 5)].

(** ** What holds of every history in a reachable state *)

(** The history is filed under the name it carries and has a state; it has
    at least one run; every run carries that name, a sequence number and a
    run state; and every run but the last is terminal. *)
Definition recovered_history (k : option string) (h : ProcessHistory.t)
    : Prop :=
  is_Some k
  /\ ProcessHistory.process h = k
  /\ is_Some (ProcessHistory.state h)
  /\ ProcessHistory.runs h <> []
  /\ Forall
       (fun r =>
          ProcessState.process r = k
          /\ is_Some (ProcessState.seq r)
          /\ is_Some (ProcessState.run_state r))
       (ProcessHistory.runs h)
  /\ Forall (fun r => is_terminal r = true)
       (removelast (ProcessHistory.runs h)).

Definition recovered_state (state : TaskRunnerState.t) : Prop :=
  map_Forall recovered_history (TaskRunnerState.processes state).

(** The task state in which the run of "p" is forked at sequence 2. *)
Definition forked_env : Env TaskRunnerState.t :=
  mkEnv
    (set_history (Some "p"%string)
       (ProcessHistory.mk (Some "p"%string) [forked_p 2]
          (Some TaskState.ACTIVE))
       fresh_state) [] [].

(** ** Computations that only add to the calls and the log *)

(** What [m] does to the object and what it returns depend on the object
    alone; to the handler calls and to the log it only appends, and what it
    appends depends on the object alone. *)
Definition appends_only {S A} (m : M S A) : Prop :=
  forall o, exists o' dc dl res,
    forall cs ls, m (mkEnv o cs ls) = (mkEnv o' (cs ++ dc) (ls ++ dl), res).

(** The record with no member set. *)
Definition empty_ckpt : TaskRunnerCkpt.t :=
  TaskRunnerCkpt.mk None None None None None.

(** What [from_file] makes of the end of its loop. *)
Definition outcome_of (r : Env TaskRunnerState.t * (Exn + unit)) : Outcome :=
  match r with
  | (w, inr _) => Returned (Some (obj w))
  | (_, inl e) => if is_dispatcher_error e then Returned None else Propagated e
  end.

(** * Properties *)

Lemma for_each_call {S X} (xs : list X) (c : X -> Call) (w : Env S) :
  for_each xs (fun x => call (c x)) w
  = (mkEnv (obj w) (calls w ++ map c xs) (logs w), inr tt).
Proof.
  revert w. induction xs as [|x xs IH]; intros [o cs ls]; simpl.
  - unfold ret. by rewrite app_nil_r.
  - unfold bind, call at 1. simpl. rewrite IH. simpl.
    by rewrite <- app_assoc.
Qed.

Lemma run_state_dispatch_eq {S} self state u (w : Env S) :
  _run_state_dispatch self state u w
  = (mkEnv (obj w) (calls w ++ state_calls self state u) (logs w), inr tt).
Proof.
  unfold _run_state_dispatch, bind, state_calls.
  rewrite for_each_call, for_each_call. simpl.
  by rewrite map_app, app_assoc.
Qed.

Lemma run_port_dispatch_eq {S} self name port (w : Env S) :
  _run_port_dispatch self name port w
  = (mkEnv (obj w) (calls w ++ port_calls self name port) (logs w), inr tt).
Proof. apply for_each_call. Qed.

Lemma check_nonempty_fields_eq {S} ps fields (w : Env S) :
  check_nonempty_fields ps fields w
  = match first_missing ps fields with
    | Some f => (w, inl (ErrorRecoveringState (MissingField f)))
    | None => (w, inr tt)
    end.
Proof.
  induction fields as [|f fs IH]; simpl; [done|].
  unfold first_missing in *. simpl. by destruct (ProcessState.is_none f ps).
Qed.

Lemma check_empty_fields_eq {S} ps fields (w : Env S) :
  check_empty_fields ps fields w
  = match first_present ps fields with
    | Some f => (w, inl (ErrorRecoveringState (FieldShouldBeEmpty f)))
    | None => (w, inr tt)
    end.
Proof.
  induction fields as [|f fs IH]; simpl; [done|].
  unfold first_present in *. simpl.
  by destruct (ProcessState.is_none f ps).
Qed.

Lemma for_each_copy src fields (w : Env ProcessState.t) :
  for_each fields (fun f => modify (ProcessState.copy_field f src)) w
  = (mkEnv (copy_all src fields (obj w)) (calls w) (logs w), inr tt).
Proof.
  revert w. induction fields as [|f fs IH]; intros [o cs ls]; simpl; [done|].
  unfold bind, modify at 1. simpl. by rewrite IH.
Qed.

Lemma copy_fields_eq src fields (w : Env ProcessState.t) :
  copy_fields src fields w
  = match first_missing src fields with
    | Some f => (w, inl (ErrorRecoveringState (MissingField f)))
    | None =>
        (mkEnv (copy_all src fields (obj w)) (calls w) (logs w), inr tt)
    end.
Proof.
  unfold copy_fields, bind. rewrite check_nonempty_fields_eq.
  destruct (first_missing src fields); [done|]. apply for_each_copy.
Qed.

Lemma check_and_copy_fields_eq src fields (w : Env ProcessState.t) :
  check_and_copy_fields src fields w
  = match first_present (obj w) fields with
    | Some f => (w, inl (ErrorRecoveringState (FieldShouldBeEmpty f)))
    | None => copy_fields src fields w
    end.
Proof.
  unfold check_and_copy_fields, copy_fields, bind, get.
  rewrite check_empty_fields_eq.
  by destruct (first_present (obj w) fields).
Qed.

(** What [run_transition] comes to: the update must change the run state,
    pass the guard of its branch and carry the fields of its branch; then
    these are copied and the handlers called. *)
Lemma run_transition_eq self u (w : Env ProcessState.t) :
  run_transition self u w
  = match ProcessState.run_state u with
    | None =>
        (mkEnv (obj w) (calls w ++ state_calls self None u) (logs w),
         inr true)
    | Some rs =>
        if bool_decide (ProcessState.run_state (obj w) = Some rs)
           || negb (source_guard (ProcessState.run_state (obj w)) rs)
        then (w, inl InvalidStateTransition)
        else
          match first_missing u (required_fields rs) with
          | Some f => (w, inl (ErrorRecoveringState (MissingField f)))
          | None =>
              (mkEnv (copy_all u (required_fields rs) (obj w))
                 (calls w ++ state_calls self (Some rs) u) (logs w),
               inr true)
          end
    end.
Proof.
  unfold run_transition.
  destruct (ProcessState.run_state u) as [rs|] eqn:Hrs.
  - cbv beta iota delta [bind get raise ret].
    destruct (bool_decide (ProcessState.run_state (obj w) = Some rs)) eqn:Hsame;
      cbn [orb]; [done|].
    destruct rs; cbn [source_guard required_fields negb];
      rewrite ?bool_decide_not;
      try (destruct (bool_decide _) eqn:Hg in |- *; cbn [negb]; try done);
      rewrite copy_fields_eq;
      (destruct (first_missing u _); [done|]);
      by rewrite run_state_dispatch_eq.
  - unfold bind, ret. simpl. by rewrite run_state_dispatch_eq.
Qed.

Lemma update_task_state_eq self u recovery (w : Env ProcessState.t) :
  update_task_state self u recovery w
  = match ProcessState.seq u with
    | None => (w, inl InvalidSequenceNumber)
    | Some update_seq =>
        if stale update_seq (obj w)
        then (w, if recovery then inr false else inl InvalidSequenceNumber)
        else run_transition self u (warned u update_seq w)
    end.
Proof.
  unfold update_task_state, stale, warned.
  destruct (ProcessState.seq u) as [s|]; [|done].
  cbv beta iota delta [bind get].
  destruct (py_gt _ 0 && py_le s _); [by destruct recovery|].
  by destruct (py_gt _ 0 && negb _).
Qed.

Lemma warned_obj u s w : obj (warned u s w) = obj w.
Proof. unfold warned. by destruct (_ && _). Qed.

Lemma warned_calls u s w : calls (warned u s w) = calls w.
Proof. unfold warned. by destruct (_ && _). Qed.

(** A raise of the state machine comes before it writes to the run or calls
    a handler. *)
Lemma update_task_state_raise self u recovery w w' e :
  update_task_state self u recovery w = (w', inl e) ->
  obj w' = obj w /\ calls w' = calls w /\ is_dispatcher_error e = true.
Proof.
  rewrite update_task_state_eq.
  destruct (ProcessState.seq u) as [s|]; [|by intros [= <- <-]].
  destruct (stale s (obj w)).
  { destruct recovery; [done|]. by intros [= <- <-]. }
  rewrite run_transition_eq.
  destruct (ProcessState.run_state u) as [rs|]; [|done].
  rewrite warned_obj.
  destruct (_ || _).
  { intros [= <- <-]. by rewrite warned_obj, warned_calls. }
  destruct (first_missing u (required_fields rs)); [|done].
  intros [= <- <-]. by rewrite warned_obj, warned_calls.
Qed.

(** The edges the code lets through are those of the spec's graph and, in
    addition, every edge into WAITING from another run state. *)
Lemma source_guard_edges current rs :
  (negb (bool_decide (current = Some rs)) && source_guard current rs = true)
  <-> (spec_legal_edge current rs = true
       \/ (rs = ProcessRunState.WAITING
           /\ current <> Some ProcessRunState.WAITING)).
Proof.
  destruct current as [[]|], rs; cbn; split; intros H;
    try done; try (by left); try (right; by split);
    try (destruct H as [H|[H1 H2]]; done).
Qed.

(** ** Writing through the last run *)

Lemma tail_write_id k h ps (state : TaskRunnerState.t) :
  TaskRunnerState.processes state !! k = Some h ->
  last (ProcessHistory.runs h) = Some ps ->
  TaskRunnerState.set_processes
    (<[k := ProcessHistory.set_runs
              (<[Nat.pred (length (ProcessHistory.runs h)) := ps]>
                 (ProcessHistory.runs h)) h]>
       (TaskRunnerState.processes state)) state
  = state.
Proof.
  intros Hk Hlast. rewrite last_lookup in Hlast.
  rewrite list_insert_id by done.
  destruct h as [hp hr hs], state as [sh sp spr ss]. simpl in *.
  unfold TaskRunnerState.set_processes, ProcessHistory.set_runs. simpl.
  by rewrite insert_id.
Qed.

Lemma tail_write_snoc {A} (l : list A) (x y : A) :
  <[Nat.pred (length (l ++ [x])) := y]> (l ++ [x]) = l ++ [y].
Proof.
  rewrite length_app. simpl.
  replace (Nat.pred (length l + 1)) with (length l + 0)%nat by lia.
  by rewrite insert_app_r.
Qed.

Lemma on_tail_run_eq {A} k (m : M ProcessState.t A) w h ps :
  TaskRunnerState.processes (obj w) !! k = Some h ->
  last (ProcessHistory.runs h) = Some ps ->
  on_tail_run k m w
  = let '(w', r) := m (mkEnv ps (calls w) (logs w)) in
    (mkEnv
       (set_history k
          (ProcessHistory.set_runs
             (<[Nat.pred (length (ProcessHistory.runs h)) := obj w']>
                (ProcessHistory.runs h)) h)
          (obj w))
       (calls w') (logs w'), r).
Proof. intros Hk Hlast. unfold on_tail_run. by rewrite Hk, Hlast. Qed.

(** The implicit WAITING update always goes through on the record seeded
    for it, provided the process has a name. *)
Lemma seeded_run_waiting self recovery (p : string) (s0 s1 : Z) cs ls :
  s0 <= 0 \/ s1 = s0 + 1 ->
  update_task_state self
    (ProcessState.make (Some s1) (Some p) (Some ProcessRunState.WAITING))
    recovery
    (mkEnv (ProcessState.make (Some s0) (Some p) None) cs ls)
  = (mkEnv
       (ProcessState.make (Some s1) (Some p) (Some ProcessRunState.WAITING))
       (cs ++ state_calls self (Some ProcessRunState.WAITING)
          (ProcessState.make (Some s1) (Some p)
             (Some ProcessRunState.WAITING)))
       ls,
     inr true).
Proof.
  intros Hs. rewrite update_task_state_eq. simpl.
  unfold stale, warned. simpl.
  replace ((s0 >? 0) && (s1 <=? s0)) with false by lia.
  replace ((s0 >? 0) && negb (bool_decide (Some s1 = Some (s0 + 1))))
    with false.
  2:{ destruct Hs as [Hs| ->]; [lia|].
      rewrite bool_decide_eq_true_2 by done. simpl. lia. }
  by rewrite run_transition_eq.
Qed.

(** Without a name the same update is refused for its missing field. *)
Lemma seeded_run_nameless self recovery (s0 s1 : Z) cs ls :
  s0 <= 0 \/ s1 = s0 + 1 ->
  update_task_state self
    (ProcessState.make (Some s1) None (Some ProcessRunState.WAITING))
    recovery
    (mkEnv (ProcessState.make (Some s0) None None) cs ls)
  = (mkEnv (ProcessState.make (Some s0) None None) cs ls,
     inl (ErrorRecoveringState (MissingField F_process))).
Proof.
  intros Hs. rewrite update_task_state_eq. simpl.
  unfold stale, warned. simpl.
  replace ((s0 >? 0) && (s1 <=? s0)) with false by lia.
  replace ((s0 >? 0) && negb (bool_decide (Some s1 = Some (s0 + 1))))
    with false.
  2:{ destruct Hs as [Hs| ->]; [lia|].
      rewrite bool_decide_eq_true_2 by done. simpl. lia. }
  by rewrite run_transition_eq.
Qed.

(** ** The three ways through case 5 *)

Lemma set_history_twice k h1 h2 state :
  set_history k h2 (set_history k h1 state) = set_history k h2 state.
Proof.
  unfold set_history, TaskRunnerState.set_processes. simpl.
  by rewrite insert_insert_eq.
Qed.

Lemma update_process_state_unknown self pu recovery w (p : string) :
  ProcessState.process pu = Some p ->
  TaskRunnerState.processes (obj w) !! Some p = None ->
  let implicit :=
    ProcessState.make (Some 0) (Some p) (Some ProcessRunState.WAITING) in
  update_process_state self pu recovery w
  = (mkEnv
       (set_history (Some p)
          (ProcessHistory.mk (Some p) [implicit] (Some TaskState.ACTIVE))
          (obj w))
       (calls w ++ state_calls self (Some ProcessRunState.WAITING) implicit)
       (logs w ++ [DbgNeverEncountered (Some p)]
          ++ [DbgRunningStateMachine (Some p) (Some 0)]),
     inr true).
Proof.
  intros Hp Hk implicit. unfold update_process_state.
  cbv beta iota delta [bind get]. rewrite Hp, Hk.
  cbv beta iota zeta delta [transition_to_waiting log modify bind].
  cbn [obj calls logs ProcessHistory.runs app ProcessState.process
       ProcessState.seq ProcessState.set_run_state ProcessState.make
       ProcessHistory.set_runs ProcessState.run_state ProcessState.fork_time
       ProcessState.runner_pid ProcessState.start_time ProcessState.pid
       ProcessState.stop_time ProcessState.return_code].
  erewrite on_tail_run_eq;
    [|cbn; apply lookup_insert_eq|reflexivity].
  cbn [obj calls logs].
  pose proof (seeded_run_waiting self recovery p 0 0) as Hrun.
  unfold ProcessState.make in Hrun. rewrite Hrun by lia.
  cbn [obj calls logs ProcessHistory.runs length Nat.pred].
  rewrite set_history_twice, <- app_assoc. done.
Qed.

Lemma update_process_state_nameless self pu recovery w :
  ProcessState.process pu = None ->
  TaskRunnerState.processes (obj w) !! None = None ->
  update_process_state self pu recovery w
  = (mkEnv
       (set_history None
          (ProcessHistory.mk None [ProcessState.make (Some 0) None None]
             (Some TaskState.ACTIVE))
          (obj w))
       (calls w)
       (logs w ++ [DbgNeverEncountered None]
          ++ [DbgRunningStateMachine None (Some 0)]),
     inl (ErrorRecoveringState (MissingField F_process))).
Proof.
  intros Hp Hk. unfold update_process_state.
  cbv beta iota delta [bind get]. rewrite Hp, Hk.
  cbv beta iota zeta delta [transition_to_waiting log modify bind].
  cbn [obj calls logs ProcessHistory.runs app ProcessState.process
       ProcessState.seq ProcessState.set_run_state ProcessState.make
       ProcessHistory.set_runs ProcessState.run_state ProcessState.fork_time
       ProcessState.runner_pid ProcessState.start_time ProcessState.pid
       ProcessState.stop_time ProcessState.return_code].
  erewrite on_tail_run_eq;
    [|cbn; apply lookup_insert_eq|reflexivity].
  cbn [obj calls logs].
  pose proof (seeded_run_nameless self recovery 0 0) as Hrun.
  unfold ProcessState.make in Hrun. rewrite Hrun by lia.
  cbn [obj calls logs ProcessHistory.runs length Nat.pred].
  rewrite set_history_twice, <- app_assoc. done.
Qed.

Lemma update_process_state_two_terminal self pu recovery w h tail :
  TaskRunnerState.processes (obj w) !! ProcessState.process pu = Some h ->
  last (ProcessHistory.runs h) = Some tail ->
  is_terminal tail = true ->
  is_terminal pu = true ->
  update_process_state self pu recovery w
  = (w, inl (ErrorRecoveringState
               (TwoTerminalStates (ProcessState.process pu)))).
Proof.
  intros Hk Hlast Ht Hu. unfold update_process_state.
  cbv beta iota delta [bind get]. by rewrite Hk, Hlast, Ht, Hu.
Qed.

Lemma update_process_state_restart self pu recovery w h tail (p : string) s :
  ProcessState.process pu = Some p ->
  TaskRunnerState.processes (obj w) !! Some p = Some h ->
  last (ProcessHistory.runs h) = Some tail ->
  is_terminal tail = true ->
  is_terminal pu = false ->
  ProcessState.seq tail = Some s ->
  let implicit :=
    ProcessState.make (Some (s + 1)) (Some p)
      (Some ProcessRunState.WAITING) in
  update_process_state self pu recovery w
  = (mkEnv
       (set_history (Some p)
          (ProcessHistory.set_runs (ProcessHistory.runs h ++ [implicit]) h)
          (obj w))
       (calls w ++ state_calls self (Some ProcessRunState.WAITING) implicit)
       (logs w ++ [DbgTerminalToNonterminal (Some p)]
          ++ [DbgRunningStateMachine (Some p) (Some (s + 1))]),
     inr true).
Proof.
  intros Hp Hk Hlast Ht Hu Hs implicit. unfold update_process_state.
  cbv beta iota delta [bind get]. rewrite Hp, Hk, Hlast, Ht, Hu, Hs.
  cbv beta iota zeta delta [transition_to_waiting log modify bind].
  cbn [obj calls logs ProcessState.process
       ProcessState.seq ProcessState.set_run_state ProcessState.make
       ProcessState.set_seq
       ProcessState.run_state ProcessState.fork_time
       ProcessState.runner_pid ProcessState.start_time ProcessState.pid
       ProcessState.stop_time ProcessState.return_code].
  erewrite on_tail_run_eq;
    [|cbn; apply lookup_insert_eq|cbn; apply last_snoc].
  cbn [obj calls logs].
  pose proof (seeded_run_waiting self recovery p s (s + 1)) as Hrun.
  unfold ProcessState.make in Hrun. rewrite Hrun by lia.
  cbn [obj calls logs ProcessHistory.runs ProcessHistory.set_runs].
  rewrite tail_write_snoc, set_history_twice, <- app_assoc.
  by destruct h.
Qed.

Lemma update_process_state_current self pu recovery w h tail :
  TaskRunnerState.processes (obj w) !! ProcessState.process pu = Some h ->
  last (ProcessHistory.runs h) = Some tail ->
  is_terminal tail = false ->
  update_process_state self pu recovery w
  = on_tail_run (ProcessState.process pu)
      (update_task_state self pu recovery)
      (mkEnv (obj w) (calls w)
         (logs w ++ [DbgRunningStateMachine (ProcessState.process pu)
                       (ProcessState.seq pu)])).
Proof.
  intros Hk Hlast Ht. unfold update_process_state.
  cbv beta iota delta [bind get]. by rewrite Hk, Hlast, Ht.
Qed.

Lemma update_runner_state_process self pu recovery :
  update_runner_state self (process_ckpt pu) recovery
  = update_process_state self pu recovery.
Proof. reflexivity. Qed.

(** * The sequence number policy *)

(** C6.  In [update_task_state] an update without a sequence number raises
    [InvalidSequenceNumber].  When the current record's sequence number is
    above zero and the update's is not above it, the call returns [False]
    in recovery mode, with the record, the handler calls and the log
    untouched and no exception, and raises [InvalidSequenceNumber]
    otherwise. *)
Theorem C6_sequence_policy self u recovery (w : Env ProcessState.t) :
  (ProcessState.seq u = None ->
   update_task_state self u recovery w = (w, inl InvalidSequenceNumber))
  /\ (forall current update_seq : Z,
        ProcessState.seq (obj w) = Some current ->
        ProcessState.seq u = Some update_seq ->
        0 < current ->
        update_seq <= current ->
        update_task_state self u recovery w
        = (w, if recovery then inr false else inl InvalidSequenceNumber)).
Proof.
  split.
  - intros Hu. by rewrite update_task_state_eq, Hu.
  - intros c s Hc Hu Hpos Hle. rewrite update_task_state_eq, Hu.
    unfold stale. rewrite Hc. simpl.
    by replace ((c >? 0) && (s <=? c)) with true by lia.
Qed.

Lemma C6_sequence_policy_witness :
  update_task_state __init__ (forked_p 1) true (mkEnv (forked_p 1) [] [])
  = (mkEnv (forked_p 1) [] [], inr false)
  /\ update_task_state __init__ (forked_p 1) false (mkEnv (forked_p 1) [] [])
     = (mkEnv (forked_p 1) [] [], inl InvalidSequenceNumber).
Proof.
  split.
  - apply (proj2 (C6_sequence_policy __init__ (forked_p 1) true
                    (mkEnv (forked_p 1) [] [])) 1 1);
      [reflexivity | reflexivity | lia | lia].
  - apply (proj2 (C6_sequence_policy __init__ (forked_p 1) false
                    (mkEnv (forked_p 1) [] [])) 1 1);
      [reflexivity | reflexivity | lia | lia].
Defined.

(** * Required fields *)

Lemma first_missing_Some ps fields f :
  first_missing ps fields = Some f ->
  f ∈ fields /\ ProcessState.is_none f ps = true.
Proof.
  unfold first_missing. intros H. apply find_some in H as [Hin Hf].
  split; [by apply list_elem_of_In|done].
Qed.

Lemma first_missing_None ps fields :
  first_missing ps fields = None <->
  forall f, f ∈ fields -> ProcessState.is_none f ps = false.
Proof.
  unfold first_missing. split.
  - intros H f Hf. apply list_elem_of_In in Hf.
    by apply (find_none _ _ H).
  - intros H. destruct (List.find _ fields) as [f|] eqn:Hfind; [|done].
    apply find_some in Hfind as [Hin Hf].
    apply list_elem_of_In in Hin. by rewrite (H f Hin) in Hf.
Qed.

(** After [copy_fields] every copied field of the record is the update's. *)
Lemma copy_all_required u rs cur f :
  f ∈ required_fields rs ->
  ProcessState.copy_field f u (copy_all u (required_fields rs) cur)
  = copy_all u (required_fields rs) cur.
Proof.
  intros Hf. destruct rs; cbn in Hf |- *;
    repeat (apply elem_of_cons in Hf as [->|Hf]; [reflexivity|]);
    by apply elem_of_nil in Hf.
Qed.

Lemma same_field_refl f a : same_field f a a.
Proof. by destruct f. Qed.

Lemma copy_all_other u fields cur f :
  f ∉ fields -> same_field f cur (copy_all u fields cur).
Proof.
  revert cur. induction fields as [|g gs IH]; intros cur Hf.
  - apply same_field_refl.
  - apply not_elem_of_cons in Hf as [Hne Hf]. cbn.
    specialize (IH (ProcessState.copy_field g u cur) Hf).
    destruct f, g; try done; cbn in *; exact IH.
Qed.

Lemma same_field_trans f a b c :
  same_field f a b -> same_field f b c -> same_field f a c.
Proof. destruct f; cbn; congruence. Qed.

Lemma copy_field_same f src cur :
  same_field f src (ProcessState.copy_field f src cur).
Proof. by destruct f. Qed.

Lemma copy_all_listed src fields cur f :
  f ∈ fields -> same_field f src (copy_all src fields cur).
Proof.
  revert cur. induction fields as [|g gs IH]; intros cur Hf.
  - by apply elem_of_nil in Hf.
  - cbn. destruct (decide (f ∈ gs)) as [Hin|Hnin]; [by apply IH|].
    apply elem_of_cons in Hf as [->|Hf]; [|done].
    eapply same_field_trans; [apply copy_field_same|].
    by apply copy_all_other.
Qed.

(** The first missing field is the one before which, in the order of the
    list, nothing is missing. *)
Lemma first_missing_split ps fields f :
  first_missing ps fields = Some f <->
  exists before after,
    fields = before ++ f :: after
    /\ (forall g, g ∈ before -> ProcessState.is_none g ps = false)
    /\ ProcessState.is_none f ps = true.
Proof.
  unfold first_missing. revert f.
  induction fields as [|g gs IH]; intros f; cbn.
  - split; [done|]. intros (before & after & Heq & _). by destruct before.
  - destruct (ProcessState.is_none g ps) eqn:Hg.
    + split.
      * intros [= <-]. exists [], gs. split; [done|]. split; [|done].
        intros g0 H0. by apply elem_of_nil in H0.
      * intros ([|b before] & after & Heq & Hb & Hf).
        -- by injection Heq as <- _.
        -- injection Heq as <- _.
           rewrite (Hb g) in Hg by (apply elem_of_cons; by left). done.
    + rewrite IH. split.
      * intros (before & after & -> & Hb & Hf).
        exists (g :: before), after. split; [done|]. split; [|done].
        intros g0 H0. apply elem_of_cons in H0 as [->|H0]; [done|by apply Hb].
      * intros ([|b before] & after & Heq & Hb & Hf).
        -- injection Heq as <- _. congruence.
        -- injection Heq as <- ->. exists before, after.
           split; [done|]. split; [|done].
           intros g0 H0. apply Hb, elem_of_cons. by right.
Qed.

(** C3, as the code has it.  For an update that passes the sequence number
    test and the tests on the run state: if one of the fields of its
    transition is missing on the update, [update_task_state] raises
    [ErrorRecoveringState] naming the first such field, in the order of the
    transition's list, and leaves the record as it was; if none is missing,
    the call returns [True], every field of the transition holds the
    update's value afterwards, whether or not the current record already
    had one, and every other field holds the value it had. *)
Theorem C3_required_fields_copied self u recovery (w : Env ProcessState.t)
    update_seq rs :
  ProcessState.seq u = Some update_seq ->
  ProcessState.run_state u = Some rs ->
  stale update_seq (obj w) = false ->
  ProcessState.run_state (obj w) <> Some rs ->
  source_guard (ProcessState.run_state (obj w)) rs = true ->
  (forall before f after,
     required_fields rs = before ++ f :: after ->
     (forall g, g ∈ before -> ProcessState.is_none g u = false) ->
     ProcessState.is_none f u = true ->
     exists w',
       update_task_state self u recovery w
       = (w', inl (ErrorRecoveringState (MissingField f)))
       /\ obj w' = obj w /\ calls w' = calls w)
  /\ ((exists f, f ∈ required_fields rs /\ ProcessState.is_none f u = true) ->
      exists before f after w',
        required_fields rs = before ++ f :: after
        /\ (forall g, g ∈ before -> ProcessState.is_none g u = false)
        /\ ProcessState.is_none f u = true
        /\ update_task_state self u recovery w
           = (w', inl (ErrorRecoveringState (MissingField f)))
        /\ obj w' = obj w /\ calls w' = calls w)
  /\ ((forall f, f ∈ required_fields rs -> ProcessState.is_none f u = false) ->
      exists w',
        update_task_state self u recovery w = (w', inr true)
        /\ obj w' = copy_all u (required_fields rs) (obj w)
        /\ (forall f, f ∈ required_fields rs -> same_field f u (obj w'))
        /\ (forall f, f ∉ required_fields rs ->
                      same_field f (obj w) (obj w'))
        /\ forall f, f ∈ required_fields rs ->
             ProcessState.copy_field f u (obj w') = obj w').
Proof.
  intros Hseq Hrs Hstale Hne Hguard.
  rewrite update_task_state_eq, Hseq, Hstale, run_transition_eq, Hrs.
  rewrite warned_obj, warned_calls.
  rewrite bool_decide_eq_false_2 by done. rewrite Hguard. cbn [orb negb].
  split; [|split].
  - intros before f after Heq Hb Hf.
    assert (first_missing u (required_fields rs) = Some f) as ->
      by (apply first_missing_split; by exists before, after).
    exists (warned u update_seq w). by rewrite warned_obj, warned_calls.
  - intros [f [Hf Hnone]].
    destruct (first_missing u (required_fields rs)) as [g|] eqn:Hmiss.
    + apply first_missing_split in Hmiss as (before & after & Heq & Hb & Hg).
      exists before, g, after, (warned u update_seq w).
      by rewrite warned_obj, warned_calls.
    + rewrite first_missing_None in Hmiss.
      by rewrite (Hmiss f Hf) in Hnone.
  - intros Hall. apply first_missing_None in Hall. rewrite Hall.
    eexists. split; [reflexivity|]. cbn [obj]. split; [done|].
    split; [intros f Hf; by apply copy_all_listed|].
    split; [intros f Hf; by apply copy_all_other|].
    intros f Hf. by apply copy_all_required.
Qed.

Lemma C3_required_fields_copied_witness :
  (exists w',
     update_task_state __init__ (forked_p 1) false
       (mkEnv (waiting_p 0) [] []) = (w', inr true)
     /\ obj w' = forked_p 1)
  /\ (exists w',
        update_task_state __init__
          (ProcessState.make (Some 1) (Some "p"%string)
             (Some ProcessRunState.FORKED))
          false (mkEnv (waiting_p 0) [] [])
        = (w', inl (ErrorRecoveringState (MissingField F_fork_time)))
        /\ obj w' = waiting_p 0).
Proof.
  split.
  - destruct (proj2 (proj2
                (C3_required_fields_copied __init__ (forked_p 1) false
                   (mkEnv (waiting_p 0) [] []) 1 ProcessRunState.FORKED
                   eq_refl eq_refl eq_refl ltac:(discriminate) eq_refl)))
      as [w' [Hrun [Hobj _]]].
    + intros f Hf. cbn in Hf.
      repeat (apply elem_of_cons in Hf as [->|Hf]; [reflexivity|]).
      by apply elem_of_nil in Hf.
    + exists w'. split; [exact Hrun|]. rewrite Hobj. reflexivity.
  - destruct (proj1
                (C3_required_fields_copied __init__
                   (ProcessState.make (Some 1) (Some "p"%string)
                      (Some ProcessRunState.FORKED))
                   false (mkEnv (waiting_p 0) [] []) 1
                   ProcessRunState.FORKED
                   eq_refl eq_refl eq_refl ltac:(discriminate) eq_refl)
                [F_seq; F_run_state] F_fork_time [F_runner_pid])
      as [w' [Hrun [Hobj _]]].
    + reflexivity.
    + intros g Hg.
      repeat (apply elem_of_cons in Hg as [->|Hg]; [reflexivity|]).
      by apply elem_of_nil in Hg.
    + reflexivity.
    + exists w'. split; [exact Hrun|exact Hobj].
Defined.

(** C3 as the spec words it fails: the record below already has a sequence
    number, a run state and a fork time, the update supplies all three among
    the fields of WAITING to FORKED, and the call returns [True] with the
    three overwritten instead of raising [ErrorRecoveringState]. *)
Lemma C3_counterexample :
  let current :=
    ProcessState.mk (Some 0) (Some "p"%string) (Some ProcessRunState.WAITING)
      (Some 5) None None None None None in
  let update := forked_p 1 in
  F_seq ∈ required_fields ProcessRunState.FORKED
  /\ F_run_state ∈ required_fields ProcessRunState.FORKED
  /\ F_fork_time ∈ required_fields ProcessRunState.FORKED
  /\ ProcessState.is_none F_seq current = false
  /\ ProcessState.is_none F_run_state current = false
  /\ ProcessState.is_none F_fork_time current = false
  /\ ProcessState.is_none F_fork_time update = false
  /\ update_task_state __init__ update false (mkEnv current [] [])
     = (mkEnv update [] [], inr true).
Proof.
  cbn zeta. repeat split; try reflexivity.
  - apply elem_of_cons. by left.
  - apply elem_of_cons. right. apply elem_of_cons. by left.
  - apply elem_of_cons. right. apply elem_of_cons. right.
    apply elem_of_cons. by left.
Qed.

(** The unused helper [check_and_copy_fields] is the one that refuses a
    field already set on the record. *)
Lemma check_and_copy_fields_refuses src fields (w : Env ProcessState.t) f :
  first_present (obj w) fields = Some f ->
  check_and_copy_fields src fields w
  = (w, inl (ErrorRecoveringState (FieldShouldBeEmpty f))).
Proof. intros H. by rewrite check_and_copy_fields_eq, H. Qed.

(** * The transition graph *)

(** Every edge of the spec's graph is let through by the code's tests. *)
Lemma spec_legal_edge_passes current rs :
  spec_legal_edge current rs = true ->
  current <> Some rs /\ source_guard current rs = true.
Proof. by destruct current as [[]|], rs. Qed.

(** An update that changes the run state and fails the test of its branch
    raises [InvalidStateTransition]. *)
Lemma run_transition_refused self u (w : Env ProcessState.t) rs :
  ProcessState.run_state u = Some rs ->
  ProcessState.run_state (obj w) = Some rs
  \/ source_guard (ProcessState.run_state (obj w)) rs = false ->
  run_transition self u w = (w, inl InvalidStateTransition).
Proof.
  intros Hrs H. rewrite run_transition_eq, Hrs.
  destruct H as [H|H].
  - by rewrite bool_decide_eq_true_2.
  - rewrite H. by rewrite orb_true_r.
Qed.

(** C4, where the code departs from it.  FORKED to WAITING is not an edge of
    the graph, yet the state machine takes it: the branch for WAITING,
    commented "[CREATION] => WAITING", does not look at the current run
    state.  Replayed through the dispatcher from an empty state, the third
    record below is applied and leaves the run of "p" in WAITING. *)
Theorem C4_forked_to_waiting_accepted :
  spec_legal_edge (Some ProcessRunState.FORKED) ProcessRunState.WAITING
  = false
  /\ (update_task_state __init__ (waiting_p 2) false
        (mkEnv (forked_p 1) [] [])).2 = inr true
  /\ ProcessState.run_state
       (obj (update_task_state __init__ (waiting_p 2) false
               (mkEnv (forked_p 1) [] [])).1)
     = Some ProcessRunState.WAITING
  /\ (for_each
        [process_ckpt (waiting_p 0); process_ckpt (forked_p 1);
         process_ckpt (waiting_p 2)]
        (fun r => update_runner_state __init__ r false) fresh_env).2
     = inr tt
  /\ ProcessHistory.runs
       <$> (TaskRunnerState.processes
              (obj (for_each
                      [process_ckpt (waiting_p 0); process_ckpt (forked_p 1);
                       process_ckpt (waiting_p 2)]
                      (fun r => update_runner_state __init__ r false)
                      fresh_env).1)
            !! Some "p"%string)
     = Some [ProcessState.mk (Some 2) (Some "p"%string)
               (Some ProcessRunState.WAITING) (Some 10) (Some 123)
               None None None None].
Proof. repeat split; vm_compute; reflexivity. Qed.

(** * Processes seen for the first time *)

(** C2, as the code has it.  For a process-state record naming a process
    the task state does not hold, [update_runner_state] files a new history
    in state ACTIVE whose one run was created at sequence number 0 without
    a run state, and runs the state machine on it with an update of its own
    making: WAITING, sequence number 0, the same process.  The call returns
    [True]; the run is WAITING at 0 and the handlers are called with that
    update, whatever run state, sequence number and other fields the record
    supplied. *)
Theorem C2_unknown_process_implicit_waiting self pu recovery w (p : string) :
  ProcessState.process pu = Some p ->
  TaskRunnerState.processes (obj w) !! Some p = None ->
  update_runner_state self (process_ckpt pu) recovery w
  = (mkEnv
       (set_history (Some p)
          (ProcessHistory.mk (Some p)
             [ProcessState.make (Some 0) (Some p)
                (Some ProcessRunState.WAITING)]
             (Some TaskState.ACTIVE))
          (obj w))
       (calls w
          ++ state_calls self (Some ProcessRunState.WAITING)
               (ProcessState.make (Some 0) (Some p)
                  (Some ProcessRunState.WAITING)))
       (logs w ++ [DbgNeverEncountered (Some p)]
          ++ [DbgRunningStateMachine (Some p) (Some 0)]),
     inr true).
Proof.
  intros Hp Hk. rewrite update_runner_state_process.
  by apply update_process_state_unknown.
Qed.

Lemma C2_unknown_process_implicit_waiting_witness :
  (update_runner_state __init__ (process_ckpt (forked_p 7)) false fresh_env).2
  = inr true.
Proof.
  rewrite (C2_unknown_process_implicit_waiting __init__ (forked_p 7) false
             fresh_env "p" eq_refl eq_refl).
  reflexivity.
Defined.

(** C2 as the spec words it fails.  The record below supplies FORKED at
    sequence number 1 for a process not seen before.  Run against the run
    seeded for the process, that update is an illegal transition; the
    dispatcher nevertheless returns [True], and the run it leaves is WAITING
    at 0 with none of the update's fields. *)
Lemma C2_counterexample :
  let supplied := forked_p 1 in
  let seeded := ProcessState.make (Some 0) (Some "p"%string) None in
  TaskRunnerState.processes fresh_state !! ProcessState.process supplied = None
  /\ (update_task_state __init__ supplied false (mkEnv seeded [] [])).2
     = inl InvalidStateTransition
  /\ (update_runner_state __init__ (process_ckpt supplied) false fresh_env).2
     = inr true
  /\ ProcessHistory.runs
       <$> (TaskRunnerState.processes
              (obj (update_runner_state __init__ (process_ckpt supplied)
                      false fresh_env).1)
            !! Some "p"%string)
     = Some [waiting_p 0]
  /\ waiting_p 0 <> supplied.
Proof. cbn zeta. repeat split; try (vm_compute; reflexivity). discriminate. Qed.

(** * Port allocation *)

(** Case 2 of [update_runner_state] in closed form. *)
Lemma allocated_port_eq self runner_ckpt recovery w allocated :
  TaskRunnerCkpt.runner_header runner_ckpt = None ->
  TaskRunnerCkpt.allocated_port runner_ckpt = Some allocated ->
  let name := AllocatedPort.port_name allocated in
  let port := AllocatedPort.port allocated in
  update_runner_state self runner_ckpt recovery w
  = match TaskRunnerState.ports (obj w) ≫= (fun ports => ports !! name) with
    | None =>
        (mkEnv
           (TaskRunnerState.set_ports
              (Some (<[name := port]>
                       (default ∅ (TaskRunnerState.ports (obj w)))))
              (obj w))
           (calls w
              ++ map (fun h => PortCall h name port) (_port_handlers self))
           (logs w ++ [DbgAssignPort name port]),
         inr true)
    | Some bound =>
        if bool_decide (bound = port)
        then (w, inr false)
        else (w, inl (ErrorRecoveringState (PortConflict name)))
    end.
Proof.
  intros Hh Hp name port. unfold update_runner_state. rewrite Hh, Hp.
  cbv beta iota zeta delta [bind get].
  destruct w as [[hd [ports|] procs st] cs ls]; cbn.
  - fold name port. destruct (ports !! name) as [bound|] eqn:Hb; cbn.
    + rewrite bool_decide_not.
      destruct (bool_decide (port = bound)) eqn:Hd.
      * apply bool_decide_eq_true in Hd. subst bound.
        by rewrite bool_decide_eq_true_2.
      * apply bool_decide_eq_false in Hd.
        by rewrite bool_decide_eq_false_2 by congruence.
    + cbv beta iota delta [bind log modify]. cbn.
      by rewrite run_port_dispatch_eq.
  - fold name port. rewrite lookup_empty.
    cbv beta iota delta [bind log modify]. cbn.
    by rewrite run_port_dispatch_eq.
Qed.

(** C8.  For a record whose header is unset and whose port allocation is
    set: when the name has no port yet, the binding is recorded, every
    registered port handler is called once, in order of registration, with
    the name and the port, and the call returns [True]; when the name is
    bound to the same port the call returns [False] and nothing changes, no
    handler being called; when it is bound to another port the call raises
    [ErrorRecoveringState]. *)
Theorem C8_port_allocation self runner_ckpt recovery w allocated :
  TaskRunnerCkpt.runner_header runner_ckpt = None ->
  TaskRunnerCkpt.allocated_port runner_ckpt = Some allocated ->
  let name := AllocatedPort.port_name allocated in
  let port := AllocatedPort.port allocated in
  update_runner_state self runner_ckpt recovery w
  = match TaskRunnerState.ports (obj w) ≫= (fun ports => ports !! name) with
    | None =>
        (mkEnv
           (TaskRunnerState.set_ports
              (Some (<[name := port]>
                       (default ∅ (TaskRunnerState.ports (obj w)))))
              (obj w))
           (calls w
              ++ map (fun h => PortCall h name port) (_port_handlers self))
           (logs w ++ [DbgAssignPort name port]),
         inr true)
    | Some bound =>
        if bool_decide (bound = port)
        then (w, inr false)
        else (w, inl (ErrorRecoveringState (PortConflict name)))
    end.
Proof. apply allocated_port_eq. Qed.

Lemma C8_port_allocation_witness :
  update_runner_state (register_port_handler 7%nat __init__)
    (port_ckpt "http" 8080) false fresh_env
  = (mkEnv (TaskRunnerState.mk None (Some {["http"%string := 8080]}) ∅ None)
       [PortCall 7%nat "http" 8080] [DbgAssignPort "http" 8080],
     inr true).
Proof.
  rewrite (C8_port_allocation (register_port_handler 7%nat __init__)
             (port_ckpt "http" 8080) false fresh_env
             (AllocatedPort.mk 8080 "http") eq_refl eq_refl).
  reflexivity.
Defined.

(** * History state updates for an unknown process *)

(** C9, as the code has it.  A history-state record for a process the task
    state does not hold makes [state.processes[process_name]] fail: the
    call raises [KeyError], which is not one of the dispatcher's errors, and
    the state is untouched. *)
Theorem C9_unknown_history_process_key_error self runner_ckpt recovery w
    update :
  TaskRunnerCkpt.runner_header runner_ckpt = None ->
  TaskRunnerCkpt.allocated_port runner_ckpt = None ->
  TaskRunnerCkpt.state_update runner_ckpt = None ->
  TaskRunnerCkpt.history_state_update runner_ckpt = Some update ->
  TaskRunnerState.processes (obj w) !! HistoryStateUpdate.process update
  = None ->
  update_runner_state self runner_ckpt recovery w = (w, inl KeyError)
  /\ is_dispatcher_error KeyError = false.
Proof.
  intros H1 H2 H3 H4 Hk. split; [|done].
  unfold update_runner_state. rewrite H1, H2, H3, H4.
  cbv beta iota zeta delta [bind get]. by rewrite Hk.
Qed.

Lemma C9_unknown_history_process_key_error_witness :
  update_runner_state __init__
    (history_ckpt (Some "p"%string) TaskState.SUCCESS) false fresh_env
  = (fresh_env, inl KeyError).
Proof.
  apply (C9_unknown_history_process_key_error __init__
           (history_ckpt (Some "p"%string) TaskState.SUCCESS) false fresh_env
           (HistoryStateUpdate.mk (Some "p"%string) (Some TaskState.SUCCESS))
           eq_refl eq_refl eq_refl eq_refl eq_refl).
Defined.

(** C9 as the spec words it fails: on an empty state the history-state
    record for "p" raises [KeyError], not [ErrorRecoveringState], and
    [from_file] lets it through instead of returning [None]. *)
Lemma C9_counterexample :
  TaskRunnerState.processes (obj fresh_env) !! Some "p"%string = None
  /\ (update_runner_state __init__
        (history_ckpt (Some "p"%string) TaskState.SUCCESS) false fresh_env).2
     = inl KeyError
  /\ ~ (exists why,
          (update_runner_state __init__
             (history_ckpt (Some "p"%string) TaskState.SUCCESS) false
             fresh_env).2
          = inl (ErrorRecoveringState why))
  /\ from_file [history_ckpt (Some "p"%string) TaskState.SUCCESS]
     = Propagated KeyError.
Proof.
  repeat split; try (vm_compute; reflexivity).
  intros [why H]. vm_compute in H. discriminate.
Qed.

(** * [would_update] *)

(** C10.  [would_update] returns [False] for a record without a process
    state and leaves the state, the calls and the log as they were.  For a
    process state naming a process with a history, it returns whether the
    last run's sequence number is below the update's, and nothing else of
    the update or the run enters the result. *)
Theorem C10_would_update self runner_ckpt w :
  (TaskRunnerCkpt.process_state runner_ckpt = None ->
   would_update self runner_ckpt w = (w, inr false))
  /\ (forall pu h tail,
        TaskRunnerCkpt.process_state runner_ckpt = Some pu ->
        TaskRunnerState.processes (obj w) !! ProcessState.process pu
        = Some h ->
        last (ProcessHistory.runs h) = Some tail ->
        would_update self runner_ckpt w
        = (w, inr (py_lt (ProcessState.seq tail) (ProcessState.seq pu)))).
Proof.
  split.
  - intros H. unfold would_update. by rewrite H.
  - intros pu h tail H Hk Hlast. unfold would_update. rewrite H.
    cbv beta iota zeta delta [bind get]. by rewrite Hk, Hlast.
Qed.

Lemma C10_would_update_witness :
  would_update __init__ (port_ckpt "http" 8080) fresh_env
  = (fresh_env, inr false)
  /\ would_update __init__ (process_ckpt (lost_p 1)) waiting_env
     = (waiting_env, inr true).
Proof.
  split.
  - apply (proj1 (C10_would_update __init__ (port_ckpt "http" 8080)
                    fresh_env) eq_refl).
  - apply (proj2 (C10_would_update __init__ (process_ckpt (lost_p 1))
                    waiting_env)
             (lost_p 1)
             (ProcessHistory.mk (Some "p"%string) [waiting_p 0]
                (Some TaskState.ACTIVE))
             (waiting_p 0) eq_refl eq_refl eq_refl).
Defined.

(** The answer does not look at the transition: WAITING to LOST is
    refused by the state machine, and [would_update] says [True] for it. *)
Lemma would_update_ignores_legality :
  (would_update __init__ (process_ckpt (lost_p 1)) waiting_env).2 = inr true
  /\ (update_runner_state __init__ (process_ckpt (lost_p 1)) false
        waiting_env).2
     = inl InvalidStateTransition.
Proof. split; vm_compute; reflexivity. Qed.

(** * A rejected record and the state *)

Lemma update_process_state_restart_no_seq self pu recovery w h tail :
  TaskRunnerState.processes (obj w) !! ProcessState.process pu = Some h ->
  last (ProcessHistory.runs h) = Some tail ->
  is_terminal tail = true ->
  is_terminal pu = false ->
  ProcessState.seq tail = None ->
  (update_process_state self pu recovery w).2 = inl TypeError.
Proof.
  intros Hk Hlast Ht Hu Hs. unfold update_process_state.
  cbv beta iota delta [bind get]. by rewrite Hk, Hlast, Ht, Hu, Hs.
Qed.

(** A raise while the last run is the current record leaves the state as it
    was. *)
Lemma update_process_state_current_raise self pu recovery w w' e h tail :
  TaskRunnerState.processes (obj w) !! ProcessState.process pu = Some h ->
  last (ProcessHistory.runs h) = Some tail ->
  is_terminal tail = false ->
  update_process_state self pu recovery w = (w', inl e) ->
  obj w' = obj w /\ calls w' = calls w.
Proof.
  intros Hk Hlast Ht.
  rewrite (update_process_state_current _ _ _ _ _ _ Hk Hlast Ht).
  erewrite on_tail_run_eq by (cbn [obj]; eassumption).
  cbn [obj calls logs].
  destruct (update_task_state self pu recovery _) as [w1 [e1|b]] eqn:Hrun;
    [|done].
  intros [= <- <-]. apply update_task_state_raise in Hrun as (Ho & Hc & _).
  cbn [obj calls] in *. rewrite Ho. split; [|done].
  unfold set_history. by apply tail_write_id.
Qed.

Lemma process_state_rejected self pu recovery w w' e :
  is_Some (ProcessState.process pu) ->
  update_process_state self pu recovery w = (w', inl e) ->
  is_dispatcher_error e = true ->
  obj w' = obj w.
Proof.
  intros [p Hp] Hrun Herr.
  destruct (TaskRunnerState.processes (obj w) !! ProcessState.process pu)
    as [h|] eqn:Hk.
  2:{ rewrite Hp in Hk.
      by rewrite (update_process_state_unknown _ _ _ _ _ Hp Hk) in Hrun. }
  destruct (last (ProcessHistory.runs h)) as [tail|] eqn:Hlast.
  2:{ unfold update_process_state in Hrun.
      cbv beta iota delta [bind get] in Hrun. rewrite Hk, Hlast in Hrun.
      injection Hrun as <- <-. done. }
  destruct (is_terminal tail) eqn:Ht.
  2:{ by eapply update_process_state_current_raise. }
  destruct (is_terminal pu) eqn:Hu.
  { rewrite (update_process_state_two_terminal _ _ _ _ _ _ Hk Hlast Ht Hu)
      in Hrun. by injection Hrun as <- <-. }
  destruct (ProcessState.seq tail) as [s|] eqn:Hs.
  - rewrite Hp in Hk.
    by rewrite (update_process_state_restart _ _ _ _ _ _ _ _ Hp Hk Hlast Ht
                  Hu Hs) in Hrun.
  - pose proof (update_process_state_restart_no_seq self pu recovery w h tail
                  Hk Hlast Ht Hu Hs) as Hty.
    rewrite Hrun in Hty. cbn in Hty. injection Hty as ->. done.
Qed.

(** For a record whose process state, if it has one, names its process,
    every dispatcher error is raised before the task state is written
    to. *)
Lemma named_record_rejected self runner_ckpt recovery w w' e :
  (forall pu,
     TaskRunnerCkpt.process_state runner_ckpt = Some pu ->
     is_Some (ProcessState.process pu)) ->
  update_runner_state self runner_ckpt recovery w = (w', inl e) ->
  is_dispatcher_error e = true ->
  obj w' = obj w.
Proof.
  intros Hname Hrun Herr. unfold update_runner_state in Hrun.
  destruct (TaskRunnerCkpt.runner_header runner_ckpt) as [hd|].
  { cbv beta iota delta [bind get] in Hrun.
    destruct (TaskRunnerState.header (obj w)); [|done].
    by injection Hrun as <- <-. }
  destruct (TaskRunnerCkpt.allocated_port runner_ckpt) as [ap|] eqn:Hap.
  { pose proof (allocated_port_eq self
                  (TaskRunnerCkpt.mk None (Some ap) None None None)
                  recovery w ap eq_refl eq_refl) as Heq.
    unfold update_runner_state in Heq. cbn [TaskRunnerCkpt.runner_header
      TaskRunnerCkpt.allocated_port] in Heq. rewrite Heq in Hrun.
    destruct (TaskRunnerState.ports (obj w) ≫= _) as [bound|]; [|done].
    destruct (bool_decide _); [done|]. by injection Hrun as <- <-. }
  destruct (TaskRunnerCkpt.state_update runner_ckpt) as [su|].
  { cbv beta iota zeta delta [bind get modify log ret raise] in Hrun.
    destruct (bool_decide _); [|done].
    destruct (TaskStateUpdate.state su); [done|].
    injection Hrun as <- <-. done. }
  destruct (TaskRunnerCkpt.history_state_update runner_ckpt) as [hu|].
  { cbv beta iota zeta delta [bind get modify log ret raise] in Hrun.
    destruct (TaskRunnerState.processes (obj w) !! _).
    - destruct (bool_decide _); [|done].
      destruct (HistoryStateUpdate.state hu); [done|].
      injection Hrun as <- <-. done.
    - injection Hrun as <- <-. done. }
  destruct (TaskRunnerCkpt.process_state runner_ckpt) as [pu|]; [|done].
  eapply process_state_rejected; eauto.
Qed.

(** C5, where the code departs from it.  A process-state record without a
    process name, applied to an empty state, is rejected with
    [ErrorRecoveringState] for the missing field, but only after the
    history made for it has been stored under [None]: the state the call
    leaves is not the state it was given.  Every other path of
    [update_runner_state] raises its dispatcher errors before it writes
    (lemma [named_record_rejected]); here the write of line 314, and the
    append of line 305 when a new run is started, come before the check in
    [copy_fields]. *)
Theorem C5_nameless_record_leaves_history :
  let nameless :=
    ProcessState.make (Some 0) None (Some ProcessRunState.WAITING) in
  let result :=
    update_runner_state __init__ (process_ckpt nameless) false fresh_env in
  result.2 = inl (ErrorRecoveringState (MissingField F_process))
  /\ is_dispatcher_error (ErrorRecoveringState (MissingField F_process))
     = true
  /\ TaskRunnerState.processes (obj fresh_env) !! None = None
  /\ TaskRunnerState.processes (obj result.1) !! None
     = Some (ProcessHistory.mk None [ProcessState.make (Some 0) None None]
               (Some TaskState.ACTIVE))
  /\ obj result.1 <> obj fresh_env.
Proof.
  cbn zeta. repeat split; try (vm_compute; reflexivity).
  intros H.
  apply (f_equal (fun s => TaskRunnerState.processes s !! None)) in H.
  vm_compute in H. discriminate.
Qed.

(** * Reachable states are well formed *)

Lemma copy_all_seq u rs cur :
  ProcessState.seq (copy_all u (required_fields rs) cur) = ProcessState.seq u.
Proof. by destruct rs. Qed.

Lemma update_task_state_keeps_seq self u recovery w w' b :
  update_task_state self u recovery w = (w', inr b) ->
  is_Some (ProcessState.seq (obj w)) ->
  is_Some (ProcessState.seq (obj w')).
Proof.
  rewrite update_task_state_eq.
  destruct (ProcessState.seq u) as [s|] eqn:Hs; [|done].
  destruct (stale s (obj w)).
  { destruct recovery; [|done]. by intros [= <- _]. }
  rewrite run_transition_eq.
  destruct (ProcessState.run_state u) as [rs|].
  - destruct (_ || _); [done|].
    destruct (first_missing u (required_fields rs)); [done|].
    intros [= <- _] _. cbn [obj]. rewrite copy_all_seq, Hs. by eexists.
  - intros [= <- _]. cbn [obj]. by rewrite warned_obj.
Qed.

Lemma wf_state_set_history k h state :
  wf_history k h -> wf_state state -> wf_state (set_history k h state).
Proof.
  intros Hh Hst. unfold wf_state, set_history. cbn.
  by apply map_Forall_insert_2.
Qed.

Lemma wf_state_lookup state k h :
  wf_state state -> TaskRunnerState.processes state !! k = Some h ->
  wf_history k h.
Proof. intros Hst Hk. by apply (Hst k h). Qed.

Lemma update_process_state_wf self pu recovery w w' b :
  wf_state (obj w) ->
  update_process_state self pu recovery w = (w', inr b) ->
  wf_state (obj w').
Proof.
  intros Hwf Hrun.
  destruct (TaskRunnerState.processes (obj w) !! ProcessState.process pu)
    as [h|] eqn:Hk.
  - pose proof (wf_state_lookup _ _ _ Hwf Hk) as ([p Hp] & Hne & Hall).
    destruct (last (ProcessHistory.runs h)) as [tail|] eqn:Hlast.
    2:{ apply last_None in Hlast. done. }
    assert (is_Some (ProcessState.seq tail)) as [s Hs].
    { rewrite Forall_forall in Hall. apply Hall.
      rewrite last_lookup in Hlast. by eapply list_elem_of_lookup_2. }
    destruct (is_terminal tail) eqn:Ht.
    + destruct (is_terminal pu) eqn:Hu.
      { by rewrite (update_process_state_two_terminal _ _ _ _ _ _ Hk Hlast
                      Ht Hu) in Hrun. }
      rewrite Hp in Hk.
      rewrite (update_process_state_restart _ _ _ _ _ _ _ _ Hp Hk Hlast Ht
                 Hu Hs) in Hrun.
      injection Hrun as <- _. cbn [obj].
      apply wf_state_set_history; [|done].
      split; [by eexists|]. cbn. split.
      * by destruct (ProcessHistory.runs h).
      * apply Forall_app. split; [done|].
        apply Forall_singleton. by eexists.
    + rewrite (update_process_state_current _ _ _ _ _ _ Hk Hlast Ht) in Hrun.
      erewrite on_tail_run_eq in Hrun by (cbn [obj]; eassumption).
      cbn [obj calls logs] in Hrun.
      destruct (update_task_state self pu recovery _) as [w1 [e1|b1]] eqn:Hu;
        [done|].
      injection Hrun as <- _. cbn [obj].
      apply update_task_state_keeps_seq in Hu; [|cbn [obj]; by eexists].
      apply wf_state_set_history; [|done].
      split; [by rewrite Hp|]. cbn. split.
      * intros Hnil. apply (f_equal length) in Hnil.
        rewrite length_insert in Hnil. by destruct (ProcessHistory.runs h).
      * by apply Forall_insert.
  - destruct (ProcessState.process pu) as [p|] eqn:Hp.
    + rewrite (update_process_state_unknown _ _ _ _ _ Hp Hk) in Hrun.
      injection Hrun as <- _. cbn [obj].
      apply wf_state_set_history; [|done].
      split; [by eexists|]. cbn. split; [done|].
      apply Forall_singleton. by eexists.
    + by rewrite (update_process_state_nameless _ _ _ _ Hp Hk) in Hrun.
Qed.

Lemma update_runner_state_wf self runner_ckpt recovery w w' b :
  wf_state (obj w) ->
  update_runner_state self runner_ckpt recovery w = (w', inr b) ->
  wf_state (obj w').
Proof.
  intros Hwf Hrun. unfold update_runner_state in Hrun.
  destruct (TaskRunnerCkpt.runner_header runner_ckpt) as [hd|].
  { cbv beta iota zeta delta [bind get modify log ret] in Hrun.
    destruct (TaskRunnerState.header (obj w)); [done|].
    by injection Hrun as <- _. }
  destruct (TaskRunnerCkpt.allocated_port runner_ckpt) as [ap|] eqn:Hap.
  { pose proof (allocated_port_eq self
                  (TaskRunnerCkpt.mk None (Some ap) None None None)
                  recovery w ap eq_refl eq_refl) as Heq.
    unfold update_runner_state in Heq. cbn [TaskRunnerCkpt.runner_header
      TaskRunnerCkpt.allocated_port] in Heq. rewrite Heq in Hrun.
    destruct (TaskRunnerState.ports (obj w) ≫= _) as [bound|].
    - destruct (bool_decide _); [|done]. by injection Hrun as <- _.
    - by injection Hrun as <- _. }
  destruct (TaskRunnerCkpt.state_update runner_ckpt) as [su|].
  { cbv beta iota zeta delta [bind get modify log ret raise] in Hrun.
    destruct (bool_decide _); [|by injection Hrun as <- _].
    destruct (TaskStateUpdate.state su); [|done].
    by injection Hrun as <- _. }
  destruct (TaskRunnerCkpt.history_state_update runner_ckpt) as [hu|].
  { cbv beta iota zeta delta [bind get modify log ret raise] in Hrun.
    destruct (TaskRunnerState.processes (obj w) !! _) as [h|] eqn:Hk; [|done].
    destruct (bool_decide _); [|by injection Hrun as <- _].
    destruct (HistoryStateUpdate.state hu); [|done].
    injection Hrun as <- _.
    cbn [obj]. apply wf_state_set_history; [|done].
    by destruct (wf_state_lookup _ _ _ Hwf Hk) as (? & ? & ?). }
  destruct (TaskRunnerCkpt.process_state runner_ckpt) as [pu|].
  - by eapply update_process_state_wf.
  - cbv beta iota zeta delta [bind log ret] in Hrun.
    by injection Hrun as <- _.
Qed.

Lemma reachable_wf state : reachable state -> wf_state state.
Proof.
  induction 1 as [|self ckpt recovery w w' b _ IH Hrun].
  - unfold wf_state. cbn. apply map_Forall_empty.
  - by eapply update_runner_state_wf.
Qed.

(** * Terminal runs *)

(** C7, as the code has it.  In a state reached by successful applies,
    take a process whose last run is terminal.  A process-state record for
    it that is itself terminal raises [ErrorRecoveringState] and changes
    nothing.  Any other process-state record for it returns [True] and
    leaves the runs there were as they are, followed by one new run:
    WAITING, with the last run's sequence number plus one, and nothing of
    the arriving update but its process name.  So no run is ever given a
    second terminal state. *)
Theorem C7_terminal_tail self pu recovery w h tail :
  reachable (obj w) ->
  TaskRunnerState.processes (obj w) !! ProcessState.process pu = Some h ->
  last (ProcessHistory.runs h) = Some tail ->
  is_terminal tail = true ->
  if is_terminal pu then
    update_runner_state self (process_ckpt pu) recovery w
    = (w, inl (ErrorRecoveringState
                 (TwoTerminalStates (ProcessState.process pu))))
  else
    exists tail_seq w',
      ProcessState.seq tail = Some tail_seq
      /\ update_runner_state self (process_ckpt pu) recovery w = (w', inr true)
      /\ TaskRunnerState.processes (obj w')
         = <[ProcessState.process pu :=
               ProcessHistory.set_runs
                 (ProcessHistory.runs h
                    ++ [ProcessState.make (Some (tail_seq + 1))
                          (ProcessState.process pu)
                          (Some ProcessRunState.WAITING)])
                 h]>
             (TaskRunnerState.processes (obj w)).
Proof.
  intros Hreach Hk Hlast Ht. rewrite update_runner_state_process.
  destruct (is_terminal pu) eqn:Hu.
  - by apply update_process_state_two_terminal with h tail.
  - apply reachable_wf in Hreach.
    pose proof (wf_state_lookup _ _ _ Hreach Hk) as ([p Hp] & Hne & Hall).
    assert (is_Some (ProcessState.seq tail)) as [s Hs].
    { rewrite Forall_forall in Hall. apply Hall.
      rewrite last_lookup in Hlast. by eapply list_elem_of_lookup_2. }
    exists s. eexists. split; [done|]. rewrite Hp in Hk |- *.
    rewrite (update_process_state_restart _ _ _ _ _ _ _ _ Hp Hk Hlast Ht
               Hu Hs).
    split; reflexivity.
Qed.

Lemma reachable_for_each self recovery records w w' :
  reachable (obj w) ->
  for_each records (fun r => update_runner_state self r recovery) w
  = (w', inr tt) ->
  reachable (obj w').
Proof.
  revert w. induction records as [|r rs IH]; intros w Hreach Hrun.
  - by injection Hrun as <-.
  - cbn in Hrun. unfold bind in Hrun.
    destruct (update_runner_state self r recovery w) as [w1 [e|b]] eqn:Hstep;
      [done|].
    apply (IH w1); [|done]. by eapply reachable_apply.
Qed.

Lemma C7_terminal_tail_witness :
  update_runner_state __init__ (process_ckpt (lost_p 3)) false lost_env
  = (lost_env,
     inl (ErrorRecoveringState (TwoTerminalStates (Some "p"%string))))
  /\ exists tail_seq w',
       ProcessState.seq lost_run = Some tail_seq
       /\ update_runner_state __init__ (process_ckpt (forked_p 9)) false
            lost_env = (w', inr true)
       /\ TaskRunnerState.processes (obj w')
          = <[Some "p"%string :=
                ProcessHistory.mk (Some "p"%string)
                  [lost_run;
                   ProcessState.make (Some (tail_seq + 1)) (Some "p"%string)
                     (Some ProcessRunState.WAITING)]
                  (Some TaskState.ACTIVE)]>
              (TaskRunnerState.processes (obj lost_env)).
Proof.
  assert (reachable (obj lost_env)) as Hreach.
  { apply (reachable_for_each __init__ false lost_records fresh_env).
    - apply reachable_fresh.
    - vm_compute. reflexivity. }
  split.
  - exact (C7_terminal_tail __init__ (lost_p 3) false lost_env
             (ProcessHistory.mk (Some "p"%string) [lost_run]
                (Some TaskState.ACTIVE))
             lost_run Hreach eq_refl eq_refl eq_refl).
  - exact (C7_terminal_tail __init__ (forked_p 9) false lost_env
             (ProcessHistory.mk (Some "p"%string) [lost_run]
                (Some TaskState.ACTIVE))
             lost_run Hreach eq_refl eq_refl eq_refl).
Defined.

(** C7 as the spec words it fails.  The last run of "p" is LOST at
    sequence number 2 and a FORKED update at 9 arrives.  A fresh run at 3
    to which that update's transition is then applied would either refuse
    it, the run having no run state yet, or, seeded with WAITING, end up
    FORKED at 9.  The dispatcher does neither: it returns [True] and the
    new run is WAITING at 3, the arriving update having been replaced by
    one of the dispatcher's own making. *)
Lemma C7_counterexample :
  let arriving := forked_p 9 in
  let result :=
    update_runner_state __init__ (process_ckpt arriving) false lost_env in
  ProcessHistory.runs
    <$> (TaskRunnerState.processes (obj lost_env) !! Some "p"%string)
  = Some [lost_run]
  /\ is_terminal lost_run = true
  /\ is_terminal arriving = false
  /\ result.2 = inr true
  /\ ProcessHistory.runs
       <$> (TaskRunnerState.processes (obj result.1) !! Some "p"%string)
     = Some [lost_run; waiting_p 3]
  /\ (update_task_state __init__ arriving false
        (mkEnv (ProcessState.make (Some 3) (Some "p"%string) None) [] [])).2
     = inl InvalidStateTransition
  /\ obj (update_task_state __init__ arriving false
            (mkEnv (waiting_p 3) [] [])).1
     = forked_p 9
  /\ waiting_p 3 <> forked_p 9.
Proof.
  cbn zeta. repeat split; try (vm_compute; reflexivity). discriminate.
Qed.

(** * Replay *)

Lemma spec_replay_step_failed recovery records w e :
  fold_left (spec_replay_step recovery) records (w, inl e) = (w, inl e).
Proof. by induction records. Qed.

Lemma for_each_fold recovery records w b :
  match
    for_each records
      (fun r => update_runner_state __init__ r recovery) w
  with
  | (w', inr _) =>
      exists b',
        fold_left (spec_replay_step recovery) records (w, inr b)
        = (w', inr b')
  | (w', inl e) =>
      fold_left (spec_replay_step recovery) records (w, inr b) = (w', inl e)
  end.
Proof.
  revert w b. induction records as [|r rs IH]; intros w b; cbn.
  - by exists b.
  - unfold bind.
    destruct (update_runner_state __init__ r recovery w) as [w1 [e|b1]].
    + apply spec_replay_step_failed.
    + apply IH.
Qed.

(** C1, as the code has it.  [from_file] creates an empty state with an
    empty process table and folds the records into it with a dispatcher
    without handlers, calling [update_runner_state] without the recovery
    argument, that is with its default [False]: the result is the replay
    of the spec with the recovery flag off. *)
Theorem C1_from_file_replays_without_recovery records :
  from_file records = spec_replay false records.
Proof.
  unfold from_file, spec_replay, default_recovery.
  pose proof (for_each_fold false records (mkEnv fresh_state [] []) true) as H.
  destruct (for_each records _ _) as [w [e|u]].
  - by rewrite H.
  - destruct H as [b' ->]. done.
Qed.

(** C1 as the spec words it fails: on a log with a duplicated record the
    replay with the recovery flag on skips the duplicate and yields the
    state, while [from_file] hits [InvalidSequenceNumber] and returns
    [None]. *)
Lemma C1_counterexample :
  from_file duplicate_records = Returned None
  /\ spec_replay true duplicate_records
     = Returned
         (Some (set_history (Some "p"%string)
                  (ProcessHistory.mk (Some "p"%string) [forked_p 1]
                     (Some TaskState.ACTIVE))
                  fresh_state))
  /\ from_file duplicate_records <> spec_replay true duplicate_records.
Proof.
  assert (from_file duplicate_records = Returned None) as H1
    by (vm_compute; reflexivity).
  assert (spec_replay true duplicate_records
          = Returned
              (Some (set_history (Some "p"%string)
                       (ProcessHistory.mk (Some "p"%string) [forked_p 1]
                          (Some TaskState.ACTIVE))
                       fresh_state))) as H2
    by (vm_compute; reflexivity).
  split; [done|]. split; [done|]. rewrite H1, H2. discriminate.
Qed.

(** * What every call keeps *)

Lemma update_task_state_not_applied self u recovery w w' res :
  update_task_state self u recovery w = (w', res) ->
  res <> inr true ->
  obj w' = obj w /\ calls w' = calls w.
Proof.
  rewrite update_task_state_eq.
  destruct (ProcessState.seq u) as [s|]; [|by intros [= <- <-]].
  destruct (stale s (obj w)); [by intros [= <- <-]|].
  rewrite run_transition_eq.
  destruct (ProcessState.run_state u) as [rs|]; [|by intros [= <- <-]].
  rewrite warned_obj.
  destruct (_ || _).
  { intros [= <- <-]. by rewrite warned_obj, warned_calls. }
  destruct (first_missing u (required_fields rs)); [|by intros [= <- <-]].
  intros [= <- <-]. by rewrite warned_obj, warned_calls.
Qed.

Lemma on_tail_run_inv {A} k (m : M ProcessState.t A) w w' r :
  on_tail_run k m w = (w', r) ->
  (w' = w /\ (r = inl KeyError \/ r = inl IndexError))
  \/ exists h ps w1,
       TaskRunnerState.processes (obj w) !! k = Some h
       /\ last (ProcessHistory.runs h) = Some ps
       /\ m (mkEnv ps (calls w) (logs w)) = (w1, r)
       /\ w' = mkEnv
                 (set_history k
                    (ProcessHistory.set_runs
                       (<[Nat.pred (length (ProcessHistory.runs h))
                          := obj w1]> (ProcessHistory.runs h)) h)
                    (obj w))
                 (calls w1) (logs w1).
Proof.
  unfold on_tail_run.
  destruct (TaskRunnerState.processes (obj w) !! k) as [h|] eqn:Hk.
  2:{ intros [= <- <-]. left. eauto. }
  destruct (last (ProcessHistory.runs h)) as [ps|] eqn:Hlast.
  2:{ intros [= <- <-]. left. eauto. }
  destruct (m _) as [w1 r1] eqn:Hm. intros [= <- <-].
  right. by exists h, ps, w1.
Qed.

Lemma removelast_prefix_insert {A} (l : list A) x :
  removelast l `prefix_of` <[Nat.pred (length l) := x]> l.
Proof.
  destruct (decide (l = [])) as [->|Hne]; [by exists []|].
  destruct (exists_last Hne) as [l0 [y ->]].
  rewrite removelast_last, tail_write_snoc. by exists [x].
Qed.

Lemma removelast_prefix_snoc {A} (l : list A) x :
  removelast l `prefix_of` l ++ [x].
Proof.
  destruct (decide (l = [])) as [->|Hne]; [by exists [x]|].
  destruct (exists_last Hne) as [l0 [y ->]].
  rewrite removelast_last. exists [y; x]. by rewrite <- app_assoc.
Qed.

Lemma removelast_prefix {A} (l : list A) : removelast l `prefix_of` l.
Proof.
  destruct (decide (l = [])) as [->|Hne]; [done|].
  destruct (exists_last Hne) as [l0 [y ->]].
  rewrite removelast_last. by exists [y].
Qed.

Lemma history_extends_refl h : history_extends h h.
Proof.
  split; [done|]. split; [|done].
  destruct (decide (ProcessHistory.runs h = [])) as [->|Hne]; [done|].
  destruct (exists_last Hne) as [l0 [y ->]].
  rewrite removelast_last. by exists [y].
Qed.

Lemma continues_refl state : continues state state.
Proof. intros k h Hk. exists h. split; [done|apply history_extends_refl]. Qed.

Lemma continues_set_history state k h' :
  (forall h, TaskRunnerState.processes state !! k = Some h ->
             history_extends h h') ->
  continues state (set_history k h' state).
Proof.
  intros Hext k0 h0 Hk0. unfold set_history. cbn.
  destruct (decide (k = k0)) as [<-|Hne].
  - exists h'. rewrite lookup_insert_eq. split; [done|]. by apply Hext.
  - exists h0. rewrite lookup_insert_ne by done.
    split; [done|apply history_extends_refl].
Qed.

Lemma lookup_set_history k h state :
  TaskRunnerState.processes (set_history k h state) !! k = Some h.
Proof. unfold set_history. cbn. apply lookup_insert_eq. Qed.

Lemma set_processes_self state :
  state = TaskRunnerState.set_processes (TaskRunnerState.processes state) state.
Proof. by destruct state. Qed.

(** The run machine started on the last run of [h0], stored under [k] in
    a state that differs from [obj w] by that history at most. *)
Lemma on_tail_run_frame self u recovery k h0 w0 w w' res :
  obj w0 = set_history k h0 (obj w) \/ (obj w0 = obj w) ->
  calls w0 = calls w ->
  (forall h, TaskRunnerState.processes (obj w) !! k = Some h ->
             TaskRunnerState.processes (obj w0) !! k = Some h0
             /\ ProcessHistory.process h0 = ProcessHistory.process h
             /\ removelast (ProcessHistory.runs h)
                `prefix_of` removelast (ProcessHistory.runs h0)
             /\ (length (ProcessHistory.runs h)
                 <= length (ProcessHistory.runs h0))%nat) ->
  on_tail_run k (update_task_state self u recovery) w0 = (w', res) ->
  (exists procs, obj w' = TaskRunnerState.set_processes procs (obj w))
  /\ continues (obj w) (obj w')
  /\ (res <> inr true -> calls w' = calls w).
Proof.
  intros Hobj Hcalls Hold Hrun.
  apply on_tail_run_inv in Hrun
    as [[-> _]|(h1 & ps & w1 & Hk1 & Hlast & Hm & ->)].
  - split; [|split].
    + destruct Hobj as [-> | ->]; eexists;
        [reflexivity|apply set_processes_self].
    + intros k1 h Hk. destruct (decide (k = k1)) as [<-|Hne].
      * destruct (Hold h Hk) as (Hk0 & Hp & Hpre & Hlen).
        exists h0. split; [done|]. split; [done|]. split; [|done].
        etrans; [exact Hpre|]. apply removelast_prefix.
      * exists h. split; [|apply history_extends_refl].
        destruct Hobj as [-> | ->]; [|done].
        unfold set_history. cbn. by rewrite lookup_insert_ne.
    + done.
  - cbn [obj calls]. split; [|split].
    + destruct Hobj as [-> | ->]; eexists; reflexivity.
    + intros k1 h Hk. destruct (decide (k = k1)) as [<-|Hne].
      * destruct (Hold h Hk) as (Hk0 & Hp & Hpre & Hlen).
        rewrite Hk0 in Hk1. injection Hk1 as <-.
        eexists. split; [apply lookup_set_history|].
        split; [done|]. cbn. split.
        -- etrans; [exact Hpre|]. apply removelast_prefix_insert.
        -- by rewrite length_insert.
      * exists h. split; [|apply history_extends_refl].
        unfold set_history at 1. cbn. rewrite lookup_insert_ne by done.
        destruct Hobj as [-> | ->]; [|done].
        unfold set_history. cbn. by rewrite lookup_insert_ne.
    + intros Hres.
      apply update_task_state_not_applied in Hm as [_ Hc]; [|done].
      cbn in Hc. congruence.
Qed.

Lemma frame_refl (w : Env TaskRunnerState.t) (res : Exn + bool) :
  (exists procs, obj w = TaskRunnerState.set_processes procs (obj w))
  /\ continues (obj w) (obj w)
  /\ (res <> inr true -> calls w = calls w).
Proof.
  split; [eexists; apply set_processes_self|].
  split; [apply continues_refl|done].
Qed.

(** Case 5 writes to the process table only, continues every history and
    calls no handler unless it returns [True]; this whatever it returns or
    raises. *)
Lemma update_process_state_frame self pu recovery w w' res :
  update_process_state self pu recovery w = (w', res) ->
  (exists procs, obj w' = TaskRunnerState.set_processes procs (obj w))
  /\ continues (obj w) (obj w')
  /\ (res <> inr true -> calls w' = calls w).
Proof.
  intros Hrun. unfold update_process_state in Hrun.
  cbv beta iota delta [bind get] in Hrun.
  destruct (TaskRunnerState.processes (obj w) !! ProcessState.process pu)
    as [h|] eqn:Hk.
  - destruct (last (ProcessHistory.runs h)) as [tail|] eqn:Hlast.
    2:{ injection Hrun as <- <-. apply frame_refl. }
    destruct (is_terminal tail).
    + destruct (is_terminal pu).
      { injection Hrun as <- <-. apply frame_refl. }
      cbv beta iota zeta delta [transition_to_waiting log modify bind]
        in Hrun.
      cbn [obj calls logs ProcessState.seq ProcessState.set_run_state
           ProcessState.make] in Hrun.
      destruct (ProcessState.seq tail) as [s|].
      * eapply on_tail_run_frame in Hrun; [exact Hrun| | |].
        -- left. reflexivity.
        -- reflexivity.
        -- intros h1 Hk1. rewrite Hk in Hk1. injection Hk1 as <-.
           cbn [obj]. split; [apply lookup_set_history|].
           split; [done|]. cbn. rewrite removelast_last. split.
           ++ apply removelast_prefix.
           ++ rewrite length_app. lia.
      * injection Hrun as <- <-. cbn [obj calls]. split; [|split].
        -- eexists. reflexivity.
        -- apply continues_set_history. intros h1 Hk1.
           rewrite Hk in Hk1. injection Hk1 as <-.
           split; [done|]. cbn. split.
           ++ apply removelast_prefix_snoc.
           ++ rewrite length_app. lia.
        -- done.
    + cbv beta iota zeta delta [log bind] in Hrun.
      eapply on_tail_run_frame in Hrun; [exact Hrun| | |].
      * right. reflexivity.
      * reflexivity.
      * intros h1 Hk1. rewrite Hk in Hk1. injection Hk1 as <-.
        cbn [obj]. done.
  - cbv beta iota zeta delta [transition_to_waiting log modify bind] in Hrun.
    cbn [obj calls logs ProcessState.seq ProcessState.set_run_state
         ProcessState.make ProcessHistory.runs app
         ProcessHistory.set_runs ProcessHistory.process
         ProcessHistory.state] in Hrun.
    eapply on_tail_run_frame in Hrun; [exact Hrun| | |].
    + left. reflexivity.
    + reflexivity.
    + intros h1 Hk1. by rewrite Hk in Hk1.
Qed.

Lemma continues_same_processes state state' :
  TaskRunnerState.processes state' = TaskRunnerState.processes state ->
  continues state state'.
Proof.
  intros Heq k h Hk. exists h. rewrite Heq.
  split; [done|apply history_extends_refl].
Qed.

Lemma runner_frame_keep (w w' : Env TaskRunnerState.t) (res : Exn + bool) :
  TaskRunnerState.header (obj w) = None
  \/ TaskRunnerState.header (obj w') = TaskRunnerState.header (obj w) ->
  TaskRunnerState.ports (obj w') = TaskRunnerState.ports (obj w) ->
  continues (obj w) (obj w') ->
  (res <> inr true -> calls w' = calls w) ->
  (forall hd, TaskRunnerState.header (obj w) = Some hd ->
              TaskRunnerState.header (obj w') = Some hd)
  /\ (forall ports name port,
        TaskRunnerState.ports (obj w) = Some ports ->
        ports !! name = Some port ->
        exists ports',
          TaskRunnerState.ports (obj w') = Some ports'
          /\ ports' !! name = Some port)
  /\ continues (obj w) (obj w')
  /\ (res <> inr true -> calls w' = calls w).
Proof.
  intros Hh Hp Hc Hcalls. split; [|split; [|done]].
  - intros hd Hhd. destruct Hh as [Hh|Hh]; congruence.
  - intros ports name port Hports Hn. exists ports. by rewrite Hp.
Qed.

(** The same for [update_runner_state], with the header and the ports. *)
Lemma update_runner_state_frame self runner_ckpt recovery w w' res :
  update_runner_state self runner_ckpt recovery w = (w', res) ->
  (forall hd, TaskRunnerState.header (obj w) = Some hd ->
              TaskRunnerState.header (obj w') = Some hd)
  /\ (forall ports name port,
        TaskRunnerState.ports (obj w) = Some ports ->
        ports !! name = Some port ->
        exists ports',
          TaskRunnerState.ports (obj w') = Some ports'
          /\ ports' !! name = Some port)
  /\ continues (obj w) (obj w')
  /\ (res <> inr true -> calls w' = calls w).
Proof.
  intros Hrun. unfold update_runner_state in Hrun.
  destruct (TaskRunnerCkpt.runner_header runner_ckpt) as [hd|].
  { cbv beta iota zeta delta [bind get modify log ret raise] in Hrun.
    remember (TaskRunnerState.header (obj w)) as oh eqn:Hh in Hrun.
    destruct oh; injection Hrun as <- <-;
      apply runner_frame_keep; cbn [obj calls];
      auto using continues_refl, continues_same_processes;
      try (left; congruence). }
  destruct (TaskRunnerCkpt.allocated_port runner_ckpt) as [ap|] eqn:Hap.
  { pose proof (allocated_port_eq self
                  (TaskRunnerCkpt.mk None (Some ap) None None None)
                  recovery w ap eq_refl eq_refl) as Heq.
    unfold update_runner_state in Heq. cbn [TaskRunnerCkpt.runner_header
      TaskRunnerCkpt.allocated_port] in Heq. rewrite Heq in Hrun.
    clear Heq.
    destruct (TaskRunnerState.ports (obj w) ≫= _) as [bound|] eqn:Hb.
    - assert (w' = w) as -> by (destruct (bool_decide _); congruence).
      apply runner_frame_keep; auto using continues_refl, continues_same_processes.
    - injection Hrun as <- <-. cbn [obj calls].
      split; [done|].
      split; [|split; [by apply continues_same_processes|done]].
      intros ports name port Hp Hn. rewrite Hp in Hb |- *. cbn in Hb |- *.
      eexists. split; [reflexivity|].
      rewrite lookup_insert_ne; [done|]. intros <-. congruence. }
  destruct (TaskRunnerCkpt.state_update runner_ckpt) as [su|].
  { cbv beta iota zeta delta [bind get modify log ret raise] in Hrun.
    destruct (bool_decide _); [destruct (TaskStateUpdate.state su)|];
      injection Hrun as <- <-;
      apply runner_frame_keep; cbn [obj calls];
      auto using continues_refl, continues_same_processes. }
  destruct (TaskRunnerCkpt.history_state_update runner_ckpt) as [hu|].
  { cbv beta iota zeta delta [bind get modify log ret raise] in Hrun.
    destruct (TaskRunnerState.processes (obj w) !! _) as [h|] eqn:Hk.
    - destruct (bool_decide _); [destruct (HistoryStateUpdate.state hu)|];
        injection Hrun as <- <-;
        apply runner_frame_keep; cbn [obj calls];
        auto using continues_refl, continues_same_processes.
      all: apply continues_set_history; intros h1 Hk1;
        rewrite Hk in Hk1; injection Hk1 as <-;
        split; [done|]; cbn; split; [apply removelast_prefix|done].
    - injection Hrun as <- <-.
      apply runner_frame_keep; auto using continues_refl, continues_same_processes. }
  destruct (TaskRunnerCkpt.process_state runner_ckpt) as [pu|].
  - apply update_process_state_frame in Hrun as ([procs Hprocs] & Hc & Hcalls).
    apply runner_frame_keep; auto; rewrite Hprocs; auto.
  - cbv beta iota zeta delta [bind log ret] in Hrun.
    injection Hrun as <- <-.
    apply runner_frame_keep; cbn [obj calls]; auto using continues_refl, continues_same_processes.
Qed.

(** * The other cases of the dispatcher *)

(** X1.  A record with a header, applied to a state without one, stores
    the header and returns [True] without calling a handler.  Applied to a
    state that has a header it raises [ErrorRecoveringState] and leaves
    everything as it was, also when the two headers are the same. *)
Theorem X1_header_bound_once self runner_ckpt recovery w hd :
  TaskRunnerCkpt.runner_header runner_ckpt = Some hd ->
  (TaskRunnerState.header (obj w) = None ->
   update_runner_state self runner_ckpt recovery w
   = (mkEnv (TaskRunnerState.set_header (Some hd) (obj w)) (calls w)
        (logs w ++ [DbgInitHeader hd]),
      inr true))
  /\ (forall old,
        TaskRunnerState.header (obj w) = Some old ->
        update_runner_state self runner_ckpt recovery w
        = (w, inl (ErrorRecoveringState RebindHeader))).
Proof.
  intros Hh. unfold update_runner_state. rewrite Hh.
  cbv beta iota zeta delta [bind get modify log ret raise].
  split.
  - by intros ->.
  - by intros old ->.
Qed.

Lemma X1_header_bound_once_witness :
  update_runner_state __init__
    (TaskRunnerCkpt.mk (Some "task"%string) None None None None) false
    (mkEnv (TaskRunnerState.mk (Some "task"%string) None ∅ None) [] [])
  = (mkEnv (TaskRunnerState.mk (Some "task"%string) None ∅ None) [] [],
     inl (ErrorRecoveringState RebindHeader)).
Proof.
  apply (proj2 (X1_header_bound_once __init__
                  (TaskRunnerCkpt.mk (Some "task"%string) None None None None)
                  false
                  (mkEnv (TaskRunnerState.mk (Some "task"%string) None ∅ None)
                     [] [])
                  "task"%string eq_refl) "task"%string eq_refl).
Defined.

(** X2.  For a task-state record (header and port unset) whose state is
    a value of the enumeration: the call does not raise and calls no
    handler; it returns [True] exactly when the task state differs from the
    one recorded, which it then overwrites; the header, the ports and the
    processes stay; applied a second time it returns [False] and changes
    nothing.  For a record whose state is unset: the call returns [False]
    when the task state is unset too; otherwise it overwrites the task
    state with [None] and then raises [KeyError], from the look-up of the
    new state's name for the log message. *)
Theorem X2_task_state_update self runner_ckpt recovery w su :
  TaskRunnerCkpt.runner_header runner_ckpt = None ->
  TaskRunnerCkpt.allocated_port runner_ckpt = None ->
  TaskRunnerCkpt.state_update runner_ckpt = Some su ->
  (forall s,
     TaskStateUpdate.state su = Some s ->
     exists w',
       update_runner_state self runner_ckpt recovery w
       = (w', inr (bool_decide (TaskRunnerState.state (obj w) <> Some s)))
       /\ obj w' = TaskRunnerState.set_state (Some s) (obj w)
       /\ calls w' = calls w
       /\ update_runner_state self runner_ckpt recovery w' = (w', inr false))
  /\ (TaskStateUpdate.state su = None ->
      update_runner_state self runner_ckpt recovery w
      = if bool_decide (TaskRunnerState.state (obj w) = None)
        then (w, inr false)
        else (mkEnv (TaskRunnerState.set_state None (obj w)) (calls w)
                (logs w),
              inl KeyError)).
Proof.
  intros H1 H2 H3. unfold update_runner_state. rewrite H1, H2, H3.
  cbv beta iota zeta delta [bind get modify log ret raise]. split.
  - intros s ->.
    destruct (bool_decide (TaskRunnerState.state (obj w) <> _)) eqn:Hd.
    + eexists. split; [reflexivity|]. cbn [obj calls].
      repeat split. by rewrite bool_decide_eq_false_2 by (cbn; auto).
    + exists w. apply bool_decide_eq_false in Hd. apply dec_stable in Hd.
      split; [reflexivity|]. split.
      * destruct w as [[hd ps pr st] cs ls]. cbn in *. by subst.
      * split; [done|].
        by rewrite bool_decide_eq_false_2 by (rewrite Hd; auto).
  - intros ->. repeat case_bool_decide; first [done|by exfalso; auto].
Qed.

Lemma X2_task_state_update_witness :
  (exists w',
     update_runner_state __init__
       (TaskRunnerCkpt.mk None None
          (Some (TaskStateUpdate.mk (Some TaskState.ACTIVE))) None None)
       false fresh_env
     = (w', inr true)
     /\ TaskRunnerState.state (obj w') = Some TaskState.ACTIVE)
  /\ update_runner_state __init__
       (TaskRunnerCkpt.mk None None (Some (TaskStateUpdate.mk None)) None
          None)
       false
       (mkEnv (TaskRunnerState.mk None None ∅ (Some TaskState.ACTIVE)) [] [])
     = (mkEnv (TaskRunnerState.mk None None ∅ None) [] [], inl KeyError).
Proof.
  split.
  - destruct (proj1 (X2_task_state_update __init__
                       (TaskRunnerCkpt.mk None None
                          (Some (TaskStateUpdate.mk (Some TaskState.ACTIVE)))
                          None None)
                       false fresh_env
                       (TaskStateUpdate.mk (Some TaskState.ACTIVE))
                       eq_refl eq_refl eq_refl)
                TaskState.ACTIVE eq_refl) as [w' [Hrun [Hobj _]]].
    exists w'. split; [exact Hrun|]. rewrite Hobj. reflexivity.
  - exact (proj2 (X2_task_state_update __init__
                    (TaskRunnerCkpt.mk None None
                       (Some (TaskStateUpdate.mk None)) None None)
                    false
                    (mkEnv (TaskRunnerState.mk None None ∅
                              (Some TaskState.ACTIVE)) [] [])
                    (TaskStateUpdate.mk None) eq_refl eq_refl eq_refl)
             eq_refl).
Defined.

(** X3.  For a history-state record for a process the state holds, whose
    state is a value of the enumeration: the call does not raise and calls
    no handler; it returns [True] exactly when the history's state differs
    from the one recorded, which it then overwrites; the runs of that
    history and all the other histories stay; applied a second time it
    returns [False] and changes nothing.  For a record whose state is
    unset: the call returns [False] when the history's state is unset too;
    otherwise it overwrites the history's state with [None] and then raises
    [KeyError], from the look-up of the new state's name for the log
    message. *)
Theorem X3_history_state_update self runner_ckpt recovery w hu h :
  TaskRunnerCkpt.runner_header runner_ckpt = None ->
  TaskRunnerCkpt.allocated_port runner_ckpt = None ->
  TaskRunnerCkpt.state_update runner_ckpt = None ->
  TaskRunnerCkpt.history_state_update runner_ckpt = Some hu ->
  TaskRunnerState.processes (obj w) !! HistoryStateUpdate.process hu
  = Some h ->
  (forall s,
     HistoryStateUpdate.state hu = Some s ->
     exists w',
       update_runner_state self runner_ckpt recovery w
       = (w', inr (bool_decide (ProcessHistory.state h <> Some s)))
       /\ obj w'
          = set_history (HistoryStateUpdate.process hu)
              (ProcessHistory.set_state (Some s) h) (obj w)
       /\ calls w' = calls w
       /\ update_runner_state self runner_ckpt recovery w' = (w', inr false))
  /\ (HistoryStateUpdate.state hu = None ->
      update_runner_state self runner_ckpt recovery w
      = if bool_decide (ProcessHistory.state h = None)
        then (w, inr false)
        else (mkEnv
                (set_history (HistoryStateUpdate.process hu)
                   (ProcessHistory.set_state None h) (obj w))
                (calls w) (logs w),
              inl KeyError)).
Proof.
  intros H1 H2 H3 H4 Hk. unfold update_runner_state.
  rewrite H1, H2, H3, H4.
  cbv beta iota zeta delta [bind get modify log ret raise]. split.
  - intros s ->. rewrite Hk.
    destruct (bool_decide (ProcessHistory.state h <> _)) eqn:Hd.
    + eexists. split; [reflexivity|]. cbn [obj calls].
      repeat split. rewrite lookup_set_history.
      by rewrite bool_decide_eq_false_2 by (cbn; auto).
    + exists w. apply bool_decide_eq_false in Hd. apply dec_stable in Hd.
      split; [reflexivity|]. split.
      * destruct w as [[hd ps pr st] cs ls], h as [hp hr hs].
        cbn in *. subst hs. unfold set_history. cbn.
        by rewrite insert_id.
      * split; [done|]. rewrite Hk.
        by rewrite bool_decide_eq_false_2 by (rewrite Hd; auto).
  - intros ->. rewrite Hk.
    repeat case_bool_decide; first [done|by exfalso; auto].
Qed.

Lemma X3_history_state_update_witness :
  exists w',
    update_runner_state __init__
      (history_ckpt (Some "p"%string) TaskState.SUCCESS) false waiting_env
    = (w', inr true)
    /\ TaskRunnerState.processes (obj w') !! Some "p"%string
       = Some (ProcessHistory.mk (Some "p"%string) [waiting_p 0]
                 (Some TaskState.SUCCESS)).
Proof.
  destruct (proj1 (X3_history_state_update __init__
                     (history_ckpt (Some "p"%string) TaskState.SUCCESS) false
                     waiting_env
                     (HistoryStateUpdate.mk (Some "p"%string)
                        (Some TaskState.SUCCESS))
                     (ProcessHistory.mk (Some "p"%string) [waiting_p 0]
                        (Some TaskState.ACTIVE))
                     eq_refl eq_refl eq_refl eq_refl eq_refl)
              TaskState.SUCCESS eq_refl)
    as [w' [Hrun [Hobj _]]].
  exists w'. split; [exact Hrun|]. rewrite Hobj. reflexivity.
Defined.

(** X4.  A record with no member set is not an error for the caller: the
    call returns [False], logs one error line, and leaves the state and the
    handler calls as they were. *)
Theorem X4_empty_record self recovery w :
  update_runner_state self (TaskRunnerCkpt.mk None None None None None)
    recovery w
  = (mkEnv (obj w) (calls w) (logs w ++ [ErrEmptyCkpt]), inr false).
Proof. reflexivity. Qed.

(** X5.  [update_runner_state] acts on the first member of the record
    that is set, in the order header, port, task state, history state,
    process state, and ignores every member after it. *)
Theorem X5_first_member_wins self runner_ckpt recovery w :
  update_runner_state self runner_ckpt recovery w
  = update_runner_state self (first_variant runner_ckpt) recovery w.
Proof.
  destruct runner_ckpt as [[hd|] [ap|] [su|] [hu|] ps]; reflexivity.
Qed.

(** * Handler calls, write-once bindings and append-only histories *)

(** The implicit WAITING update is never skipped as stale. *)
Lemma seeded_run_not_skipped self recovery k (s0 s1 : Z) cs ls w1 :
  s0 <= 0 \/ s1 = s0 + 1 ->
  update_task_state self
    (ProcessState.make (Some s1) k (Some ProcessRunState.WAITING)) recovery
    (mkEnv (ProcessState.make (Some s0) k None) cs ls)
  <> (w1, inr false).
Proof.
  intros Hs. destruct k as [p|].
  - by rewrite seeded_run_waiting.
  - by rewrite seeded_run_nameless.
Qed.

Lemma update_process_state_false self pu recovery w w' :
  update_process_state self pu recovery w = (w', inr false) ->
  obj w' = obj w /\ calls w' = calls w.
Proof.
  intros Hrun. unfold update_process_state in Hrun.
  cbv beta iota delta [bind get] in Hrun.
  destruct (TaskRunnerState.processes (obj w) !! ProcessState.process pu)
    as [h|] eqn:Hk.
  - destruct (last (ProcessHistory.runs h)) as [tail|] eqn:Hlast; [|done].
    destruct (is_terminal tail).
    + destruct (is_terminal pu); [done|].
      cbv beta iota zeta delta [transition_to_waiting log modify bind]
        in Hrun.
      cbn [obj calls logs ProcessState.seq ProcessState.set_run_state
           ProcessState.make ProcessState.set_seq ProcessState.process
           ProcessState.run_state ProcessState.fork_time
           ProcessState.runner_pid ProcessState.start_time ProcessState.pid
           ProcessState.stop_time ProcessState.return_code] in Hrun.
      destruct (ProcessState.seq tail) as [s|]; [|done].
      apply on_tail_run_inv in Hrun
        as [[_ [?|?]]|(h1 & ps & w1 & Hk1 & Hlast1 & Hm & _)]; [done..|].
      cbn [obj calls logs] in *. rewrite lookup_set_history in Hk1.
      injection Hk1 as <-. cbn in Hlast1. rewrite last_snoc in Hlast1.
      injection Hlast1 as <-.
      by apply (seeded_run_not_skipped self recovery _ s (s + 1)) in Hm;
        [|lia].
    + cbv beta iota zeta delta [log bind] in Hrun.
      apply on_tail_run_inv in Hrun
        as [[_ [?|?]]|(h1 & ps & w1 & Hk1 & Hlast1 & Hm & ->)]; [done..|].
      cbn [obj calls logs] in *. rewrite Hk in Hk1. injection Hk1 as <-.
      rewrite Hlast in Hlast1. injection Hlast1 as <-.
      apply update_task_state_not_applied in Hm as [Ho Hc]; [|done].
      cbn [obj calls] in Ho, Hc. rewrite Ho, Hc. split; [|done].
      unfold set_history. by apply tail_write_id.
  - cbv beta iota zeta delta [transition_to_waiting log modify bind] in Hrun.
    cbn [obj calls logs ProcessState.seq ProcessState.set_run_state
         ProcessState.make ProcessHistory.runs app
         ProcessHistory.set_runs ProcessHistory.process
         ProcessHistory.state ProcessState.process
         ProcessState.run_state ProcessState.fork_time
         ProcessState.runner_pid ProcessState.start_time ProcessState.pid
         ProcessState.stop_time ProcessState.return_code] in Hrun.
    apply on_tail_run_inv in Hrun
      as [[_ [?|?]]|(h1 & ps & w1 & Hk1 & Hlast1 & Hm & _)]; [done..|].
    cbn [obj calls logs] in *. rewrite lookup_set_history in Hk1.
    injection Hk1 as <-. cbn in Hlast1. injection Hlast1 as <-.
    by apply (seeded_run_not_skipped self recovery _ 0 0) in Hm; [|lia].
Qed.

(** X6.  A call of [update_runner_state] that returns [False] has changed
    nothing and notified nobody: the task state is what it was and no
    handler has been called. *)
Theorem X6_false_changes_nothing self runner_ckpt recovery w w' :
  update_runner_state self runner_ckpt recovery w = (w', inr false) ->
  obj w' = obj w /\ calls w' = calls w.
Proof.
  intros Hrun. unfold update_runner_state in Hrun.
  destruct (TaskRunnerCkpt.runner_header runner_ckpt) as [hd|].
  { cbv beta iota zeta delta [bind get modify log ret raise] in Hrun.
    by destruct (TaskRunnerState.header (obj w)). }
  destruct (TaskRunnerCkpt.allocated_port runner_ckpt) as [ap|] eqn:Hap.
  { pose proof (allocated_port_eq self
                  (TaskRunnerCkpt.mk None (Some ap) None None None)
                  recovery w ap eq_refl eq_refl) as Heq.
    unfold update_runner_state in Heq. cbn [TaskRunnerCkpt.runner_header
      TaskRunnerCkpt.allocated_port] in Heq. rewrite Heq in Hrun.
    destruct (TaskRunnerState.ports (obj w) ≫= _) as [bound|]; [|done].
    destruct (bool_decide _); [|done]. by injection Hrun as <-. }
  destruct (TaskRunnerCkpt.state_update runner_ckpt) as [su|].
  { cbv beta iota zeta delta [bind get modify log ret raise] in Hrun.
    destruct (bool_decide _); [|by injection Hrun as <-].
    by destruct (TaskStateUpdate.state su). }
  destruct (TaskRunnerCkpt.history_state_update runner_ckpt) as [hu|].
  { cbv beta iota zeta delta [bind get modify log ret raise] in Hrun.
    destruct (TaskRunnerState.processes (obj w) !! _); [|done].
    destruct (bool_decide _); [|by injection Hrun as <-].
    by destruct (HistoryStateUpdate.state hu). }
  destruct (TaskRunnerCkpt.process_state runner_ckpt) as [pu|].
  - by apply update_process_state_false in Hrun.
  - cbv beta iota zeta delta [bind log ret] in Hrun.
    by injection Hrun as <-.
Qed.

Lemma X6_false_changes_nothing_witness :
  obj (update_runner_state
         (register_universal_handler 1%nat __init__)
         (process_ckpt (lost_p 2)) true forked_env).1
  = obj forked_env
  /\ calls (update_runner_state
              (register_universal_handler 1%nat __init__)
              (process_ckpt (lost_p 2)) true forked_env).1
     = calls forked_env.
Proof.
  apply (X6_false_changes_nothing
           (register_universal_handler 1%nat __init__)
           (process_ckpt (lost_p 2)) true forked_env).
  vm_compute. reflexivity.
Defined.

Lemma prefix_removelast {A} (l1 l2 : list A) :
  l1 `prefix_of` l2 -> (length l1 < length l2)%nat ->
  l1 `prefix_of` removelast l2.
Proof.
  intros [k ->] Hlen. rewrite length_app in Hlen.
  destruct (decide (k = [])) as [->|Hne]; [cbn in Hlen; lia|].
  destruct (exists_last Hne) as [k0 [y ->]].
  rewrite app_assoc, removelast_last. by exists k0.
Qed.

Lemma history_extends_trans h1 h2 h3 :
  history_extends h1 h2 -> history_extends h2 h3 -> history_extends h1 h3.
Proof.
  intros (Hp1 & Hpre1 & Hlen1) (Hp2 & Hpre2 & Hlen2).
  split; [congruence|]. split; [|lia].
  destruct (decide (ProcessHistory.runs h1 = [])) as [Hnil|Hne].
  { rewrite Hnil. cbn. apply prefix_nil. }
  etrans; [|exact Hpre2]. apply prefix_removelast; [done|].
  destruct (exists_last Hne) as [l0 [y Hl]]. rewrite Hl in Hlen1 |- *.
  rewrite removelast_last. rewrite length_app in Hlen1. cbn in Hlen1. lia.
Qed.

Lemma continues_trans s1 s2 s3 :
  continues s1 s2 -> continues s2 s3 -> continues s1 s3.
Proof.
  intros H12 H23 k h Hk.
  destruct (H12 k h Hk) as (h2 & Hk2 & He2).
  destruct (H23 k h2 Hk2) as (h3 & Hk3 & He3).
  exists h3. split; [done|]. by eapply history_extends_trans.
Qed.

Lemma for_each_frame self recovery records w w' res :
  for_each records (fun r => update_runner_state self r recovery) w
  = (w', res) ->
  (forall hd, TaskRunnerState.header (obj w) = Some hd ->
              TaskRunnerState.header (obj w') = Some hd)
  /\ (forall ports name port,
        TaskRunnerState.ports (obj w) = Some ports ->
        ports !! name = Some port ->
        exists ports',
          TaskRunnerState.ports (obj w') = Some ports'
          /\ ports' !! name = Some port)
  /\ continues (obj w) (obj w').
Proof.
  revert w. induction records as [|r rs IH]; intros w Hrun.
  - injection Hrun as <- _. split; [done|].
    split; [by eauto|apply continues_refl].
  - cbn in Hrun. unfold bind in Hrun.
    destruct (update_runner_state self r recovery w) as [w1 [e|b]] eqn:Hstep;
      apply update_runner_state_frame in Hstep as (Hh & Hp & Hc & _).
    + injection Hrun as <- _. done.
    + apply IH in Hrun as (Hh' & Hp' & Hc').
      split; [by auto|]. split; [|by eapply continues_trans].
      intros ports name port Hports Hn.
      destruct (Hp ports name port Hports Hn) as (ports1 & Hports1 & Hn1).
      by apply (Hp' ports1).
Qed.

(** X7.  The header and the port bindings are written once: whatever
    records are applied to a state, and whether the replay ends normally or
    in an exception, a header that was set is still the header and a name
    that was bound to a port is still bound to that port. *)
Theorem X7_header_and_ports_write_once self recovery records w w' res :
  for_each records (fun r => update_runner_state self r recovery) w
  = (w', res) ->
  (forall hd, TaskRunnerState.header (obj w) = Some hd ->
              TaskRunnerState.header (obj w') = Some hd)
  /\ (forall ports name port,
        TaskRunnerState.ports (obj w) = Some ports ->
        ports !! name = Some port ->
        exists ports',
          TaskRunnerState.ports (obj w') = Some ports'
          /\ ports' !! name = Some port).
Proof.
  intros Hrun. apply for_each_frame in Hrun as (Hh & Hp & _). by split.
Qed.

Lemma X7_header_and_ports_write_once_witness :
  TaskRunnerState.header
    (obj (for_each clashing_records
            (fun r => update_runner_state __init__ r false) bound_env).1)
  = Some "task"%string.
Proof.
  refine (proj1 (X7_header_and_ports_write_once __init__ false
                   clashing_records bound_env
                   (for_each clashing_records
                      (fun r => update_runner_state __init__ r false)
                      bound_env).1
                   (inl (ErrorRecoveringState (PortConflict "http"))) _)
            "task"%string eq_refl).
  vm_compute. reflexivity.
Defined.

(** X8.  Histories are append-only: whatever records are applied, and
    whether the replay ends normally or in an exception, every process the
    state held is still there under the same name, all its runs but the
    last are still its first runs, unchanged, and it has no fewer runs. *)
Theorem X8_histories_append_only self recovery records w w' res k h :
  for_each records (fun r => update_runner_state self r recovery) w
  = (w', res) ->
  TaskRunnerState.processes (obj w) !! k = Some h ->
  exists h',
    TaskRunnerState.processes (obj w') !! k = Some h'
    /\ ProcessHistory.process h' = ProcessHistory.process h
    /\ removelast (ProcessHistory.runs h) `prefix_of` ProcessHistory.runs h'
    /\ (length (ProcessHistory.runs h) <= length (ProcessHistory.runs h'))%nat.
Proof.
  intros Hrun Hk. apply for_each_frame in Hrun as (_ & _ & Hc).
  destruct (Hc k h Hk) as (h' & Hk' & He). by exists h'.
Qed.

Lemma X8_histories_append_only_witness :
  exists h',
    TaskRunnerState.processes
      (obj (for_each restart_records
              (fun r => update_runner_state __init__ r false) lost_env).1)
    !! Some "p"%string = Some h'
    /\ [] `prefix_of` ProcessHistory.runs h'
    /\ (1 <= length (ProcessHistory.runs h'))%nat.
Proof.
  destruct (X8_histories_append_only __init__ false restart_records lost_env
              (for_each restart_records
                 (fun r => update_runner_state __init__ r false) lost_env).1
              (inr tt) (Some "p"%string)
              (ProcessHistory.mk (Some "p"%string) [lost_run]
                 (Some TaskState.ACTIVE)))
    as (h' & Hk & _ & Hpre & Hlen).
  - vm_compute. reflexivity.
  - vm_compute. reflexivity.
  - exists h'. split; [exact Hk|]. split; [exact Hpre|exact Hlen].
Defined.

(** * More on the process state machine *)

Lemma applied_or_not (res : Exn + bool) : res = inr true \/ res <> inr true.
Proof. destruct res as [e|[|]]; [by right|by left|by right]. Qed.

Lemma copy_all_run_state u rs cur :
  ProcessState.run_state (copy_all u (required_fields rs) cur)
  = ProcessState.run_state u.
Proof. by destruct rs. Qed.

(** What an applied update with a run state leaves in the record. *)
Lemma update_task_state_applied self u recovery w w' rs :
  ProcessState.run_state u = Some rs ->
  update_task_state self u recovery w = (w', inr true) ->
  exists s,
    ProcessState.seq u = Some s
    /\ stale s (obj w) = false
    /\ ProcessState.run_state (obj w) <> Some rs
    /\ source_guard (ProcessState.run_state (obj w)) rs = true
    /\ first_missing u (required_fields rs) = None
    /\ obj w' = copy_all u (required_fields rs) (obj w)
    /\ calls w' = calls w ++ state_calls self (Some rs) u.
Proof.
  intros Hrs. rewrite update_task_state_eq.
  destruct (ProcessState.seq u) as [s|]; [|done].
  destruct (stale s (obj w)) eqn:Hst; [by destruct recovery|].
  rewrite run_transition_eq, Hrs, warned_obj, warned_calls.
  destruct (bool_decide _) eqn:Hd; [done|].
  destruct (source_guard _ rs) eqn:Hg; [|done]. cbn [orb negb].
  destruct (first_missing u (required_fields rs)) eqn:Hm; [done|].
  intros [= <-]. exists s. apply bool_decide_eq_false in Hd. done.
Qed.

(** X9.  An update with a run state is applied exactly when it carries a
    sequence number that the current record does not forbid, its edge is
    one of the graph or leads into WAITING from another run state, and it
    carries every field of its transition. *)
Theorem X9_applied_iff self u recovery (w : Env ProcessState.t) rs :
  ProcessState.run_state u = Some rs ->
  (exists w', update_task_state self u recovery w = (w', inr true))
  <-> ((exists s, ProcessState.seq u = Some s /\ stale s (obj w) = false)
       /\ (spec_legal_edge (ProcessState.run_state (obj w)) rs = true
           \/ (rs = ProcessRunState.WAITING
               /\ ProcessState.run_state (obj w)
                  <> Some ProcessRunState.WAITING))
       /\ forall f, f ∈ required_fields rs ->
                    ProcessState.is_none f u = false).
Proof.
  intros Hrs. split.
  - intros [w' Hrun].
    apply (update_task_state_applied _ _ _ _ _ _ Hrs) in Hrun
      as (s & Hs & Hst & Hne & Hg & Hm & _).
    split; [by exists s|]. split.
    + apply source_guard_edges.
      by rewrite bool_decide_eq_false_2, Hg.
    + by apply first_missing_None.
  - intros ([s [Hs Hst]] & Hedge & Hall).
    apply source_guard_edges in Hedge.
    apply andb_true_iff in Hedge as [Hne Hg].
    apply negb_true_iff in Hne.
    apply first_missing_None in Hall.
    rewrite update_task_state_eq, Hs, Hst, run_transition_eq, Hrs.
    rewrite warned_obj, Hne, Hg, Hall. cbn. by eexists.
Qed.

(** The repeat of an update that has just been applied. *)
Lemma update_task_state_repeat self u recovery recovery' w w' rs :
  ProcessState.run_state u = Some rs ->
  update_task_state self u recovery w = (w', inr true) ->
  exists s,
    ProcessState.seq u = Some s
    /\ update_task_state self u recovery' w'
       = (w',
          if 0 <? s
          then (if recovery' then inr false else inl InvalidSequenceNumber)
          else inl InvalidStateTransition).
Proof.
  intros Hrs Hrun.
  apply (update_task_state_applied _ _ _ _ _ _ Hrs) in Hrun
    as (s & Hs & _ & _ & _ & _ & Hobj & _).
  exists s. split; [done|].
  rewrite update_task_state_eq, Hs. unfold stale, warned.
  rewrite Hobj, copy_all_seq, Hs. cbn [py_gt py_le fmap option_fmap option_map].
  destruct (0 <? s) eqn:Hpos.
  - replace ((s >? 0) && (s <=? s)) with true by lia. done.
  - replace (s >? 0) with false by lia. cbn [andb].
    rewrite run_transition_eq, Hrs, Hobj, copy_all_run_state, Hrs.
    by rewrite bool_decide_eq_true_2.
Qed.

(** X10.  An update that has just been applied is not applied a second
    time.  With a sequence number above zero the repeat returns [False] in
    recovery mode and raises [InvalidSequenceNumber] otherwise; with any
    other sequence number it raises [InvalidStateTransition].  The record
    stays as the first application left it. *)
Theorem X10_no_second_application self u recovery recovery' w w' rs :
  ProcessState.run_state u = Some rs ->
  update_task_state self u recovery w = (w', inr true) ->
  exists s,
    ProcessState.seq u = Some s
    /\ update_task_state self u recovery' w'
       = (w',
          if 0 <? s
          then (if recovery' then inr false else inl InvalidSequenceNumber)
          else inl InvalidStateTransition).
Proof. apply update_task_state_repeat. Qed.

Lemma X10_no_second_application_witness :
  exists s,
    ProcessState.seq (forked_p 1) = Some s
    /\ update_task_state __init__ (forked_p 1) true
         (mkEnv (forked_p 1) [] [])
       = (mkEnv (forked_p 1) [] [],
          if 0 <? s then inr false else inl InvalidStateTransition).
Proof.
  exact (X10_no_second_application __init__ (forked_p 1) false true
           (mkEnv (waiting_p 0) [] []) (mkEnv (forked_p 1) [] [])
           ProcessRunState.FORKED eq_refl eq_refl).
Defined.

(** X11.  Once a run's sequence number is above zero it never goes down:
    whatever [update_task_state] returns or raises, the record still has a
    sequence number, no smaller than before, and strictly larger when an
    update with a run state was applied. *)
Theorem X11_sequence_never_decreases self u recovery w w' res current :
  update_task_state self u recovery w = (w', res) ->
  ProcessState.seq (obj w) = Some current ->
  0 < current ->
  exists current',
    ProcessState.seq (obj w') = Some current'
    /\ current <= current'
    /\ (res = inr true -> ProcessState.run_state u <> None ->
        current < current').
Proof.
  intros Hrun Hc Hpos.
  destruct (applied_or_not res) as [->|Hres].
  - destruct (ProcessState.run_state u) as [rs|] eqn:Hrs.
    + apply (update_task_state_applied _ _ _ _ _ _ Hrs) in Hrun
        as (s & Hs & Hst & _ & _ & _ & Hobj & _).
      exists s. rewrite Hobj, copy_all_seq.
      unfold stale in Hst. rewrite Hc in Hst. cbn in Hst.
      split; [done|]. split; [lia|]. intros _ _. lia.
    + rewrite update_task_state_eq in Hrun.
      destruct (ProcessState.seq u) as [s|]; [|done].
      destruct (stale s (obj w)); [by destruct recovery|].
      rewrite run_transition_eq, Hrs in Hrun. injection Hrun as <-.
      exists current. cbn [obj]. rewrite warned_obj.
      split; [done|]. split; [lia|done].
  - apply update_task_state_not_applied in Hrun as [Hobj _]; [|done].
    exists current. rewrite Hobj. split; [done|]. split; [lia|done].
Qed.

Lemma X11_sequence_never_decreases_witness :
  exists current',
    ProcessState.seq
      (obj (update_task_state __init__ (lost_p 5) false
              (mkEnv (forked_p 1) [] [])).1)
    = Some current'
    /\ 1 <= current'.
Proof.
  destruct (X11_sequence_never_decreases __init__ (lost_p 5) false
              (mkEnv (forked_p 1) [] [])
              (update_task_state __init__ (lost_p 5) false
                 (mkEnv (forked_p 1) [] [])).1
              (inr true) 1 eq_refl eq_refl ltac:(lia))
    as (c & Hc & Hle & _).
  exists c. split; [exact Hc|exact Hle].
Defined.

(** X12.  A call of [update_task_state] touches no field outside the
    fields of its transition: every other field of the record is what it
    was, whatever the update carries there and whatever the call returns or
    raises. *)
Theorem X12_other_fields_kept self u recovery w w' res f :
  update_task_state self u recovery w = (w', res) ->
  (forall rs, ProcessState.run_state u = Some rs ->
              f ∉ required_fields rs) ->
  same_field f (obj w) (obj w').
Proof.
  intros Hrun Hf.
  destruct (applied_or_not res) as [->|Hres].
  - destruct (ProcessState.run_state u) as [rs|] eqn:Hrs.
    + pose proof (update_task_state_applied _ _ _ _ _ _ Hrs Hrun)
        as (s & _ & _ & _ & _ & _ & Hobj & _).
      rewrite Hobj. apply copy_all_other. by apply Hf.
    + rewrite update_task_state_eq in Hrun.
      destruct (ProcessState.seq u) as [s|]; [|done].
      destruct (stale s (obj w)); [by destruct recovery|].
      rewrite run_transition_eq, Hrs in Hrun. injection Hrun as <-.
      cbn [obj]. rewrite warned_obj. apply same_field_refl.
  - apply update_task_state_not_applied in Hrun as [Hobj _]; [|done].
    rewrite Hobj. apply same_field_refl.
Qed.

Lemma X12_other_fields_kept_witness :
  ProcessState.process (waiting_p 0)
  = ProcessState.process
      (obj (update_task_state __init__
              (ProcessState.mk (Some 1) (Some "q"%string)
                 (Some ProcessRunState.FORKED) (Some 10) (Some 123)
                 None None None None)
              false (mkEnv (waiting_p 0) [] [])).1).
Proof.
  apply (X12_other_fields_kept __init__
           (ProcessState.mk (Some 1) (Some "q"%string)
              (Some ProcessRunState.FORKED) (Some 10) (Some 123)
              None None None None)
           false (mkEnv (waiting_p 0) [] [])
           (update_task_state __init__
              (ProcessState.mk (Some 1) (Some "q"%string)
                 (Some ProcessRunState.FORKED) (Some 10) (Some 123)
                 None None None None)
              false (mkEnv (waiting_p 0) [] [])).1
           (inr true) F_process eq_refl).
  intros rs Hrs H. cbn in Hrs.
  assert (rs = ProcessRunState.FORKED) as -> by congruence.
  cbn in H.
  repeat (apply elem_of_cons in H as [H|H]; [discriminate|]).
  by apply elem_of_nil in H.
Defined.

(** X13.  An update without a run state that passes the sequence number
    test is reported as applied although it changes nothing: the call
    returns [True], the record is what it was, and the universal handlers,
    followed by the handlers registered under [None], are called with the
    update. *)
Theorem X13_update_without_run_state self u recovery w s :
  ProcessState.seq u = Some s ->
  ProcessState.run_state u = None ->
  stale s (obj w) = false ->
  exists w',
    update_task_state self u recovery w = (w', inr true)
    /\ obj w' = obj w
    /\ calls w'
       = calls w
         ++ map (fun h => StateCall h u)
              (_universal_handlers self
                 ++ default [] (_state_handlers self !! None)).
Proof.
  intros Hs Hrs Hst.
  rewrite update_task_state_eq, Hs, Hst, run_transition_eq, Hrs.
  eexists. split; [reflexivity|]. cbn [obj calls].
  by rewrite warned_obj, warned_calls.
Qed.

Lemma X13_update_without_run_state_witness :
  exists w',
    update_task_state (register_universal_handler 4%nat __init__)
      (ProcessState.make (Some 2) (Some "p"%string) None) false
      (mkEnv (forked_p 1) [] [])
    = (w', inr true)
    /\ obj w' = forked_p 1
    /\ calls w'
       = [StateCall 4%nat (ProcessState.make (Some 2) (Some "p"%string) None)].
Proof.
  exact (X13_update_without_run_state
           (register_universal_handler 4%nat __init__)
           (ProcessState.make (Some 2) (Some "p"%string) None) false
           (mkEnv (forked_p 1) [] []) 2 eq_refl eq_refl eq_refl).
Defined.

Lemma X9_applied_iff_witness :
  exists w',
    update_task_state __init__ (forked_p 1) false (mkEnv (waiting_p 0) [] [])
    = (w', inr true).
Proof.
  apply (proj2 (X9_applied_iff __init__ (forked_p 1) false
                  (mkEnv (waiting_p 0) [] []) ProcessRunState.FORKED
                  eq_refl)).
  split; [exists 1; split; reflexivity|].
  split; [left; reflexivity|].
  intros f Hf. cbn in Hf.
  repeat (apply elem_of_cons in Hf as [->|Hf]; [reflexivity|]).
  by apply elem_of_nil in Hf.
Defined.

(** * [would_update] against [update_runner_state] *)

(** X14.  For a process whose last run is not terminal and has a sequence
    number above zero, a record for which [would_update] answers [False]
    is never applied: [update_runner_state] does not return [True], leaves
    the state and the handler calls as they were, and in recovery mode
    returns [False] when the update has a sequence number. *)
Theorem X14_would_update_false_not_applied self pu recovery w h tail current :
  TaskRunnerState.processes (obj w) !! ProcessState.process pu = Some h ->
  last (ProcessHistory.runs h) = Some tail ->
  is_terminal tail = false ->
  ProcessState.seq tail = Some current ->
  0 < current ->
  would_update self (process_ckpt pu) w = (w, inr false) ->
  exists w' res,
    update_runner_state self (process_ckpt pu) recovery w = (w', res)
    /\ res <> inr true
    /\ obj w' = obj w
    /\ calls w' = calls w
    /\ (recovery = true -> ProcessState.seq pu <> None -> res = inr false).
Proof.
  intros Hk Hlast Ht Hc Hpos Hwould.
  unfold would_update in Hwould. cbn [process_ckpt
    TaskRunnerCkpt.process_state] in Hwould.
  cbv beta iota zeta delta [bind get ret] in Hwould.
  rewrite Hk, Hlast, Hc in Hwould. injection Hwould as Hlt.
  rewrite update_runner_state_process.
  rewrite (update_process_state_current _ _ _ _ _ _ Hk Hlast Ht).
  erewrite on_tail_run_eq by (cbn [obj]; eassumption).
  cbn [obj calls logs]. rewrite update_task_state_eq.
  assert (forall cs ls res,
            (mkEnv
               (set_history (ProcessState.process pu)
                  (ProcessHistory.set_runs
                     (<[Nat.pred (length (ProcessHistory.runs h)) := tail]>
                        (ProcessHistory.runs h)) h) (obj w)) cs ls,
             res)
            = (mkEnv (obj w) cs ls, res : Exn + bool)) as Hsame.
  { intros cs ls res. unfold set_history. by rewrite tail_write_id. }
  destruct (ProcessState.seq pu) as [s|] eqn:Hs.
  - unfold stale. cbn [obj]. rewrite Hc. cbn in Hlt |- *.
    replace ((current >? 0) && (s <=? current)) with true by lia.
    cbn [obj calls logs]. rewrite Hsame.
    eexists _, _. split; [reflexivity|]. cbn [obj calls].
    split; [by destruct recovery|]. split; [done|]. split; [done|].
    by intros ->.
  - cbn [obj calls logs]. rewrite Hsame.
    eexists _, _. split; [reflexivity|]. cbn [obj calls].
    split; [done|]. split; [done|]. split; [done|]. done.
Qed.

Lemma X14_would_update_false_not_applied_witness :
  exists w' res,
    update_runner_state __init__ (process_ckpt (lost_p 2)) true forked_env
    = (w', res)
    /\ res <> inr true.
Proof.
  destruct (X14_would_update_false_not_applied __init__ (lost_p 2) true
              forked_env
              (ProcessHistory.mk (Some "p"%string) [forked_p 2]
                 (Some TaskState.ACTIVE))
              (forked_p 2) 2 eq_refl eq_refl eq_refl eq_refl ltac:(lia)
              eq_refl)
    as (w' & res & Hrun & Hres & _).
  exists w', res. split; [exact Hrun|exact Hres].
Defined.

(** * What holds of every reachable state *)

Lemma copy_all_process u rs cur :
  ProcessState.process (copy_all u (required_fields rs) cur)
  = ProcessState.process u
  \/ ProcessState.process (copy_all u (required_fields rs) cur)
     = ProcessState.process cur.
Proof. destruct rs; cbn; auto. Qed.

Lemma removelast_insert_last {A} (l : list A) x :
  removelast (<[Nat.pred (length l) := x]> l) = removelast l.
Proof.
  destruct (decide (l = [])) as [->|Hne]; [done|].
  destruct (exists_last Hne) as [l0 [y ->]].
  by rewrite tail_write_snoc, !removelast_last.
Qed.

Lemma last_removelast {A} (l : list A) x :
  last l = Some x -> l = removelast l ++ [x].
Proof.
  intros Hlast. destruct (decide (l = [])) as [->|Hne]; [done|].
  destruct (exists_last Hne) as [l0 [y ->]].
  rewrite last_snoc in Hlast. injection Hlast as ->.
  by rewrite removelast_last.
Qed.

(** Whatever the state machine does to a run that carries the name of the
    update, a sequence number and a run state, the run still carries
    them. *)
Lemma update_task_state_keeps_run self u recovery w w' res :
  update_task_state self u recovery w = (w', res) ->
  ProcessState.process (obj w) = ProcessState.process u ->
  is_Some (ProcessState.seq (obj w)) ->
  is_Some (ProcessState.run_state (obj w)) ->
  ProcessState.process (obj w') = ProcessState.process u
  /\ is_Some (ProcessState.seq (obj w'))
  /\ is_Some (ProcessState.run_state (obj w')).
Proof.
  intros Hrun Hp Hs Hr.
  destruct (applied_or_not res) as [->|Hres].
  - destruct (ProcessState.run_state u) as [rs|] eqn:Hrs.
    + pose proof (update_task_state_applied _ _ _ _ _ _ Hrs Hrun)
        as (s & Hseq & _ & _ & _ & _ & Hobj & _).
      rewrite Hobj, copy_all_seq, copy_all_run_state, Hseq, Hrs.
      split; [|by split; eexists].
      destruct (copy_all_process u rs (obj w)) as [-> | ->]; done.
    + rewrite update_task_state_eq in Hrun.
      destruct (ProcessState.seq u) as [s|]; [|done].
      destruct (stale s (obj w)); [by destruct recovery|].
      rewrite run_transition_eq, Hrs in Hrun. injection Hrun as <-.
      cbn [obj]. by rewrite warned_obj.
  - apply update_task_state_not_applied in Hrun as [-> _]; done.
Qed.

Lemma recovered_state_set_history k h state :
  recovered_history k h -> recovered_state state ->
  recovered_state (set_history k h state).
Proof.
  intros Hh Hst. unfold recovered_state, set_history. cbn.
  by apply map_Forall_insert_2.
Qed.

Lemma update_process_state_recovered self pu recovery w w' b :
  recovered_state (obj w) ->
  update_process_state self pu recovery w = (w', inr b) ->
  recovered_state (obj w').
Proof.
  intros Hwf Hrun.
  destruct (TaskRunnerState.processes (obj w) !! ProcessState.process pu)
    as [h|] eqn:Hk.
  - pose proof (Hwf _ _ Hk) as ([p Hp] & Hhp & Hhs & Hne & Hall & Hterm).
    destruct (last (ProcessHistory.runs h)) as [tail|] eqn:Hlast.
    2:{ apply last_None in Hlast. done. }
    assert (ProcessState.process tail = ProcessState.process pu
            /\ is_Some (ProcessState.seq tail)
            /\ is_Some (ProcessState.run_state tail))
      as (Htp & [s Hs] & Htr).
    { rewrite Forall_forall in Hall. apply Hall.
      rewrite last_lookup in Hlast. by eapply list_elem_of_lookup_2. }
    destruct (is_terminal tail) eqn:Ht.
    + destruct (is_terminal pu) eqn:Hu.
      { by rewrite (update_process_state_two_terminal _ _ _ _ _ _ Hk Hlast
                      Ht Hu) in Hrun. }
      pose proof Hk as Hk'. rewrite Hp in Hk'.
      rewrite (update_process_state_restart _ _ _ _ _ _ _ _ Hp Hk' Hlast Ht
                 Hu Hs) in Hrun.
      injection Hrun as <- _. cbn [obj].
      apply recovered_state_set_history; [|done].
      split; [by eexists|]. cbn. rewrite <- Hp.
      split; [done|]. split; [done|]. split.
      { by destruct (ProcessHistory.runs h). }
      split.
      * apply Forall_app. split; [done|]. apply Forall_singleton. cbn.
        split; [done|]. by split; eexists.
      * rewrite removelast_last.
        rewrite (last_removelast _ _ Hlast). apply Forall_app.
        split; [done|]. by apply Forall_singleton.
    + rewrite (update_process_state_current _ _ _ _ _ _ Hk Hlast Ht) in Hrun.
      erewrite on_tail_run_eq in Hrun by (cbn [obj]; eassumption).
      cbn [obj calls logs] in Hrun.
      destruct (update_task_state self pu recovery _) as [w1 [e1|b1]] eqn:Hu;
        [done|].
      injection Hrun as <- _. cbn [obj].
      apply update_task_state_keeps_run in Hu; [|done..].
      apply recovered_state_set_history; [|done].
      split; [by rewrite Hp|]. cbn.
      split; [done|]. split; [done|]. split.
      { intros Hnil. apply (f_equal length) in Hnil.
        rewrite length_insert in Hnil. by destruct (ProcessHistory.runs h). }
      split.
      * by apply Forall_insert.
      * by rewrite removelast_insert_last.
  - destruct (ProcessState.process pu) as [p|] eqn:Hp.
    + rewrite (update_process_state_unknown _ _ _ _ _ Hp Hk) in Hrun.
      injection Hrun as <- _. cbn [obj].
      apply recovered_state_set_history; [|done].
      split; [by eexists|]. cbn. split; [done|]. split; [by eexists|].
      split; [done|]. split; [|done].
      apply Forall_singleton. cbn. split; [done|]. by split; eexists.
    + by rewrite (update_process_state_nameless _ _ _ _ Hp Hk) in Hrun.
Qed.

Lemma update_runner_state_recovered self runner_ckpt recovery w w' b :
  recovered_state (obj w) ->
  update_runner_state self runner_ckpt recovery w = (w', inr b) ->
  recovered_state (obj w').
Proof.
  intros Hwf Hrun. unfold update_runner_state in Hrun.
  destruct (TaskRunnerCkpt.runner_header runner_ckpt) as [hd|].
  { cbv beta iota zeta delta [bind get modify log ret] in Hrun.
    destruct (TaskRunnerState.header (obj w)); [done|].
    by injection Hrun as <- _. }
  destruct (TaskRunnerCkpt.allocated_port runner_ckpt) as [ap|] eqn:Hap.
  { pose proof (allocated_port_eq self
                  (TaskRunnerCkpt.mk None (Some ap) None None None)
                  recovery w ap eq_refl eq_refl) as Heq.
    unfold update_runner_state in Heq. cbn [TaskRunnerCkpt.runner_header
      TaskRunnerCkpt.allocated_port] in Heq. rewrite Heq in Hrun.
    destruct (TaskRunnerState.ports (obj w) ≫= _) as [bound|].
    - destruct (bool_decide _); [|done]. by injection Hrun as <- _.
    - by injection Hrun as <- _. }
  destruct (TaskRunnerCkpt.state_update runner_ckpt) as [su|].
  { cbv beta iota zeta delta [bind get modify log ret raise] in Hrun.
    destruct (bool_decide _); [|by injection Hrun as <- _].
    destruct (TaskStateUpdate.state su); [|done].
    by injection Hrun as <- _. }
  destruct (TaskRunnerCkpt.history_state_update runner_ckpt) as [hu|].
  { cbv beta iota zeta delta [bind get modify log ret raise] in Hrun.
    destruct (TaskRunnerState.processes (obj w) !! _) as [h|] eqn:Hk; [|done].
    destruct (bool_decide _); [|by injection Hrun as <- _].
    destruct (HistoryStateUpdate.state hu); [|done].
    injection Hrun as <- _.
    cbn [obj]. apply recovered_state_set_history; [|done].
    destruct (Hwf _ _ Hk) as (? & ? & ? & ? & ? & ?).
    split; [done|]. cbn. split; [done|]. split; [by eexists|]. done. }
  destruct (TaskRunnerCkpt.process_state runner_ckpt) as [pu|].
  - by eapply update_process_state_recovered.
  - cbv beta iota zeta delta [bind log ret] in Hrun.
    by injection Hrun as <- _.
Qed.

Lemma reachable_recovered state : reachable state -> recovered_state state.
Proof.
  induction 1 as [|self ckpt recovery w w' b _ IH Hrun].
  - unfold recovered_state. cbn. apply map_Forall_empty.
  - by eapply update_runner_state_recovered.
Qed.

(** X16.  In every state reached from an empty one by calls of
    [update_runner_state] that return normally, every history is filed
    under the process name it carries and has a state; it has at least one
    run; every run carries that name, a sequence number and a run state;
    and every run but the last is terminal. *)
Theorem X16_reachable_histories state k h :
  reachable state ->
  TaskRunnerState.processes state !! k = Some h ->
  is_Some k
  /\ ProcessHistory.process h = k
  /\ is_Some (ProcessHistory.state h)
  /\ ProcessHistory.runs h <> []
  /\ Forall
       (fun r =>
          ProcessState.process r = k
          /\ is_Some (ProcessState.seq r)
          /\ is_Some (ProcessState.run_state r))
       (ProcessHistory.runs h)
  /\ Forall (fun r => is_terminal r = true)
       (removelast (ProcessHistory.runs h)).
Proof.
  intros Hreach Hk. by apply (reachable_recovered _ Hreach k h).
Qed.

Lemma lost_env_reachable : reachable (obj lost_env).
Proof.
  apply (reachable_for_each __init__ false lost_records fresh_env).
  - apply reachable_fresh.
  - vm_compute. reflexivity.
Qed.

Lemma X16_reachable_histories_witness :
  ProcessHistory.runs
    (ProcessHistory.mk (Some "p"%string) [lost_run] (Some TaskState.ACTIVE))
  <> [].
Proof.
  exact (proj1 (proj2 (proj2 (proj2
           (X16_reachable_histories (obj lost_env) (Some "p"%string)
              (ProcessHistory.mk (Some "p"%string) [lost_run]
                 (Some TaskState.ACTIVE))
              lost_env_reachable eq_refl))))).
Defined.

(** * [from_file] *)

Lemma for_each_app {S X A} (xs ys : list X) (body : X -> M S A) w :
  for_each (xs ++ ys) body w
  = match for_each xs body w with
    | (w', inr _) => for_each ys body w'
    | (w', inl e) => (w', inl e)
    end.
Proof.
  revert w. induction xs as [|x xs IH]; intros w; cbn; [done|].
  unfold bind. destruct (body x w) as [w1 [e|a]]; [done|]. apply IH.
Qed.

(** X15.  [from_file] stops at the first record that raises: when it does
    not return a state for a sequence of records, its outcome for every
    longer sequence starting with these records is the same. *)
Theorem X15_from_file_stops_at_first_error records more :
  (forall state, from_file records <> Returned (Some state)) ->
  from_file (records ++ more) = from_file records.
Proof.
  intros Hfail. unfold from_file in *. rewrite for_each_app.
  destruct (for_each records _ _) as [w [e|u]]; [done|].
  by destruct (Hfail (obj w)).
Qed.

Lemma X15_from_file_stops_at_first_error_witness :
  from_file (duplicate_records ++ lost_records) = from_file duplicate_records.
Proof.
  apply X15_from_file_stops_at_first_error.
  intros state H. vm_compute in H. discriminate.
Defined.

Lemma from_file_reachable records state :
  from_file records = Returned (Some state) -> reachable state.
Proof.
  unfold from_file. intros H.
  destruct (for_each records _ _) as [w [e|[]]] eqn:Hrun.
  - by destruct (is_dispatcher_error e).
  - injection H as <-.
    apply (reachable_for_each __init__ default_recovery records
             (mkEnv fresh_state [] [])); [apply reachable_fresh|done].
Qed.

(** X17.  In a state returned by [from_file] every history is filed under
    the process name it carries, has at least one run, so that its last
    run can be taken, and every run but the last is terminal. *)
Theorem X17_from_file_histories records state k h :
  from_file records = Returned (Some state) ->
  TaskRunnerState.processes state !! k = Some h ->
  is_Some k
  /\ ProcessHistory.process h = k
  /\ is_Some (last (ProcessHistory.runs h))
  /\ Forall (fun r => is_terminal r = true)
       (removelast (ProcessHistory.runs h)).
Proof.
  intros Hfile Hk. apply from_file_reachable in Hfile.
  destruct (reachable_recovered _ Hfile k h Hk)
    as (Hsome & Hp & _ & Hne & _ & Hterm).
  split; [done|]. split; [done|]. split; [|done].
  destruct (last (ProcessHistory.runs h)) eqn:Hlast; [by eexists|].
  by apply last_None in Hlast.
Qed.

Lemma X17_from_file_histories_witness :
  is_Some (last [lost_run]).
Proof.
  exact (proj1 (proj2 (proj2
           (X17_from_file_histories lost_records (obj lost_env)
              (Some "p"%string)
              (ProcessHistory.mk (Some "p"%string) [lost_run]
                 (Some TaskState.ACTIVE))
              ltac:(vm_compute; reflexivity) eq_refl)))).
Defined.

(** * Registration and dispatch *)

Lemma register_state_handler_lookup rs f self state :
  default [] (_state_handlers (register_state_handler rs f self) !! state)
  = default [] (_state_handlers self !! state)
    ++ (if bool_decide (rs = state) then [f] else []).
Proof.
  unfold register_state_handler. cbn.
  destruct (bool_decide (rs = state)) eqn:Hd.
  - apply bool_decide_eq_true in Hd. subst state.
    rewrite lookup_insert_eq. cbn.
    destruct (_state_handlers self !! rs) eqn:Hl.
    + by rewrite Hl.
    + by rewrite lookup_insert_eq.
  - apply bool_decide_eq_false in Hd.
    rewrite lookup_insert_ne by done. rewrite app_nil_r.
    destruct (_state_handlers self !! rs); [done|].
    by rewrite lookup_insert_ne.
Qed.

(** X18.  Handlers are called in the order they were registered, the
    universal ones before those of the run state.  A handler registered
    for a run state is called after all that were called before, and only
    for that run state; one registered for every transition is called
    after the earlier universal handlers and before the handlers of the
    run state; a port handler is called after the earlier port handlers. *)
Theorem X18_registration_order {S} self (w : Env S) f rs state u name port :
  calls (_run_state_dispatch (register_state_handler rs f self) state u w).1
  = calls (_run_state_dispatch self state u w).1
    ++ (if bool_decide (rs = state) then [StateCall f u] else [])
  /\ calls (_run_state_dispatch (register_universal_handler f self)
             state u w).1
     = calls w
       ++ map (fun h => StateCall h u) (_universal_handlers self)
       ++ [StateCall f u]
       ++ map (fun h => StateCall h u)
            (default [] (_state_handlers self !! state))
  /\ calls (_run_port_dispatch (register_port_handler f self) name port w).1
     = calls (_run_port_dispatch self name port w).1 ++ [PortCall f name port].
Proof.
  rewrite !run_state_dispatch_eq, !run_port_dispatch_eq. cbn [fst calls].
  unfold state_calls, port_calls. split; [|split].
  - cbn [_universal_handlers register_state_handler].
    rewrite register_state_handler_lookup, !map_app, <- !app_assoc.
    by destruct (bool_decide (rs = state)).
  - cbn. by rewrite !map_app, <- !app_assoc.
  - cbn. by rewrite map_app, app_assoc.
Qed.

(** * The helper that checks before it copies *)

Lemma first_present_Some ps fields f :
  first_present ps fields = Some f ->
  f ∈ fields /\ ProcessState.is_none f ps = false.
Proof.
  unfold first_present. intros H. apply find_some in H as [Hin Hf].
  split; [by apply list_elem_of_In|]. by apply negb_true_iff.
Qed.

Lemma first_present_None ps fields :
  first_present ps fields = None <->
  forall f, f ∈ fields -> ProcessState.is_none f ps = true.
Proof.
  unfold first_present. split.
  - intros H f Hf. apply list_elem_of_In in Hf.
    pose proof (find_none _ _ H f Hf) as Hn. cbn in Hn.
    by apply negb_false_iff.
  - intros H. destruct (List.find _ fields) as [f|] eqn:Hfind; [|done].
    apply find_some in Hfind as [Hin Hf].
    apply list_elem_of_In in Hin. by rewrite (H f Hin) in Hf.
Qed.

Lemma first_present_split ps fields f :
  first_present ps fields = Some f <->
  exists before after,
    fields = before ++ f :: after
    /\ (forall g, g ∈ before -> ProcessState.is_none g ps = true)
    /\ ProcessState.is_none f ps = false.
Proof.
  unfold first_present. revert f.
  induction fields as [|g gs IH]; intros f; cbn.
  - split; [done|]. intros (before & after & Heq & _). by destruct before.
  - destruct (ProcessState.is_none g ps) eqn:Hg; cbn.
    + rewrite IH. split.
      * intros (before & after & -> & Hb & Hf).
        exists (g :: before), after. split; [done|]. split; [|done].
        intros g0 H0. apply elem_of_cons in H0 as [->|H0]; [done|by apply Hb].
      * intros ([|b before] & after & Heq & Hb & Hf).
        -- injection Heq as <- _. congruence.
        -- injection Heq as <- ->. exists before, after.
           split; [done|]. split; [|done].
           intros g0 H0. apply Hb, elem_of_cons. by right.
    + split.
      * intros [= <-]. exists [], gs. split; [done|]. split; [|done].
        intros g0 H0. by apply elem_of_nil in H0.
      * intros ([|b before] & after & Heq & Hb & Hf).
        -- by injection Heq as <- _.
        -- injection Heq as <- _.
           rewrite (Hb g) in Hg by (apply elem_of_cons; by left). done.
Qed.

(** X19.  [check_and_copy_fields] looks at the record before it looks at
    the update.  If the record has one of the fields set it raises
    [ErrorRecoveringState] naming the first such field, in the order of the
    list, whatever the update holds; otherwise, if the update lacks one of
    the fields, it raises [ErrorRecoveringState] naming the first field
    lacking.  In both cases the record is left as it was.  Otherwise it
    returns, and every listed field of the record is the update's. *)
Theorem X19_check_and_copy_fields src fields (w : Env ProcessState.t) :
  (forall before f after,
     fields = before ++ f :: after ->
     (forall g, g ∈ before -> ProcessState.is_none g (obj w) = true) ->
     ProcessState.is_none f (obj w) = false ->
     check_and_copy_fields src fields w
     = (w, inl (ErrorRecoveringState (FieldShouldBeEmpty f))))
  /\ ((exists f, f ∈ fields /\ ProcessState.is_none f (obj w) = false) ->
      exists before f after,
        fields = before ++ f :: after
        /\ (forall g, g ∈ before -> ProcessState.is_none g (obj w) = true)
        /\ ProcessState.is_none f (obj w) = false
        /\ check_and_copy_fields src fields w
           = (w, inl (ErrorRecoveringState (FieldShouldBeEmpty f))))
  /\ ((forall f, f ∈ fields -> ProcessState.is_none f (obj w) = true) ->
      forall before f after,
        fields = before ++ f :: after ->
        (forall g, g ∈ before -> ProcessState.is_none g src = false) ->
        ProcessState.is_none f src = true ->
        check_and_copy_fields src fields w
        = (w, inl (ErrorRecoveringState (MissingField f))))
  /\ ((forall f, f ∈ fields -> ProcessState.is_none f (obj w) = true) ->
      (exists f, f ∈ fields /\ ProcessState.is_none f src = true) ->
      exists before f after,
        fields = before ++ f :: after
        /\ (forall g, g ∈ before -> ProcessState.is_none g src = false)
        /\ ProcessState.is_none f src = true
        /\ check_and_copy_fields src fields w
           = (w, inl (ErrorRecoveringState (MissingField f))))
  /\ ((forall f, f ∈ fields -> ProcessState.is_none f (obj w) = true) ->
      (forall f, f ∈ fields -> ProcessState.is_none f src = false) ->
      exists w',
        check_and_copy_fields src fields w = (w', inr tt)
        /\ calls w' = calls w
        /\ forall f, f ∈ fields -> same_field f src (obj w')).
Proof.
  rewrite check_and_copy_fields_eq, copy_fields_eq.
  split; [|split; [|split; [|split]]].
  - intros before f after Heq Hb Hf.
    assert (first_present (obj w) fields = Some f) as ->
      by (apply first_present_split; by exists before, after).
    done.
  - intros [f [Hf Hset]].
    destruct (first_present (obj w) fields) as [g|] eqn:Hfp.
    + apply first_present_split in Hfp as (before & after & Heq & Hb & Hg).
      by exists before, g, after.
    + rewrite first_present_None in Hfp. by rewrite (Hfp f Hf) in Hset.
  - intros Hempty before f after Heq Hb Hf.
    apply first_present_None in Hempty. rewrite Hempty.
    assert (first_missing src fields = Some f) as ->
      by (apply first_missing_split; by exists before, after).
    done.
  - intros Hempty [f [Hf Hnone]].
    apply first_present_None in Hempty. rewrite Hempty.
    destruct (first_missing src fields) as [g|] eqn:Hfm.
    + apply first_missing_split in Hfm as (before & after & Heq & Hb & Hg).
      by exists before, g, after.
    + rewrite first_missing_None in Hfm. by rewrite (Hfm f Hf) in Hnone.
  - intros Hempty Hall.
    apply first_present_None in Hempty. apply first_missing_None in Hall.
    rewrite Hempty, Hall. eexists. split; [reflexivity|]. cbn [obj calls].
    split; [done|]. intros f Hf. by apply copy_all_listed.
Qed.

Lemma X19_check_and_copy_fields_witness :
  check_and_copy_fields (forked_p 1) [F_fork_time; F_seq; F_runner_pid]
    (mkEnv (waiting_p 0) [] [])
  = (mkEnv (waiting_p 0) [] [],
     inl (ErrorRecoveringState (FieldShouldBeEmpty F_seq))).
Proof.
  apply (proj1 (X19_check_and_copy_fields (forked_p 1)
                  [F_fork_time; F_seq; F_runner_pid]
                  (mkEnv (waiting_p 0) [] []))
           [F_fork_time] F_seq [F_runner_pid]).
  - reflexivity.
  - intros g Hg.
    repeat (apply elem_of_cons in Hg as [->|Hg]; [reflexivity|]).
    by apply elem_of_nil in Hg.
  - reflexivity.
Defined.

(** * Gaps in the sequence numbers *)

Lemma copy_all_set_seq u rs v cur :
  copy_all u (required_fields rs) (ProcessState.set_seq v cur)
  = copy_all u (required_fields rs) cur.
Proof. by destruct rs, cur. Qed.

(** X20.  A gap in the sequence numbers is logged and otherwise
    tolerated.  For a record with a sequence number above zero and an
    update with a run state whose sequence number skips at least one, the
    call returns or raises what it would if the record's sequence number
    were the one just before the update's, makes the same handler calls,
    leaves the same record when it returns [True], and differs by one
    more error line in the log. *)
Theorem X20_gap_is_only_logged self u recovery (w : Env ProcessState.t)
    current s rs :
  ProcessState.seq (obj w) = Some current ->
  ProcessState.seq u = Some s ->
  ProcessState.run_state u = Some rs ->
  0 < current ->
  current + 1 < s ->
  exists w0 w' res,
    update_task_state self u recovery
      (mkEnv (ProcessState.set_seq (Some (s - 1)) (obj w)) (calls w) (logs w))
    = (w0, res)
    /\ update_task_state self u recovery w = (w', res)
    /\ (res = inr true -> obj w' = obj w0)
    /\ calls w' = calls w0
    /\ logs w0 = logs w
    /\ logs w' = logs w ++ [ErrNoncontiguous (obj w) u].
Proof.
  intros Hc Hs Hrs Hpos Hgap.
  rewrite !update_task_state_eq, Hs. unfold stale, warned.
  cbn [obj calls logs ProcessState.seq ProcessState.set_seq].
  rewrite Hc. cbn [py_gt py_le fmap option_fmap option_map].
  replace ((s - 1 >? 0) && (s <=? s - 1)) with false by lia.
  replace ((current >? 0) && (s <=? current)) with false by lia.
  replace (s - 1 + 1) with s by lia.
  rewrite (bool_decide_eq_true_2 (Some s = Some s)) by done.
  rewrite (bool_decide_eq_false_2 (Some s = Some (current + 1)))
    by (intros [=]; lia).
  replace (current >? 0) with true by lia.
  rewrite andb_false_r. cbn [andb negb].
  rewrite !run_transition_eq, Hrs. cbn [obj calls logs].
  destruct (obj w) as [cs cp cr cf crp cst cpid csp crc] eqn:Hobj.
  cbn [ProcessState.run_state ProcessState.set_seq ProcessState.seq
       ProcessState.process ProcessState.fork_time ProcessState.runner_pid
       ProcessState.start_time ProcessState.pid ProcessState.stop_time
       ProcessState.return_code].
  destruct (_ || _).
  { eexists _, _, _. split; [reflexivity|]. split; [reflexivity|]. done. }
  destruct (first_missing u (required_fields rs)).
  { eexists _, _, _. split; [reflexivity|]. split; [reflexivity|]. done. }
  eexists _, _, _. split; [reflexivity|]. split; [reflexivity|].
  cbn [obj calls logs]. split; [|done]. intros _.
  change (ProcessState.mk (Some (s - 1)) cp cr cf crp cst cpid csp crc)
    with (ProcessState.set_seq (Some (s - 1))
            (ProcessState.mk cs cp cr cf crp cst cpid csp crc)).
  by rewrite copy_all_set_seq.
Qed.

Lemma X20_gap_is_only_logged_witness :
  exists w0 w' res,
    update_task_state __init__ (lost_p 5) false
      (mkEnv (ProcessState.set_seq (Some (5 - 1)) (forked_p 1)) [] [])
    = (w0, res)
    /\ update_task_state __init__ (lost_p 5) false (mkEnv (forked_p 1) [] [])
       = (w', res)
    /\ logs w' = [ErrNoncontiguous (forked_p 1) (lost_p 5)].
Proof.
  destruct (X20_gap_is_only_logged __init__ (lost_p 5) false
              (mkEnv (forked_p 1) [] []) 1 5 ProcessRunState.LOST
              eq_refl eq_refl eq_refl ltac:(lia) ltac:(lia))
    as (w0 & w' & res & H0 & H1 & _ & _ & _ & Hlog).
  exists w0, w', res. split; [exact H0|]. split; [exact H1|exact Hlog].
Defined.

(** * Terminal runs and repeated records *)

(** X21.  The state machine applies no update with a run state to a
    terminal record, save one: an update to WAITING, which it lets through
    from any other run state. *)
Theorem X21_terminal_record_final self u recovery (w w' : Env ProcessState.t)
    rs :
  is_terminal (obj w) = true ->
  ProcessState.run_state u = Some rs ->
  update_task_state self u recovery w = (w', inr true) ->
  rs = ProcessRunState.WAITING.
Proof.
  intros Ht Hrs Hrun.
  pose proof (update_task_state_applied _ _ _ _ _ _ Hrs Hrun)
    as (s & _ & _ & Hne & Hg & _).
  unfold is_terminal in Ht.
  destruct (ProcessState.run_state (obj w)) as [[]|], rs; done.
Qed.

Lemma X21_terminal_record_final_witness :
  ProcessRunState.WAITING = ProcessRunState.WAITING.
Proof.
  exact (X21_terminal_record_final __init__ (waiting_p 3) false
           (mkEnv lost_run [] [])
           (update_task_state __init__ (waiting_p 3) false
              (mkEnv lost_run [] [])).1
           ProcessRunState.WAITING eq_refl eq_refl eq_refl).
Defined.

Lemma last_insert_last {A} (l : list A) x :
  l <> [] -> last (<[Nat.pred (length l) := x]> l) = Some x.
Proof.
  intros Hne. destruct (exists_last Hne) as [l0 [y ->]].
  by rewrite tail_write_snoc, last_snoc.
Qed.

(** X22.  A process-state record that was applied to a run in progress,
    with a run state and a sequence number above zero, and that arrives
    again in recovery mode, is not applied again and changes nothing.  If
    its run state is not terminal the call returns [False]; if it is
    terminal the call raises [ErrorRecoveringState], for the run it ended
    is now terminal. *)
Theorem X22_repeated_record self pu recovery w w' h tail rs s :
  TaskRunnerState.processes (obj w) !! ProcessState.process pu = Some h ->
  last (ProcessHistory.runs h) = Some tail ->
  is_terminal tail = false ->
  ProcessState.run_state pu = Some rs ->
  ProcessState.seq pu = Some s ->
  0 < s ->
  update_runner_state self (process_ckpt pu) recovery w = (w', inr true) ->
  exists w'',
    update_runner_state self (process_ckpt pu) true w'
    = (w'',
       if is_terminal pu
       then inl (ErrorRecoveringState
                   (TwoTerminalStates (ProcessState.process pu)))
       else inr false)
    /\ obj w'' = obj w'
    /\ calls w'' = calls w'.
Proof.
  intros Hk Hlast Ht Hrs Hs Hpos Hrun.
  rewrite update_runner_state_process in Hrun |- *.
  rewrite (update_process_state_current _ _ _ _ _ _ Hk Hlast Ht) in Hrun.
  erewrite on_tail_run_eq in Hrun by (cbn [obj]; eassumption).
  cbn [obj calls logs] in Hrun.
  destruct (update_task_state self pu recovery _) as [w1 r1] eqn:Hfirst.
  injection Hrun as <- ->.
  pose proof (update_task_state_applied _ _ _ _ _ _ Hrs Hfirst)
    as (s' & _ & _ & _ & _ & _ & Hobj & _).
  assert (ProcessHistory.runs h <> []) as Hne.
  { intros Hnil. by rewrite Hnil in Hlast. }
  set (h' := ProcessHistory.set_runs
               (<[Nat.pred (length (ProcessHistory.runs h)) := obj w1]>
                  (ProcessHistory.runs h)) h).
  assert (last (ProcessHistory.runs h') = Some (obj w1)) as Hlast'
    by (by apply last_insert_last).
  assert (is_terminal (obj w1) = is_terminal pu) as Hterm.
  { unfold is_terminal. by rewrite Hobj, copy_all_run_state. }
  pose proof (lookup_set_history (ProcessState.process pu) h' (obj w))
    as Hk'.
  destruct (is_terminal pu) eqn:Hu.
  - eexists. split; [|done].
    by apply update_process_state_two_terminal with h' (obj w1).
  - rewrite (update_process_state_current _ _ _ _ h' (obj w1));
      [|done|done|done].
    erewrite on_tail_run_eq by (cbn [obj]; eassumption).
    cbn [obj calls logs].
    destruct (update_task_state_repeat self pu recovery true _ _ _ Hrs Hfirst)
      as (s2 & Hs2 & Hrep).
    assert (s2 = s) as -> by congruence.
    replace (0 <? s) with true in Hrep by lia.
    destruct w1 as [o1 c1 l1]. cbn [obj calls logs] in *.
    rewrite update_task_state_eq in Hrep |- *. rewrite Hs in Hrep |- *.
    unfold stale in Hrep |- *. cbn [obj] in Hrep |- *.
    destruct (py_gt (ProcessState.seq o1) 0 && py_le s (ProcessState.seq o1))
      eqn:Hst.
    + eexists. split; [reflexivity|]. cbn [obj calls]. split; [|done].
      unfold set_history at 1. by rewrite tail_write_id.
    + rewrite run_transition_eq, Hrs in Hrep.
      rewrite warned_obj in Hrep. cbn [obj] in Hrep.
      destruct (_ || _); [done|].
      by destruct (first_missing pu (required_fields rs)).
Qed.

Lemma X22_repeated_record_witness :
  exists w'',
    update_runner_state __init__ (process_ckpt (lost_p 3)) true
      (update_runner_state __init__ (process_ckpt (lost_p 3)) false
         forked_env).1
    = (w'',
       inl (ErrorRecoveringState (TwoTerminalStates (Some "p"%string)))).
Proof.
  destruct (X22_repeated_record __init__ (lost_p 3) false forked_env
              (update_runner_state __init__ (process_ckpt (lost_p 3)) false
                 forked_env).1
              (ProcessHistory.mk (Some "p"%string) [forked_p 2]
                 (Some TaskState.ACTIVE))
              (forked_p 2) ProcessRunState.LOST 3
              eq_refl eq_refl eq_refl eq_refl eq_refl ltac:(lia)
              ltac:(vm_compute; reflexivity))
    as (w'' & Hrun & _).
  exists w''. exact Hrun.
Defined.

(** * Calls and log lines are only appended *)

Lemma appends_ret {S A} (a : A) : appends_only (@ret S A a).
Proof.
  intros o. exists o, [], [], (inr a). intros cs ls.
  unfold ret. by rewrite !app_nil_r.
Qed.

Lemma appends_raise {S A} e : appends_only (@raise S A e).
Proof.
  intros o. exists o, [], [], (inl e). intros cs ls.
  unfold raise. by rewrite !app_nil_r.
Qed.

Lemma appends_modify {S} (f : S -> S) : appends_only (modify f).
Proof.
  intros o. exists (f o), [], [], (inr tt). intros cs ls.
  unfold modify. cbn. by rewrite !app_nil_r.
Qed.

Lemma appends_log {S} l : appends_only (@log S l).
Proof.
  intros o. exists o, [], [l], (inr tt). intros cs ls.
  unfold log. cbn. by rewrite !app_nil_r.
Qed.

Lemma appends_call {S} c : appends_only (@call S c).
Proof.
  intros o. exists o, [c], [], (inr tt). intros cs ls.
  unfold call. cbn. by rewrite !app_nil_r.
Qed.

Lemma appends_bind {S A B} (m : M S A) (k : A -> M S B) :
  appends_only m -> (forall a, appends_only (k a)) -> appends_only (bind m k).
Proof.
  intros Hm Hk o. destruct (Hm o) as (o1 & dc1 & dl1 & [e|a] & H1).
  - exists o1, dc1, dl1, (inl e). intros cs ls. unfold bind. by rewrite H1.
  - destruct (Hk a o1) as (o2 & dc2 & dl2 & res & H2).
    exists o2, (dc1 ++ dc2), (dl1 ++ dl2), res. intros cs ls.
    unfold bind. by rewrite H1, H2, !app_assoc.
Qed.

(** A computation that starts by reading the object. *)
Lemma appends_get_bind {S B} (k : S -> M S B) :
  (forall o, appends_only (k o)) -> appends_only (bind get k).
Proof.
  intros Hk o. destruct (Hk o o) as (o2 & dc & dl & res & H).
  exists o2, dc, dl, res. intros cs ls. unfold bind, get. cbn. apply H.
Qed.

Lemma appends_for_each {S X A} (xs : list X) (body : X -> M S A) :
  (forall x, appends_only (body x)) -> appends_only (for_each xs body).
Proof.
  intros Hbody. induction xs as [|x xs IH]; cbn.
  - apply appends_ret.
  - apply appends_bind; [apply Hbody|]. intros _. apply IH.
Qed.

Lemma appends_check_nonempty_fields {S} ps fields :
  appends_only (@check_nonempty_fields S ps fields).
Proof.
  induction fields as [|f fs IH]; cbn; [apply appends_ret|].
  destruct (ProcessState.is_none f ps); [apply appends_raise|apply IH].
Qed.

Lemma appends_copy_fields u fields : appends_only (copy_fields u fields).
Proof.
  unfold copy_fields.
  apply appends_bind; [apply appends_check_nonempty_fields|]. intros _.
  apply appends_for_each. intros f. apply appends_modify.
Qed.

Lemma appends_run_state_dispatch {S} self state u :
  appends_only (@_run_state_dispatch S self state u).
Proof.
  unfold _run_state_dispatch.
  apply appends_bind; [|intros _];
    apply appends_for_each; intros h; apply appends_call.
Qed.

Lemma appends_run_transition self u : appends_only (run_transition self u).
Proof.
  unfold run_transition. apply appends_bind.
  { destruct (ProcessState.run_state u); [|apply appends_ret].
    apply appends_get_bind. intros o.
    destruct (bool_decide _); [apply appends_raise|apply appends_ret]. }
  intros _. apply appends_bind.
  { destruct (ProcessState.run_state u) as [[]|];
      try apply appends_ret; try apply appends_copy_fields;
      apply appends_get_bind; intros o;
      match goal with
      | |- appends_only (if ?b then _ else _) =>
          destruct b; [apply appends_raise|apply appends_copy_fields]
      end. }
  intros _. apply appends_bind; [apply appends_run_state_dispatch|].
  intros _. apply appends_ret.
Qed.

Lemma appends_update_task_state self u recovery :
  appends_only (update_task_state self u recovery).
Proof.
  unfold update_task_state.
  destruct (ProcessState.seq u) as [s|]; [|apply appends_raise].
  apply appends_get_bind. intros o.
  destruct (_ && _).
  { destruct recovery; [apply appends_ret|apply appends_raise]. }
  apply appends_bind; [|intros _; apply appends_run_transition].
  destruct (_ && _); [apply appends_log|apply appends_ret].
Qed.

Lemma appends_on_tail_run {A} k (m : M ProcessState.t A) :
  appends_only m -> appends_only (on_tail_run k m).
Proof.
  intros Hm o. unfold on_tail_run. cbn [obj calls logs].
  destruct (TaskRunnerState.processes o !! k) as [h|].
  2:{ exists o, [], [], (inl KeyError). intros cs ls.
      by rewrite !app_nil_r. }
  destruct (last (ProcessHistory.runs h)) as [ps|].
  2:{ exists o, [], [], (inl IndexError). intros cs ls.
      by rewrite !app_nil_r. }
  destruct (Hm ps) as (ps' & dc & dl & res & H).
  eexists _, dc, dl, res. intros cs ls. rewrite H. cbn [obj calls logs].
  reflexivity.
Qed.

Lemma appends_update_process_state self pu recovery :
  appends_only (update_process_state self pu recovery).
Proof.
  unfold update_process_state. apply appends_get_bind. intros o.
  destruct (TaskRunnerState.processes o !! ProcessState.process pu) as [h|].
  - destruct (last (ProcessHistory.runs h)) as [tail|];
      [|apply appends_raise].
    destruct (is_terminal tail).
    + destruct (is_terminal pu); [apply appends_raise|].
      apply appends_bind; [apply appends_log|]. intros _.
      cbv beta iota zeta delta [transition_to_waiting].
      apply appends_bind; [apply appends_modify|]. intros _.
      cbn [ProcessState.seq ProcessState.set_run_state ProcessState.make].
      destruct (ProcessState.seq tail); [|apply appends_raise].
      apply appends_bind; [apply appends_log|]. intros _.
      apply appends_on_tail_run, appends_update_task_state.
    + apply appends_bind; [apply appends_log|]. intros _.
      apply appends_on_tail_run, appends_update_task_state.
  - apply appends_bind; [apply appends_log|]. intros _.
    cbv beta iota zeta delta [transition_to_waiting].
    apply appends_bind; [apply appends_modify|]. intros _.
    apply appends_bind; [apply appends_log|]. intros _.
    apply appends_on_tail_run, appends_update_task_state.
Qed.

Lemma appends_update_runner_state self runner_ckpt recovery :
  appends_only (update_runner_state self runner_ckpt recovery).
Proof.
  unfold update_runner_state.
  destruct (TaskRunnerCkpt.runner_header runner_ckpt) as [hd|].
  { apply appends_get_bind. intros o.
    destruct (TaskRunnerState.header o); [apply appends_raise|].
    apply appends_bind; [apply appends_log|]. intros _.
    apply appends_bind; [apply appends_modify|]. intros _.
    apply appends_ret. }
  destruct (TaskRunnerCkpt.allocated_port runner_ckpt) as [ap|].
  { cbv zeta. apply appends_get_bind. intros o. apply appends_bind.
    { destruct (TaskRunnerState.ports o);
        [apply appends_ret|apply appends_modify]. }
    intros _. apply appends_get_bind. intros o1.
    destruct (TaskRunnerState.ports o1) as [ports|]; [|apply appends_raise].
    destruct (ports !! _).
    - destruct (bool_decide _); [apply appends_raise|apply appends_ret].
    - apply appends_bind; [apply appends_log|]. intros _.
      apply appends_bind; [apply appends_modify|]. intros _.
      apply appends_bind; [|intros _; apply appends_ret].
      apply appends_for_each. intros h. apply appends_call. }
  destruct (TaskRunnerCkpt.state_update runner_ckpt) as [su|].
  { apply appends_get_bind. intros o.
    destruct (bool_decide _); [|apply appends_ret]. cbv zeta.
    apply appends_bind; [apply appends_modify|]. intros _.
    destruct (TaskStateUpdate.state su); [|apply appends_raise].
    apply appends_bind; [apply appends_log|]. intros _.
    apply appends_ret. }
  destruct (TaskRunnerCkpt.history_state_update runner_ckpt) as [hu|].
  { cbv zeta. apply appends_get_bind. intros o.
    destruct (TaskRunnerState.processes o !! _); [|apply appends_raise].
    destruct (bool_decide _); [|apply appends_ret].
    apply appends_bind; [apply appends_modify|]. intros _.
    destruct (HistoryStateUpdate.state hu); [|apply appends_raise].
    apply appends_bind; [apply appends_log|]. intros _.
    apply appends_ret. }
  destruct (TaskRunnerCkpt.process_state runner_ckpt) as [pu|].
  - apply appends_update_process_state.
  - apply appends_bind; [apply appends_log|]. intros _. apply appends_ret.
Qed.

(** * Replay from a state already reached *)

Lemma from_file_outcome records :
  from_file records
  = outcome_of
      (for_each records
         (fun r => update_runner_state __init__ r default_recovery)
         (mkEnv fresh_state [] [])).
Proof. reflexivity. Qed.

(** The outcome of a replay does not depend on the calls and the log it
    starts with. *)
Lemma replay_outcome_frame self recovery records o cs ls :
  outcome_of
    (for_each records (fun r => update_runner_state self r recovery)
       (mkEnv o cs ls))
  = outcome_of
      (for_each records (fun r => update_runner_state self r recovery)
         (mkEnv o [] [])).
Proof.
  destruct (appends_for_each records
              (fun r => update_runner_state self r recovery)
              (fun r => appends_update_runner_state self r recovery) o)
    as (o' & dc & dl & res & H).
  by rewrite (H cs ls), (H [] []).
Qed.

(** X23.  Replay can be resumed: when [from_file] returns a state for some
    records, its outcome for these records followed by others is the
    outcome of applying the others, in order and without recovery, to that
    state. *)
Theorem X23_from_file_resumes records more state :
  from_file records = Returned (Some state) ->
  from_file (records ++ more)
  = outcome_of
      (for_each more (fun r => update_runner_state __init__ r false)
         (mkEnv state [] [])).
Proof.
  rewrite !from_file_outcome. unfold default_recovery.
  rewrite for_each_app.
  destruct (for_each records _ _) as [[o cs ls] [e|u]]; cbn [outcome_of].
  - by destruct (is_dispatcher_error e).
  - intros [= <-]. cbn [obj]. apply replay_outcome_frame.
Qed.

Lemma X23_from_file_resumes_witness :
  from_file (lost_records ++ restart_records)
  = outcome_of
      (for_each restart_records
         (fun r => update_runner_state __init__ r false)
         (mkEnv (obj lost_env) [] [])).
Proof.
  apply X23_from_file_resumes. vm_compute. reflexivity.
Defined.

(** X24.  A record with no member set is skipped by the replay: wherever
    it stands among the records, [from_file] comes to the same outcome as
    without it. *)
Theorem X24_from_file_skips_empty_records records more :
  from_file (records ++ empty_ckpt :: more) = from_file (records ++ more).
Proof.
  rewrite !from_file_outcome, !for_each_app.
  destruct (for_each records _ _) as [[o cs ls] [e|u]]; [done|].
  cbn [for_each]. unfold bind at 1.
  change (update_runner_state __init__ empty_ckpt default_recovery
            (mkEnv o cs ls))
    with (mkEnv o cs (ls ++ [ErrEmptyCkpt]), @inr Exn bool false).
  cbv beta iota.
  by rewrite (replay_outcome_frame _ _ _ o cs (ls ++ [ErrEmptyCkpt])),
    (replay_outcome_frame _ _ _ o cs ls).
Qed.
